(** * The report pipeline of ai-marketing-reports

    A shallow embedding of [backend/config/reports/models.py] (the [Report]
    record, its [save] and [progress_percentage]) and of
    [backend/config/reports/tasks.py] (the Celery task
    [generate_marketing_report] and the periodic [monitor_report_processing]),
    followed by the properties of the pipeline that are proved about them.

    Conventions.
    - JSON fields are values of [json]; a Python [dict] is an association
      list in insertion order.
    - A [datetime] is a number of microseconds ([Z]); [timedelta.total_seconds]
      followed by [int] is truncation of the quotient by 10^6.
    - The database, the clock, the channel layer and the task queue make up a
      [World]; every call that reaches the database, the channel layer or the
      broker may raise, which a schedule of faults in the world decides.
    - Python code runs in a state-and-exception monad [M]; a [try]/[except]
      keeps the mutations made before the exception, as Python does. *)

From Stdlib Require Import ZArith QArith Lia.
From stdpp Require Import base option list gmap strings sorting.

Local Open Scope Z_scope.

#[local] Set Warnings "-register-all".

(* ===================================================================== *)
(** ** JSON values and Python dictionaries *)

Inductive json : Type :=
| JNull
| JBool (b : bool)
| JInt (n : Z)
| JFloat (m e : Z)          (* the decimal m * 10^e, e.g. 5.0 is JFloat 50 (-1) *)
| JStr (s : string)
| JList (l : list json)
| JDict (d : list (string * json)).

Abbreviation dict := (list (string * json)).

Fixpoint dict_get (k : string) (d : dict) : option json :=
  match d with
  | [] => None
  | (k', v) :: d' => if String.eqb k k' then Some v else dict_get k d'
  end.

(** [d[k] = v]: the value is replaced in place when the key is present, and
    the pair is added at the end otherwise. *)
Fixpoint dict_set (k : string) (v : json) (d : dict) : dict :=
  match d with
  | [] => [(k, v)]
  | (k', v') :: d' =>
      if String.eqb k k' then (k', v) :: d' else (k', v') :: dict_set k v d'
  end.

Definition dict_has (k : string) (d : dict) : bool :=
  match dict_get k d with Some _ => true | None => false end.

Definition dict_keys (d : dict) : list string := map fst d.

(** The name [type(v).__name__] that Python prints in a [TypeError] or an
    [AttributeError]. *)
Definition type_name (v : json) : string :=
  match v with
  | JNull => "NoneType"
  | JBool _ => "bool"
  | JInt _ => "int"
  | JFloat _ _ => "float"
  | JStr _ => "str"
  | JList _ => "list"
  | JDict _ => "dict"
  end.

(** Python truthiness of a JSON value. *)
Definition truthy (v : json) : bool :=
  match v with
  | JNull => false
  | JBool b => b
  | JInt n => negb (n =? 0)
  | JFloat m _ => negb (m =? 0)
  | JStr s => negb (String.eqb s "")
  | JList l => match l with [] => false | _ => true end
  | JDict d => match d with [] => false | _ => true end
  end.

(* ===================================================================== *)
(** ** models.py: Website and Report *)

Module Website.
Record t : Type := mk {
  id : Z;
  url : string;
  domain : string;
  company_name : string;
  industry : string;
  created_at : Z;
  updated_at : Z
}.

Definition set_domain (v : string) (w : t) : t :=
  mk (id w) (url w) v (company_name w) (industry w) (created_at w)
     (updated_at w).
Definition set_company_name (v : string) (w : t) : t :=
  mk (id w) (url w) (domain w) v (industry w) (created_at w) (updated_at w).
Definition set_updated_at (v : Z) (w : t) : t :=
  mk (id w) (url w) (domain w) (company_name w) (industry w) (created_at w)
     v.
End Website.

(** [Report.STATUS_CHOICES]. *)
Inductive report_status : Type := pending | processing | completed | failed | cancelled.

Definition status_eqb (a b : report_status) : bool :=
  match a, b with
  | pending, pending | processing, processing | completed, completed
  | failed, failed | cancelled, cancelled => true
  | _, _ => false
  end.

(** One entry of [Report.processing_steps]. *)
Module Step.
Record t : Type := mk {
  step : string;
  status : string;
  progress : Z;
  message : string;
  updated_at : option Z
}.
End Step.

Module Report.
Record t : Type := mk {
  id : string;
  website_id : Z;
  status : report_status;
  requester_email : string;
  executive_summary : json;
  seo_data : json;
  social_data : json;
  reputation_data : json;
  competitor_data : json;
  trust_score : json;
  growth_opportunities : json;
  technical_analysis : json;
  created_at : Z;
  updated_at : Z;
  completed_at : option Z;
  processing_started_at : option Z;
  processing_steps : list Step.t;
  error_messages : list string;
  processing_time_seconds : option Z
}.

Definition set_status (v : report_status) (r : t) : t :=
  mk (id r) (website_id r) v (requester_email r) (executive_summary r)
     (seo_data r) (social_data r) (reputation_data r) (competitor_data r)
     (trust_score r) (growth_opportunities r) (technical_analysis r)
     (created_at r) (updated_at r) (completed_at r) (processing_started_at
     r) (processing_steps r) (error_messages r) (processing_time_seconds
     r).
Definition set_executive_summary (v : json) (r : t) : t :=
  mk (id r) (website_id r) (status r) (requester_email r) v (seo_data r)
     (social_data r) (reputation_data r) (competitor_data r) (trust_score
     r) (growth_opportunities r) (technical_analysis r) (created_at r)
     (updated_at r) (completed_at r) (processing_started_at r)
     (processing_steps r) (error_messages r) (processing_time_seconds r).
Definition set_seo_data (v : json) (r : t) : t :=
  mk (id r) (website_id r) (status r) (requester_email r)
     (executive_summary r) v (social_data r) (reputation_data r)
     (competitor_data r) (trust_score r) (growth_opportunities r)
     (technical_analysis r) (created_at r) (updated_at r) (completed_at r)
     (processing_started_at r) (processing_steps r) (error_messages r)
     (processing_time_seconds r).
Definition set_social_data (v : json) (r : t) : t :=
  mk (id r) (website_id r) (status r) (requester_email r)
     (executive_summary r) (seo_data r) v (reputation_data r)
     (competitor_data r) (trust_score r) (growth_opportunities r)
     (technical_analysis r) (created_at r) (updated_at r) (completed_at r)
     (processing_started_at r) (processing_steps r) (error_messages r)
     (processing_time_seconds r).
Definition set_reputation_data (v : json) (r : t) : t :=
  mk (id r) (website_id r) (status r) (requester_email r)
     (executive_summary r) (seo_data r) (social_data r) v (competitor_data
     r) (trust_score r) (growth_opportunities r) (technical_analysis r)
     (created_at r) (updated_at r) (completed_at r) (processing_started_at
     r) (processing_steps r) (error_messages r) (processing_time_seconds
     r).
Definition set_competitor_data (v : json) (r : t) : t :=
  mk (id r) (website_id r) (status r) (requester_email r)
     (executive_summary r) (seo_data r) (social_data r) (reputation_data
     r) v (trust_score r) (growth_opportunities r) (technical_analysis r)
     (created_at r) (updated_at r) (completed_at r) (processing_started_at
     r) (processing_steps r) (error_messages r) (processing_time_seconds
     r).
Definition set_trust_score (v : json) (r : t) : t :=
  mk (id r) (website_id r) (status r) (requester_email r)
     (executive_summary r) (seo_data r) (social_data r) (reputation_data
     r) (competitor_data r) v (growth_opportunities r) (technical_analysis
     r) (created_at r) (updated_at r) (completed_at r)
     (processing_started_at r) (processing_steps r) (error_messages r)
     (processing_time_seconds r).
Definition set_growth_opportunities (v : json) (r : t) : t :=
  mk (id r) (website_id r) (status r) (requester_email r)
     (executive_summary r) (seo_data r) (social_data r) (reputation_data
     r) (competitor_data r) (trust_score r) v (technical_analysis r)
     (created_at r) (updated_at r) (completed_at r) (processing_started_at
     r) (processing_steps r) (error_messages r) (processing_time_seconds
     r).
Definition set_technical_analysis (v : json) (r : t) : t :=
  mk (id r) (website_id r) (status r) (requester_email r)
     (executive_summary r) (seo_data r) (social_data r) (reputation_data
     r) (competitor_data r) (trust_score r) (growth_opportunities r) v
     (created_at r) (updated_at r) (completed_at r) (processing_started_at
     r) (processing_steps r) (error_messages r) (processing_time_seconds
     r).
Definition set_updated_at (v : Z) (r : t) : t :=
  mk (id r) (website_id r) (status r) (requester_email r)
     (executive_summary r) (seo_data r) (social_data r) (reputation_data
     r) (competitor_data r) (trust_score r) (growth_opportunities r)
     (technical_analysis r) (created_at r) v (completed_at r)
     (processing_started_at r) (processing_steps r) (error_messages r)
     (processing_time_seconds r).
Definition set_completed_at (v : option Z) (r : t) : t :=
  mk (id r) (website_id r) (status r) (requester_email r)
     (executive_summary r) (seo_data r) (social_data r) (reputation_data
     r) (competitor_data r) (trust_score r) (growth_opportunities r)
     (technical_analysis r) (created_at r) (updated_at r) v
     (processing_started_at r) (processing_steps r) (error_messages r)
     (processing_time_seconds r).
Definition set_processing_started_at (v : option Z) (r : t) : t :=
  mk (id r) (website_id r) (status r) (requester_email r)
     (executive_summary r) (seo_data r) (social_data r) (reputation_data
     r) (competitor_data r) (trust_score r) (growth_opportunities r)
     (technical_analysis r) (created_at r) (updated_at r) (completed_at r)
     v (processing_steps r) (error_messages r) (processing_time_seconds r).
Definition set_processing_steps (v : list Step.t) (r : t) : t :=
  mk (id r) (website_id r) (status r) (requester_email r)
     (executive_summary r) (seo_data r) (social_data r) (reputation_data
     r) (competitor_data r) (trust_score r) (growth_opportunities r)
     (technical_analysis r) (created_at r) (updated_at r) (completed_at r)
     (processing_started_at r) v (error_messages r)
     (processing_time_seconds r).
Definition set_error_messages (v : list string) (r : t) : t :=
  mk (id r) (website_id r) (status r) (requester_email r)
     (executive_summary r) (seo_data r) (social_data r) (reputation_data
     r) (competitor_data r) (trust_score r) (growth_opportunities r)
     (technical_analysis r) (created_at r) (updated_at r) (completed_at r)
     (processing_started_at r) (processing_steps r) v
     (processing_time_seconds r).
Definition set_processing_time_seconds (v : option Z) (r : t) : t :=
  mk (id r) (website_id r) (status r) (requester_email r)
     (executive_summary r) (seo_data r) (social_data r) (reputation_data
     r) (competitor_data r) (trust_score r) (growth_opportunities r)
     (technical_analysis r) (created_at r) (updated_at r) (completed_at r)
     (processing_started_at r) (processing_steps r) (error_messages r) v.
End Report.

(** The part of [Report.save] that precedes [super().save()]:
    [completed_at] is filled in when the status is ['completed'] and it is
    still empty, and the processing time is recomputed whenever both
    timestamps are present. [now] is the value of [timezone.now()]. *)
Definition before_save (now : Z) (r : Report.t) : Report.t :=
  let r1 :=
    if status_eqb (Report.status r) completed
       && negb (bool_decide (is_Some (Report.completed_at r)))
    then Report.set_completed_at (Some now) r
    else r in
  match Report.completed_at r1, Report.processing_started_at r1 with
  | Some c, Some s => Report.set_processing_time_seconds (Some ((c - s) ÷ 1000000)) r1
  | _, _ => r1
  end.

(** [Report.progress_percentage]. Python computes
    [(completed_steps / total_steps) * 100] in binary floating point; [fl] is
    the rounding of one floating-point operation. *)
Definition completed_steps (steps : list Step.t) : nat :=
  length (filter (fun s => Step.status s = "completed") steps).

Definition progress_percentage (fl : Q -> Q) (r : Report.t) : Q :=
  match Report.processing_steps r with
  | [] => 0%Q
  | steps =>
      let total_steps := length steps in
      if Nat.eqb total_steps 0 then 0%Q
      else fl (fl (inject_Z (Z.of_nat (completed_steps steps))
                   / inject_Z (Z.of_nat total_steps)) * 100)%Q
  end.

(* ===================================================================== *)
(** ** The world a task runs in *)

(** Messages sent through the channel layer ([group_send]). *)
Inductive event : Type :=
| report_progress_update
    (step status : string) (progress : Z) (message : string) (timestamp : Z)
    (error : option string)
| report_status_update (report_id status message : string) (timestamp : Z)
| report_completed (report_id : string) (timestamp : Z)
| report_status_changed (report_id old_status new_status : string) (timestamp : Z)
| report_failed (report_id error : string) (timestamp : Z).

(** Tasks handed to the broker: with [.delay], and, for the last one, by
    [self.retry], which publishes the running task again with its count of
    retries and the countdown before it is run. *)
Inductive task : Type :=
| send_report_notification (email report_id : string)
| generate_marketing_report_task (report_id : string)
| generate_marketing_report_retry (report_id : string) (retries : nat) (countdown : Z).

(** [faults] is consumed one entry per call that reaches the database, the
    channel layer or the broker: [Some msg] makes that call raise
    [Exception(msg)], [None] (or an exhausted schedule) lets it through. *)
Record World : Type := mkWorld {
  reports : gmap string Report.t;
  websites : gmap Z Website.t;
  now : Z;
  faults : list (option string);
  channel_layer : bool;                 (* get_channel_layer() is not None *)
  published : list (string * event);    (* group name, message; oldest first *)
  queue : list task;
  invoked : list string                 (* collaborators called, oldest first *)
}.

Definition set_reports (v : gmap string Report.t) (w : World) : World :=
  mkWorld v (websites w) (now w) (faults w) (channel_layer w) (published w)
          (queue w) (invoked w).
Definition set_websites (v : gmap Z Website.t) (w : World) : World :=
  mkWorld (reports w) v (now w) (faults w) (channel_layer w) (published w)
          (queue w) (invoked w).
Definition set_now (v : Z) (w : World) : World :=
  mkWorld (reports w) (websites w) v (faults w) (channel_layer w) (published w)
          (queue w) (invoked w).
Definition set_faults (v : list (option string)) (w : World) : World :=
  mkWorld (reports w) (websites w) (now w) v (channel_layer w) (published w)
          (queue w) (invoked w).
Definition set_published (v : list (string * event)) (w : World) : World :=
  mkWorld (reports w) (websites w) (now w) (faults w) (channel_layer w) v
          (queue w) (invoked w).
Definition set_queue (v : list task) (w : World) : World :=
  mkWorld (reports w) (websites w) (now w) (faults w) (channel_layer w)
          (published w) v (invoked w).
Definition set_invoked (v : list string) (w : World) : World :=
  mkWorld (reports w) (websites w) (now w) (faults w) (channel_layer w)
          (published w) (queue w) v.

(** The result of calling a collaborator: how long it took and whether it
    returned or raised. *)
Inductive outcome (A : Type) : Type :=
| Returns (a : A)
| Raises (msg : string).
Arguments Returns {A} a.
Arguments Raises {A} msg.

Record call (A : Type) : Type := mkCall { elapsed : Z; result : outcome A }.
Arguments mkCall {A} elapsed result.
Arguments elapsed {A} c.
Arguments result {A} c.

(** What the task takes from outside this repository's orchestration code:
    the eight collaborators, and three operations of the Python runtime. *)
Record Env : Type := mkEnv {
  py_str : json -> string;              (* str(v), as an f-string formats it *)
  netloc : string -> string;            (* urlparse(url).netloc *)
  quality_pct : Z -> Z -> json;         (* round((a / b) * 100, 1), in floats *)
  isoformat : Z -> string;              (* datetime.isoformat() *)
  analyze_website : string -> call dict;
  collect_seo_data : string -> json -> call dict;
  collect_social_data : string -> json -> call dict;
  collect_reputation_data : string -> json -> call dict;
  collect_competitor_data : string -> list string -> call dict;
  calculate_trust_score : dict -> call dict;
  generate_recommendations : dict -> call (list json);
  generate_summary : dict -> call dict
}.

(* ===================================================================== *)
(** ** Python control flow: state and exceptions *)

Inductive exn : Type :=
| DoesNotExist                 (* Report.DoesNotExist *)
| Exception (msg : string).

Definition str_exn (e : exn) : string :=
  match e with
  | DoesNotExist => "Report matching query does not exist."
  | Exception msg => msg
  end.

Inductive res (A : Type) : Type :=
| Ok (a : A)
| Raise (e : exn).
Arguments Ok {A} a.
Arguments Raise {A} e.

Definition M (S A : Type) : Type := S -> res A * S.

Definition ret {S A} (a : A) : M S A := fun s => (Ok a, s).
Definition raise {S A} (e : exn) : M S A := fun s => (Raise e, s).
Definition bind {S A B} (m : M S A) (k : A -> M S B) : M S B :=
  fun s => match m s with
           | (Ok a, s') => k a s'
           | (Raise e, s') => (Raise e, s')
           end.
(** [try: m  except Exception as e: h e]. *)
Definition try_except {S A} (m : M S A) (h : exn -> M S A) : M S A :=
  fun s => match m s with
           | (Ok a, s') => (Ok a, s')
           | (Raise e, s') => h e s'
           end.
Definition gets {S A} (f : S -> A) : M S A := fun s => (Ok (f s), s).
Definition modify {S} (f : S -> S) : M S unit := fun s => (Ok tt, f s).
(** Run a computation on a component of the state. *)
Definition zoom {S T A} (get : S -> T) (set : T -> S -> S) (m : M T A) : M S A :=
  fun s => let '(r, t) := m (get s) in (r, set t s).

Declare Scope py_scope.
Delimit Scope py_scope with py.
Notation "x <- m ;; k" := (bind m (fun x => k))
  (at level 100, m at next level, right associativity) : py_scope.
Notation "m ;; k" := (bind m (fun _ => k))
  (at level 100, right associativity) : py_scope.
Local Open Scope py_scope.

(* ===================================================================== *)
(** ** Database, clock, channel layer and broker *)

(** The fate of the next call that leaves the process. *)
Definition infra : M World unit :=
  fun w => match faults w with
           | [] => (Ok tt, w)
           | None :: fs => (Ok tt, set_faults fs w)
           | Some msg :: fs => (Raise (Exception msg), set_faults fs w)
           end.

Definition timezone_now : M World Z := gets now.

(** [Report.objects.get(id=report_id)]. *)
Definition objects_get (report_id : string) : M World Report.t :=
  infra ;;
  r <- gets (fun w => reports w !! report_id) ;;
  match r with
  | Some r => ret r
  | None => raise DoesNotExist
  end.

(** [channel_layer.group_send(group, message)], synchronously. *)
Definition group_send (group : string) (message : event) : M World unit :=
  infra ;;
  modify (fun w => set_published (published w ++ [(group, message)]) w).

(** [some_task.delay(...)]. *)
Definition delay (t : task) : M World unit :=
  infra ;;
  modify (fun w => set_queue (queue w ++ [t]) w).

(** The object after [save()] at time [t], whether the row was written or
    not: [before_save], then the [auto_now] field [updated_at]. *)
Definition saved (t : Z) (r : Report.t) : Report.t :=
  Report.set_updated_at t (before_save t r).
Arguments saved : simpl never.

(** [report.save()] on the object [r] held in memory: the object is mutated
    first, and the row is written after that, so a failing write leaves the
    mutations on the object. *)
Definition Report_save : M (Report.t * World) unit :=
  t <- zoom snd (fun w s => (s.1, w)) timezone_now ;;
  modify (fun s => (saved t s.1, s.2)) ;;
  zoom snd (fun w s => (s.1, w)) infra ;;
  modify (fun s => (s.1, set_reports (<[Report.id s.1 := s.1]> (reports s.2)) s.2)).

(** [Website.save()]. *)
Definition Website_save (env : Env) : M (Website.t * World) unit :=
  modify (fun s =>
    let site := s.1 in
    (if String.eqb (Website.domain site) "" && negb (String.eqb (Website.url site) "")
     then Website.set_domain (netloc env (Website.url site)) site
     else site, s.2)) ;;
  t <- zoom snd (fun w s => (s.1, w)) timezone_now ;;
  modify (fun s => (Website.set_updated_at t s.1, s.2)) ;;
  zoom snd (fun w s => (s.1, w)) infra ;;
  modify (fun s => (s.1, set_websites (<[Website.id s.1 := s.1]> (websites s.2)) s.2)).

(** A collaborator is called: time passes, and it returns or raises. *)
Definition invoke {A} (name : string) (c : call A) : M World A :=
  modify (fun w => set_invoked (invoked w ++ [name]) (set_now (now w + elapsed c) w)) ;;
  match result c with
  | Returns a => ret a
  | Raises msg => raise (Exception msg)
  end.

(* ===================================================================== *)
(** ** tasks.py: the local state of [generate_marketing_report] *)

(** The objects the task holds once the report is loaded: the [report]
    instance, its cached [report.website], the [collected_data] dictionary,
    and the world around them. *)
Record Frame : Type := mkFrame {
  report : Report.t;
  website : Website.t;
  collected_data : dict;
  world : World
}.

Definition set_report (v : Report.t) (f : Frame) : Frame :=
  mkFrame v (website f) (collected_data f) (world f).
Definition set_website (v : Website.t) (f : Frame) : Frame :=
  mkFrame (report f) v (collected_data f) (world f).
Definition set_collected_data (v : dict) (f : Frame) : Frame :=
  mkFrame (report f) (website f) v (world f).
Definition set_world (v : World) (f : Frame) : Frame :=
  mkFrame (report f) (website f) (collected_data f) v.

Definition on_world {A} (m : M World A) : M Frame A := zoom world set_world m.
Definition on_report {A} (m : M (Report.t * World) A) : M Frame A :=
  zoom (fun f => (report f, world f))
       (fun s f => set_world s.2 (set_report s.1 f)) m.
Definition on_website {A} (m : M (Website.t * World) A) : M Frame A :=
  zoom (fun f => (website f, world f))
       (fun s f => set_world s.2 (set_website s.1 f)) m.

(** [report.<field> = v]. *)
Definition assign (set : Report.t -> Report.t) : M Frame unit :=
  modify (fun f => set_report (set (report f)) f).

(** [collected_data[k] = v] and [collected_data[k]]. *)
Definition cd_set (k : string) (v : json) : M Frame unit :=
  modify (fun f => set_collected_data (dict_set k v (collected_data f)) f).

Definition cd_item (k : string) : M Frame json :=
  d <- gets collected_data ;;
  match dict_get k d with
  | Some v => ret v
  | None => raise (Exception ("'" +:+ k +:+ "'"))      (* KeyError *)
  end.

(** [v.get(k, default)] for a value [v] that should be a dictionary. *)
Definition get_method {S} (v : json) (k : string) (default : json) : M S json :=
  match v with
  | JDict d => ret (match dict_get k d with Some x => x | None => default end)
  | _ => raise (Exception ("'" +:+ type_name v +:+ "' object has no attribute 'get'"))
  end.

(** [k in v]. The values tested in this file are dictionaries; for the other
    iterables (a list, a string) the test is not modelled and raises. *)
Definition contains {S} (k : string) (v : json) : M S bool :=
  match v with
  | JDict d => ret (dict_has k d)
  | _ => raise (Exception ("argument of type '" +:+ type_name v +:+ "' is not iterable"))
  end.

(** [v[k]] for a value [v] that should be a dictionary. *)
Definition item {S} (v : json) (k : string) : M S json :=
  match v with
  | JDict d =>
      match dict_get k d with
      | Some x => ret x
      | None => raise (Exception ("'" +:+ k +:+ "'"))
      end
  | _ => raise (Exception ("'" +:+ type_name v +:+ "' object is not subscriptable"))
  end.

(** [list(v.keys())]. *)
Definition keys_method {S} (v : json) : M S (list string) :=
  match v with
  | JDict d => ret (dict_keys d)
  | _ => raise (Exception ("'" +:+ type_name v +:+ "' object has no attribute 'keys'"))
  end.

Section Task.
Context (env : Env) (report_id : string).

Definition group_name : string := "report_" +:+ report_id.

(** The nested function [send_progress]. *)
Definition send_progress (step status : string) (progress : Z) (message : string)
    (error : option string) : M World unit :=
  try_except
    (has_layer <- gets channel_layer ;;
     if has_layer : bool then
       t <- timezone_now ;;
       group_send group_name
         (report_progress_update step status progress message t error)
     else ret tt)
    (fun _ => ret tt).

(** The nested function [send_status_update]. *)
Definition send_status_update (status message : string) : M World unit :=
  try_except
    (has_layer <- gets channel_layer ;;
     if has_layer : bool then
       t <- timezone_now ;;
       group_send group_name (report_status_update report_id status message t)
     else ret tt)
    (fun _ => ret tt).

(** The loop of [update_processing_step]: the first entry named
    [step_name] is updated, then the loop breaks. *)
Fixpoint update_step (step_name status : string) (progress : Z) (message : string)
    (t : Z) (steps : list Step.t) : list Step.t :=
  match steps with
  | [] => []
  | s :: rest =>
      if String.eqb (Step.step s) step_name
      then Step.mk (Step.step s) status progress message (Some t) :: rest
      else s :: update_step step_name status progress message t rest
  end.

(** The nested function [update_processing_step]. *)
Definition update_processing_step (step_name status : string) (progress : Z)
    (message : string) : M Frame unit :=
  try_except
    (t <- on_world timezone_now ;;
     assign (fun r => Report.set_processing_steps
               (update_step step_name status progress message t
                  (Report.processing_steps r)) r) ;;
     on_report Report_save)
    (fun _ => ret tt).

(** The seven initial entries of [processing_steps]. *)
Definition initial_step (name message : string) : Step.t :=
  Step.mk name "pending" 0 message None.

Definition processing_steps : list Step.t :=
  [ initial_step "website_analysis" "Analyzing website structure and content...";
    initial_step "seo_analysis" "Collecting SEO performance data...";
    initial_step "social_analysis" "Analyzing social media presence...";
    initial_step "reputation_analysis" "Checking online reputation and reviews...";
    initial_step "competitor_analysis" "Analyzing competitive landscape...";
    initial_step "ai_analysis" "Running AI-powered analysis...";
    initial_step "report_compilation" "Compiling final report and recommendations..." ].

(** *** Step 1: website analysis *)

Definition website_fallback (site : Website.t) (e : exn) : json :=
  JDict [ ("url", JStr (Website.url site));
          ("domain", JStr (Website.domain site));
          ("error", JStr (str_exn e));
          ("has_ssl", JBool (String.prefix "https://" (Website.url site)));
          ("title", JStr ("Analysis for " +:+ Website.domain site));
          ("word_count", JInt 0) ].

Definition website_try : M Frame unit :=
  on_world (send_progress "website_analysis" "in_progress" 10
              "Analyzing website structure and content..." None) ;;
  url <- gets (fun f => Website.url (website f)) ;;
  website_data <- on_world (invoke "analyze_website" (analyze_website env url)) ;;
  match dict_get "error" website_data with
  | Some err => raise (Exception ("Website analysis failed: " +:+ py_str env err))
  | None =>
      cd_set "website_data" (JDict website_data) ;;
      site <- gets website ;;
      match dict_get "company_name" website_data with
      | Some name =>
          if truthy name && String.eqb (Website.company_name site) ""
          then
            (* the CharField takes the value as the string it prints *)
            modify (fun f => set_website
                      (Website.set_company_name (py_str env name) (website f)) f) ;;
            on_website (Website_save env)
          else ret tt
      | None => ret tt
      end ;;
      update_processing_step "website_analysis" "completed" 100
        "Website analysis completed successfully" ;;
      on_world (send_progress "website_analysis" "completed" 100
                  "Website analysis completed" None)
  end.

Definition website_except (e : exn) : M Frame unit :=
  let error_msg := "Website analysis failed: " +:+ str_exn e in
  update_processing_step "website_analysis" "failed" 0 error_msg ;;
  on_world (send_progress "website_analysis" "failed" 0 error_msg (Some (str_exn e))) ;;
  site <- gets website ;;
  cd_set "website_data" (website_fallback site e).

Definition website_analysis : M Frame unit :=
  try_except website_try website_except.

(** *** Step 2: SEO analysis *)

Definition seo_fallback (site : Website.t) (e : exn) : json :=
  JDict [ ("url", JStr (Website.url site));
          ("error", JStr (str_exn e));
          ("page_speed", JDict [("performance_score", JInt 0); ("seo_score", JInt 0)]);
          ("mobile_friendly", JDict [("mobile_friendly", JBool false)]) ].

Definition seo_try : M Frame unit :=
  on_world (send_progress "seo_analysis" "in_progress" 30
              "Collecting SEO performance data..." None) ;;
  url <- gets (fun f => Website.url (website f)) ;;
  website_data <- cd_item "website_data" ;;
  seo_data <- on_world (invoke "collect_seo_data" (collect_seo_data env url website_data)) ;;
  cd_set "seo_data" (JDict seo_data) ;;
  assign (Report.set_seo_data (JDict seo_data)) ;;
  update_processing_step "seo_analysis" "completed" 100
    "SEO analysis completed successfully" ;;
  on_world (send_progress "seo_analysis" "completed" 100
              "SEO data collection completed" None).

Definition seo_except (e : exn) : M Frame unit :=
  let error_msg := "SEO analysis failed: " +:+ str_exn e in
  update_processing_step "seo_analysis" "failed" 0 error_msg ;;
  on_world (send_progress "seo_analysis" "failed" 0 error_msg (Some (str_exn e))) ;;
  site <- gets website ;;
  cd_set "seo_data" (seo_fallback site e).

Definition seo_analysis : M Frame unit := try_except seo_try seo_except.

(** *** Step 3: social media analysis *)

Definition social_fallback (site : Website.t) (e : exn) : json :=
  JDict [ ("domain", JStr (Website.domain site));
          ("error", JStr (str_exn e));
          ("platforms", JDict []) ].

Definition social_try : M Frame unit :=
  on_world (send_progress "social_analysis" "in_progress" 50
              "Analyzing social media presence..." None) ;;
  domain <- gets (fun f => Website.domain (website f)) ;;
  website_data <- cd_item "website_data" ;;
  company_name <- get_method website_data "company_name" (JStr "") ;;
  social_data <- on_world (invoke "collect_social_data"
                             (collect_social_data env domain company_name)) ;;
  cd_set "social_data" (JDict social_data) ;;
  assign (Report.set_social_data (JDict social_data)) ;;
  update_processing_step "social_analysis" "completed" 100
    "Social media analysis completed" ;;
  on_world (send_progress "social_analysis" "completed" 100
              "Social media analysis completed" None).

Definition social_except (e : exn) : M Frame unit :=
  let error_msg := "Social media analysis failed: " +:+ str_exn e in
  update_processing_step "social_analysis" "failed" 0 error_msg ;;
  on_world (send_progress "social_analysis" "failed" 0 error_msg (Some (str_exn e))) ;;
  site <- gets website ;;
  cd_set "social_data" (social_fallback site e).

Definition social_analysis : M Frame unit := try_except social_try social_except.

(** *** Step 4: reputation analysis *)

Definition reputation_fallback (site : Website.t) (e : exn) : json :=
  JDict [ ("domain", JStr (Website.domain site));
          ("error", JStr (str_exn e));
          ("overall_rating", JInt 0);
          ("reviews", JList []) ].

Definition reputation_try : M Frame unit :=
  on_world (send_progress "reputation_analysis" "in_progress" 65
              "Checking online reputation and reviews..." None) ;;
  domain <- gets (fun f => Website.domain (website f)) ;;
  website_data <- cd_item "website_data" ;;
  company_name <- get_method website_data "company_name" (JStr "") ;;
  reputation_data <- on_world (invoke "collect_reputation_data"
                                 (collect_reputation_data env domain company_name)) ;;
  cd_set "reputation_data" (JDict reputation_data) ;;
  assign (Report.set_reputation_data (JDict reputation_data)) ;;
  update_processing_step "reputation_analysis" "completed" 100
    "Reputation analysis completed" ;;
  on_world (send_progress "reputation_analysis" "completed" 100
              "Reputation analysis completed" None).

Definition reputation_except (e : exn) : M Frame unit :=
  let error_msg := "Reputation analysis failed: " +:+ str_exn e in
  update_processing_step "reputation_analysis" "failed" 0 error_msg ;;
  on_world (send_progress "reputation_analysis" "failed" 0 error_msg (Some (str_exn e))) ;;
  site <- gets website ;;
  cd_set "reputation_data" (reputation_fallback site e).

Definition reputation_analysis : M Frame unit :=
  try_except reputation_try reputation_except.

(** *** Step 5: competitor analysis *)

Definition competitor_fallback (site : Website.t) (e : exn) : json :=
  JDict [ ("domain", JStr (Website.domain site));
          ("error", JStr (str_exn e));
          ("competitors", JList []);
          ("market_position", JDict []) ].

(** The top five keywords of the SEO data, [[]] when there are none. *)
Definition competitor_keywords : M Frame (list string) :=
  d <- gets collected_data ;;
  match dict_get "seo_data" d with
  | None => ret []
  | Some seo_data =>
      has_density <- contains "keyword_density" seo_data ;;
      if has_density : bool then
        keyword_density <- item seo_data "keyword_density" ;;
        keyword_data <- get_method keyword_density "top_keywords" (JDict []) ;;
        ks <- keys_method keyword_data ;;
        ret (take 5 ks)
      else ret []
  end.

Definition competitor_try : M Frame unit :=
  on_world (send_progress "competitor_analysis" "in_progress" 75
              "Analyzing competitive landscape..." None) ;;
  keywords <- competitor_keywords ;;
  domain <- gets (fun f => Website.domain (website f)) ;;
  competitor_data <- on_world (invoke "collect_competitor_data"
                                 (collect_competitor_data env domain keywords)) ;;
  cd_set "competitor_data" (JDict competitor_data) ;;
  assign (Report.set_competitor_data (JDict competitor_data)) ;;
  update_processing_step "competitor_analysis" "completed" 100
    "Competitor analysis completed" ;;
  on_world (send_progress "competitor_analysis" "completed" 100
              "Competitor analysis completed" None).

Definition competitor_except (e : exn) : M Frame unit :=
  let error_msg := "Competitor analysis failed: " +:+ str_exn e in
  update_processing_step "competitor_analysis" "failed" 0 error_msg ;;
  on_world (send_progress "competitor_analysis" "failed" 0 error_msg (Some (str_exn e))) ;;
  site <- gets website ;;
  cd_set "competitor_data" (competitor_fallback site e).

Definition competitor_analysis : M Frame unit :=
  try_except competitor_try competitor_except.

(** *** Step 6: AI analysis *)

Definition trust_fallback (e : exn) : json :=
  JDict [ ("overall", JFloat 50 (-1));
          ("breakdown", JDict []);
          ("error", JStr (str_exn e)) ].

Definition ai_try : M Frame unit :=
  on_world (send_progress "ai_analysis" "in_progress" 85
              "Running AI-powered analysis..." None) ;;
  d <- gets collected_data ;;
  trust_score <- on_world (invoke "calculate_trust_score" (calculate_trust_score env d)) ;;
  cd_set "trust_score" (JDict trust_score) ;;
  assign (Report.set_trust_score (JDict trust_score)) ;;
  d <- gets collected_data ;;
  growth_opportunities <-
    on_world (invoke "generate_recommendations" (generate_recommendations env d)) ;;
  cd_set "growth_opportunities" (JList growth_opportunities) ;;
  assign (Report.set_growth_opportunities (JList growth_opportunities)) ;;
  update_processing_step "ai_analysis" "completed" 100 "AI analysis completed" ;;
  on_world (send_progress "ai_analysis" "completed" 100 "AI analysis completed" None).

Definition ai_except (e : exn) : M Frame unit :=
  let error_msg := "AI analysis failed: " +:+ str_exn e in
  update_processing_step "ai_analysis" "failed" 0 error_msg ;;
  on_world (send_progress "ai_analysis" "failed" 0 error_msg (Some (str_exn e))) ;;
  cd_set "trust_score" (trust_fallback e) ;;
  cd_set "growth_opportunities" (JList []) ;;
  trust_score <- cd_item "trust_score" ;;
  assign (Report.set_trust_score trust_score) ;;
  growth_opportunities <- cd_item "growth_opportunities" ;;
  assign (Report.set_growth_opportunities growth_opportunities).

Definition ai_analysis : M Frame unit := try_except ai_try ai_except.

(** *** Step 7: report compilation *)

Definition has_error (v : json) : bool :=
  match v with JDict d => dict_has "error" d | _ => false end.

(** [calculate_data_quality_score]. *)
Definition calculate_data_quality_score (d : dict) : json :=
  let total_sources := length d in
  if Nat.eqb total_sources 0 then JFloat 0 (-1)
  else
    let successful_sources :=
      length (filter (fun kv => negb (has_error kv.2) = true) d) in
    quality_pct env (Z.of_nat successful_sources) (Z.of_nat total_sources).

Definition collection_errors (d : dict) : list string :=
  dict_keys (filter (fun kv => has_error kv.2 = true) d).

Definition compilation_try : M Frame unit :=
  on_world (send_progress "report_compilation" "in_progress" 95
              "Compiling final report and recommendations..." None) ;;
  d <- gets collected_data ;;
  executive_summary <- on_world (invoke "generate_summary" (generate_summary env d)) ;;
  assign (Report.set_executive_summary (JDict executive_summary)) ;;
  d <- gets collected_data ;;
  t1 <- on_world timezone_now ;;
  t2 <- on_world timezone_now ;;
  started <- gets (fun f => Report.processing_started_at (report f)) ;;
  match started with
  | None =>
      raise (Exception
        "unsupported operand type(s) for -: 'datetime.datetime' and 'NoneType'")
  | Some s =>
      assign (Report.set_technical_analysis
        (JDict [ ("data_sources_used", JList (map JStr (dict_keys d)));
                 ("analysis_timestamp", JStr (isoformat env t1));
                 ("processing_duration_seconds", JInt ((t2 - s) ÷ 1000000));
                 ("data_quality_score", calculate_data_quality_score d);
                 ("collection_errors", JList (map JStr (collection_errors d))) ])) ;;
      update_processing_step "report_compilation" "completed" 100
        "Report compilation completed" ;;
      on_world (send_progress "report_compilation" "completed" 100
                  "Report compilation completed" None)
  end.

Definition compilation_except (e : exn) : M Frame unit :=
  let error_msg := "Report compilation failed: " +:+ str_exn e in
  update_processing_step "report_compilation" "failed" 0 error_msg ;;
  on_world (send_progress "report_compilation" "failed" 0 error_msg (Some (str_exn e))) ;;
  site <- gets website ;;
  d <- gets collected_data ;;
  ai_visibility <-
    get_method (default (JDict []) (dict_get "trust_score" d)) "overall" (JFloat 50 (-1)) ;;
  assign (Report.set_executive_summary
    (JDict [ ("summary_text",
              JStr ("Report generated for " +:+ Website.domain site
                    +:+ " with basic analysis."));
             ("organic_traffic_change", JStr "+0%");
             ("ai_visibility", ai_visibility);
             ("avg_rating", JInt 0);
             ("error", JStr (str_exn e)) ])).

Definition report_compilation : M Frame unit :=
  try_except compilation_try compilation_except.

(** *** The seven steps, in the order of the source *)

Definition run_steps : M Frame unit :=
  website_analysis ;;
  seo_analysis ;;
  social_analysis ;;
  reputation_analysis ;;
  competitor_analysis ;;
  ai_analysis ;;
  report_compilation.
End Task.

(* ===================================================================== *)
(** ** tasks.py: [generate_marketing_report] *)

(** The dictionary the task returns. *)
Inductive task_result : Type :=
| result_error (error : string) (retries_exhausted : bool)
| result_completed
    (report_id : string) (processing_time_seconds : option Z)
    (data_sources_used : nat) (trust_score : json).

(** How one execution of the task ends: it returns, or it raises what
    [self.retry(countdown=..., exc=...)] gives: [Retry] once the task is
    published again, [Reject] with the error of the broker when it could not
    be published. *)
Inductive task_outcome : Type :=
| Returned (r : task_result)
| Retry (countdown : Z) (exc : string)
| Reject (reason : string).

(** [@shared_task(bind=True, max_retries=3)]. *)
Definition max_retries : nat := 3.

(** Run a computation on an object held in a local variable. *)
Definition with_object {T A} (obj : T) (m : M (T * World) A) : M World A :=
  fun w => let '(r, s) := m (obj, w) in (r, s.2).

Section Job.
Context (env : Env) (report_id : string).

(** Lines 99-106: the report is marked as processing and saved, the status
    is announced, and [report.website] is fetched for the log line. *)
Definition start_processing : M (Report.t * World) Website.t :=
  modify (fun s => (Report.set_status processing s.1, s.2)) ;;
  t <- zoom snd (fun w s => (s.1, w)) timezone_now ;;
  modify (fun s => (Report.set_processing_started_at (Some t) s.1, s.2)) ;;
  modify (fun s => (Report.set_error_messages [] s.1, s.2)) ;;
  Report_save ;;
  zoom snd (fun w s => (s.1, w))
    (send_status_update report_id "processing" "Starting report generation...") ;;
  zoom snd (fun w s => (s.1, w)) infra ;;
  site <- gets (fun s => websites s.2 !! Report.website_id s.1) ;;
  match site with
  | Some site => ret site
  | None => raise (Exception "Report has no website.")
  end.

(** Lines 108-126. *)
Definition initialize_steps : M Frame unit :=
  assign (Report.set_processing_steps processing_steps) ;;
  on_report Report_save.

(** Lines 377-423. *)
Definition complete : M Frame task_result :=
  assign (Report.set_status completed) ;;
  t <- on_world timezone_now ;;
  assign (Report.set_completed_at (Some t)) ;;
  started <- gets (fun f => Report.processing_started_at (report f)) ;;
  match started with
  | Some s =>
      t' <- on_world timezone_now ;;
      assign (Report.set_processing_time_seconds (Some ((t' - s) ÷ 1000000)))
  | None => ret tt
  end ;;
  on_report Report_save ;;
  has_layer <- gets (fun f => channel_layer (world f)) ;;
  (if has_layer : bool then
     t <- on_world timezone_now ;;
     on_world (group_send (group_name report_id) (report_completed report_id t)) ;;
     t <- on_world timezone_now ;;
     on_world (group_send "report_list"
                 (report_status_changed report_id "processing" "completed" t))
   else ret tt) ;;
  r <- gets report ;;
  (if negb (String.eqb (Report.requester_email r) "")
   then on_world (delay (send_report_notification (Report.requester_email r) (Report.id r)))
   else ret tt) ;;
  r <- gets report ;;
  d <- gets collected_data ;;
  overall <- get_method (default (JDict []) (dict_get "trust_score" d)) "overall" (JInt 0) ;;
  ret (result_completed (Report.id r) (Report.processing_time_seconds r)
         (length d) overall).

(** The body of the outer [try] (lines 92-423), with the dictionary
    [collected_data] as it is when the body ends. *)
Definition try_body : M World (task_result * dict) :=
  fun w =>
    match objects_get report_id w with
    | (Raise DoesNotExist, w1) => (Ok (result_error "Report not found" false, []), w1)
    | (Raise e, w1) => (Raise e, w1)
    | (Ok r, w1) =>
        match start_processing (r, w1) with
        | (Raise e, s) => (Raise e, s.2)
        | (Ok site, s) =>
            match (initialize_steps ;; run_steps env report_id ;; complete)
                    (mkFrame s.1 site [] s.2) with
            | (Raise e, f) => (Raise e, world f)
            | (Ok r, f) => (Ok (r, collected_data f), world f)
            end
        end
    end.

(** Lines 434-455: the record is marked as failed, best effort. *)
Definition mark_failed (exc : exn) : M World unit :=
  try_except
    (r <- objects_get report_id ;;
     with_object
       (Report.set_error_messages (Report.error_messages r ++ [str_exn exc])
          (Report.set_status failed r))
       Report_save ;;
     has_layer <- gets channel_layer ;;
     if has_layer : bool then
       t <- timezone_now ;;
       group_send (group_name report_id) (report_failed report_id (str_exn exc) t)
     else ret tt)
    (fun _ => ret tt).

(** [raise self.retry(countdown=countdown, exc=exc)] (line 462), which is
    reached with [retries < max_retries]: the task is handed to the broker
    again, as retry [retries + 1] to be run after [countdown] seconds, and
    [Retry] is raised; a broker that refuses the message makes it [Reject]. *)
Definition self_retry (retries : nat) (countdown : Z) (exc : exn) (w : World) :
    task_outcome * World :=
  match delay (generate_marketing_report_retry report_id (S retries) countdown) w with
  | (Ok _, w') => (Retry countdown (str_exn exc), w')
  | (Raise e, w') => (Reject (str_exn e), w')
  end.

(** The task. [retries] is [self.request.retries]. *)
Definition generate_marketing_report (retries : nat) (w : World) : task_outcome * World :=
  match try_body w with
  | (Ok (r, _), w1) => (Returned r, w1)
  | (Raise DoesNotExist, w1) =>
      (Returned (result_error ("Report " +:+ report_id +:+ " not found") false), w1)
  | (Raise exc, w1) =>
      let error_msg :=
        "Report generation failed for " +:+ report_id +:+ ": " +:+ str_exn exc in
      let w2 := (mark_failed exc w1).2 in
      if (retries <? max_retries)%nat
      then self_retry retries (60 * 2 ^ Z.of_nat retries) exc w2
      else (Returned (result_error error_msg true), w2)
  end.
End Job.

(* ===================================================================== *)
(** ** tasks.py: [monitor_report_processing] *)

Definition minutes_30 : Z := 30 * 60 * 1000000.
Definition hours_1 : Z := 60 * 60 * 1000000.

(** [filter(status='processing', processing_started_at__lt=stuck_threshold)]. *)
Definition is_stuck (stuck_threshold : Z) (r : Report.t) : bool :=
  status_eqb (Report.status r) processing
  && match Report.processing_started_at r with
     | Some t => t <? stuck_threshold
     | None => false
     end.

(** [filter(status='pending', created_at__lt=pending_threshold)]. *)
Definition is_old_pending (pending_threshold : Z) (r : Report.t) : bool :=
  status_eqb (Report.status r) pending && (Report.created_at r <? pending_threshold).

Definition timeout_message : string := "Report processing timed out after 30 minutes".

(** [Meta.ordering = ['-created_at']]. *)
Definition newest_first (a b : Report.t) : Prop :=
  Report.created_at b <= Report.created_at a.

#[global] Instance newest_first_dec a b : Decision (newest_first a b) :=
  Z_le_dec (Report.created_at b) (Report.created_at a).

(** The rows of a query, fetched when the loop starts. *)
Definition select (p : Report.t -> bool) : M World (list Report.t) :=
  infra ;;
  gets (fun w => filter (fun r => p r = true)
                   (merge_sort newest_first (snd <$> map_to_list (reports w)))).

(** The body of the first loop, for one stuck report. *)
Definition fail_stuck (r : Report.t) : M World unit :=
  with_object
    (Report.set_error_messages (Report.error_messages r ++ [timeout_message])
       (Report.set_status failed r))
    Report_save.

Fixpoint for_each {A} (body : A -> M World unit) (l : list A) : M World unit :=
  match l with
  | [] => ret tt
  | x :: l' => body x ;; for_each body l'
  end.

(** What [monitor_report_processing] returns. *)
Inductive monitor_result : Type :=
| monitor_counts (stuck_reports_failed old_pending_restarted : nat) (timestamp : Z)
| monitor_error (error : string).

Definition monitor_report_processing : M World monitor_result :=
  try_except
    (t <- timezone_now ;;
     let stuck_threshold := t - minutes_30 in
     stuck_reports <- select (is_stuck stuck_threshold) ;;
     for_each fail_stuck stuck_reports ;;
     t <- timezone_now ;;
     let pending_threshold := t - hours_1 in
     old_pending <- select (is_old_pending pending_threshold) ;;
     for_each (fun r => delay (generate_marketing_report_task (Report.id r))) old_pending ;;
     t <- timezone_now ;;
     ret (monitor_counts (length stuck_reports) (length old_pending) t))
    (fun e => ret (monitor_error (str_exn e))).

(* ===================================================================== *)
(** ** tasks.py: [update_report_progress] *)

(** The loop over [report.processing_steps]: the first entry named [step]
    is updated in place and the loop breaks. The flag is [step_updated]. *)
Fixpoint update_loop (step status : string) (progress : Z) (message : string) (t : Z)
    (steps : list Step.t) : list Step.t * bool :=
  match steps with
  | [] => ([], false)
  | step_data :: rest =>
      if String.eqb (Step.step step_data) step
      then (Step.mk (Step.step step_data) status progress message (Some t) :: rest, true)
      else
        let '(rest', step_updated) := update_loop step status progress message t rest in
        (step_data :: rest', step_updated)
  end.

(** The list after the loop and the [append] that follows it when no entry
    was updated. *)
Definition upsert_step (step status : string) (progress : Z) (message : string) (t : Z)
    (steps : list Step.t) : list Step.t :=
  let '(steps', step_updated) := update_loop step status progress message t steps in
  if step_updated : bool then steps'
  else steps' ++ [Step.mk step status progress message (Some t)].

(** What [update_report_progress] returns. *)
Inductive progress_result : Type :=
| progress_updated (step : string)
| progress_error (error : string).

Definition update_report_progress (report_id step status : string) (progress : Z)
    (message : string) : M World progress_result :=
  try_except
    (report <- objects_get report_id ;;
     t <- timezone_now ;;
     with_object
       (Report.set_processing_steps
          (upsert_step step status progress message t (Report.processing_steps report))
          report)
       Report_save ;;
     has_layer <- gets channel_layer ;;
     (if has_layer : bool then
        t <- timezone_now ;;
        group_send (group_name report_id)
          (report_progress_update step status progress message t None)
      else ret tt) ;;
     ret (progress_updated step))
    (fun e => ret (progress_error (str_exn e))).

(* ===================================================================== *)
(** ** tasks.py: [regenerate_failed_reports] and [batch_process_reports] *)

(** What [regenerate_failed_reports] returns. *)
Inductive regenerate_result : Type :=
| regenerated (regenerated_count : nat)
| regenerate_error (error : string).

(** The body of the loop, for one failed report. *)
Definition regenerate_one (report : Report.t) : M World unit :=
  with_object
    (Report.set_processing_steps []
       (Report.set_error_messages [] (Report.set_status pending report)))
    Report_save ;;
  delay (generate_marketing_report_task (Report.id report)).

Definition regenerate_failed_reports : M World regenerate_result :=
  try_except
    (failed_reports <- select (fun r => status_eqb (Report.status r) failed) ;;
     for_each regenerate_one failed_reports ;;
     ret (regenerated (length failed_reports)))
    (fun e => ret (regenerate_error (str_exn e))).

(** One entry of the list [batch_process_reports] returns. The id that the
    broker gives to a started task is not modelled. *)
Inductive batch_entry : Type :=
| batch_started (report_id : string)
| batch_failed (report_id error : string).

Fixpoint batch_process_reports (report_ids : list string) : M World (list batch_entry) :=
  match report_ids with
  | [] => ret []
  | report_id :: rest =>
      entry <- try_except
                 (delay (generate_marketing_report_task report_id) ;;
                  ret (batch_started report_id))
                 (fun e => ret (batch_failed report_id (str_exn e))) ;;
      results <- batch_process_reports rest ;;
      ret (entry :: results)
  end.

(* ===================================================================== *)
(** ** models.py: ReportShare *)

(** [ReportShare.SHARE_TYPE_CHOICES]. *)
Inductive share_kind : Type := share_public | share_private | share_password | share_email.

Module ReportShare.
Record t : Type := mk {
  report_id : string;                   (* the foreign key [report] *)
  share_token : string;
  share_type : share_kind;
  password : string;
  allowed_emails : json;
  max_views : option Z;
  current_views : Z;
  expires_at : option Z;
  is_active : bool
}.

Definition set_current_views (v : Z) (s : t) : t :=
  mk (report_id s) (share_token s) (share_type s) (password s) (allowed_emails s)
     (max_views s) v (expires_at s) (is_active s).
Definition set_is_active (v : bool) (s : t) : t :=
  mk (report_id s) (share_token s) (share_type s) (password s) (allowed_emails s)
     (max_views s) (current_views s) (expires_at s) v.
End ReportShare.

(** [ReportShare.is_expired], at the time [now]. *)
Definition is_expired (now : Z) (s : ReportShare.t) : bool :=
  match ReportShare.expires_at s with
  | Some expires_at => expires_at <? now
  | None => false
  end.

(** [self.max_views and self.current_views >= self.max_views]: a limit of
    [None] or [0] is falsy. *)
Definition view_limit_reached (s : ReportShare.t) : bool :=
  match ReportShare.max_views s with
  | Some max_views =>
      negb (max_views =? 0) && (max_views <=? ReportShare.current_views s)
  | None => false
  end.

(** [ReportShare.is_accessible], at the time [now]. *)
Definition is_accessible (now : Z) (s : ReportShare.t) : bool :=
  if negb (ReportShare.is_active s) || is_expired now s then false
  else if view_limit_reached s then false
  else true.

(** The reports of the world, and the shares next to them, stored under
    their token. *)
Record Store : Type := mkStore {
  base : World;
  shares : gmap string ReportShare.t
}.

Definition set_base (v : World) (s : Store) : Store := mkStore v (shares s).
Definition set_shares (v : gmap string ReportShare.t) (s : Store) : Store :=
  mkStore (base s) v.

Definition on_base {A} (m : M World A) : M Store A := zoom base set_base m.

(* ===================================================================== *)
(** ** views.py: [SharedReportView.get] *)

(** The response of the view: the data of the shared report, or an error
    with its HTTP status. *)
Inductive shared_response : Type :=
| shared_report (report_id : string)
| shared_refused (status : Z) (error : string).

(** [not v], for a query parameter that may be missing. *)
Definition missing (v : option string) : bool :=
  match v with
  | None => true
  | Some s => String.eqb s ""
  end.

(** [x in v], for a string [x]. *)
Definition str_in {S} (x : string) (v : json) : M S bool :=
  match v with
  | JList l =>
      ret (existsb (fun y => match y with JStr s => String.eqb s x | _ => false end) l)
  | JDict d => ret (dict_has x d)
  | JStr s => ret (match String.index 0 x s with Some _ => true | None => false end)
  | _ => raise (Exception ("argument of type '" +:+ type_name v +:+ "' is not iterable"))
  end.

(** [share.current_views += 1; share.save()] and the response that
    follows. *)
Definition count_view (share : ReportShare.t) : M Store shared_response :=
  on_base infra ;;
  modify (fun s =>
    set_shares
      (<[ReportShare.share_token share :=
           ReportShare.set_current_views (ReportShare.current_views share + 1) share]>
         (shares s)) s) ;;
  ret (shared_report (ReportShare.report_id share)).

(** The view. A token that is not stored makes [objects.get] raise
    [ReportShare.DoesNotExist], which the view answers with 404; any other
    exception leaves the view. *)
Definition SharedReportView_get (share_token : string) (password email : option string) :
    M Store shared_response :=
  on_base infra ;;
  found <- gets (fun s => shares s !! share_token) ;;
  match found with
  | None => ret (shared_refused 404 "Share link not found")
  | Some share =>
      t <- on_base timezone_now ;;
      if negb (is_accessible t share) then
        if is_expired t share
        then ret (shared_refused 410 "Share link has expired")
        else if view_limit_reached share
        then ret (shared_refused 410 "Share link has reached maximum views")
        else ret (shared_refused 403 "Share link is not accessible")
      else
        match ReportShare.share_type share with
        | share_password =>
            if missing password
               || negb (String.eqb (default "" password) (ReportShare.password share))
            then ret (shared_refused 401 "Password required or incorrect")
            else count_view share
        | share_email =>
            if missing email then ret (shared_refused 403 "Email not authorized")
            else
              allowed <- str_in (default "" email) (ReportShare.allowed_emails share) ;;
              if allowed : bool then count_view share
              else ret (shared_refused 403 "Email not authorized")
        | _ => count_view share
        end
  end.

(* ===================================================================== *)
(** ** tasks.py: [cleanup_old_reports] *)

Definition days_90 : Z := 90 * 24 * 60 * 60 * 1000000.

(** What [cleanup_old_reports] returns. *)
Inductive cleanup_result : Type :=
| cleanup_done (deleted_reports expired_shares : nat)
| cleanup_error (error : string).

(** [report.delete()]: the row goes, and with it the shares of the report
    ([on_delete=models.CASCADE]), in one transaction. *)
Definition Report_delete (report : Report.t) : M Store unit :=
  on_base infra ;;
  modify (fun s =>
    mkStore
      (set_reports (delete (Report.id report) (reports (base s))) (base s))
      (filter (fun kv => ReportShare.report_id kv.2 <> Report.id report) (shares s))).

Fixpoint for_each_in {S A} (body : A -> M S unit) (l : list A) : M S unit :=
  match l with
  | [] => ret tt
  | x :: l' => body x ;; for_each_in body l'
  end.

(** [filter(expires_at__lt=now, is_active=True)]. *)
Definition expired_active (t : Z) (share : ReportShare.t) : bool :=
  match ReportShare.expires_at share with
  | Some expires_at => expires_at <? t
  | None => false
  end
  && ReportShare.is_active share.

(** [expired_shares.update(is_active=False)], on one row. *)
Definition deactivate (t : Z) (share : ReportShare.t) : ReportShare.t :=
  if expired_active t share then ReportShare.set_is_active false share else share.

Definition cleanup_old_reports : M Store cleanup_result :=
  try_except
    (t <- on_base timezone_now ;;
     let cutoff_date := t - days_90 in
     old_reports <- on_base (select (fun r => Report.created_at r <? cutoff_date)) ;;
     for_each_in Report_delete old_reports ;;
     t <- on_base timezone_now ;;
     on_base infra ;;
     expired_count <-
       gets (fun s => size (filter (fun kv => expired_active t kv.2 = true) (shares s))) ;;
     on_base infra ;;
     modify (fun s => set_shares (deactivate t <$> shares s) s) ;;
     ret (cleanup_done (length old_reports) expired_count))
    (fun e => ret (cleanup_error (str_exn e))).

(* ===================================================================== *)
(** ** views.py: [ReportCreateView.create] *)

(** The report as the handler of a refused task leaves it, before it is
    saved. *)
Definition start_failed (e : exn) (report : Report.t) : Report.t :=
  Report.set_error_messages ["Failed to start processing: " +:+ str_exn e]
    (Report.set_status failed report).

(** Lines 34-47, for the [report] that [serializer.save()] has created and
    stored: the generation task is handed to the broker; when that fails,
    the report is marked as failed and saved. The view answers with the
    report. *)
Definition ReportCreateView_create (report : Report.t) : M World Report.t :=
  fun w =>
    match delay (generate_marketing_report_task (Report.id report)) w with
    | (Ok _, w1) => (Ok report, w1)
    | (Raise e, w1) =>
        match Report_save (start_failed e report, w1) with
        | (Ok _, s) => (Ok s.1, s.2)
        | (Raise e', s) => (Raise e', s.2)
        end
    end.

(* ===================================================================== *)
(** ** views.py: [ReportDeleteView.destroy] and [ReportShareCreateView.create] *)

(** The response of [destroy]: 204, or the 404 of [get_object]. *)
Inductive destroy_response : Type :=
| destroyed
| destroy_not_found.

Definition ReportDeleteView_destroy (id : string) : M Store destroy_response :=
  on_base infra ;;
  found <- gets (fun s => reports (base s) !! id) ;;
  match found with
  | None => ret destroy_not_found
  | Some report =>
      (if status_eqb (Report.status report) pending
          || status_eqb (Report.status report) processing
       then on_base (with_object (Report.set_status cancelled report) Report_save)
       else ret tt) ;;
      Report_delete report ;;
      ret destroyed
  end.

(** The response of [ReportShareCreateView.create]. *)
Inductive share_response : Type :=
| share_created (share : ReportShare.t)
| share_refused (status : Z) (error : string).

(** [data] holds the validated fields of the request and the token that
    the model gives the new row; [serializer.save(report=report)] stores
    it for the report. The token is unique in the table. *)
Definition ReportShareCreateView_create (report_id : string) (data : ReportShare.t) :
    M Store share_response :=
  on_base infra ;;
  found <- gets (fun s => reports (base s) !! report_id) ;;
  match found with
  | None => ret (share_refused 404 "Report not found")
  | Some report =>
      if negb (status_eqb (Report.status report) completed)
      then ret (share_refused 400 "Report must be completed before sharing")
      else
        let share :=
          ReportShare.mk (Report.id report) (ReportShare.share_token data)
            (ReportShare.share_type data) (ReportShare.password data)
            (ReportShare.allowed_emails data) (ReportShare.max_views data)
            (ReportShare.current_views data) (ReportShare.expires_at data)
            (ReportShare.is_active data) in
        on_base infra ;;
        taken <- gets (fun s => shares s !! ReportShare.share_token share) ;;
        match taken with
        | Some _ => raise (Exception "UNIQUE constraint failed: share_token")
        | None =>
            modify (fun s =>
              set_shares (<[ReportShare.share_token share := share]> (shares s)) s) ;;
            ret (share_created share)
        end
  end.

(* ===================================================================== *)
(** ** serializers.py: [ReportCreateSerializer.create] *)

(** Run a computation on a new object, and return the object. *)
Definition returning_object {T} (obj : T) (m : M (T * World) unit) : M World T :=
  fun w =>
    let '(r, s) := m (obj, w) in
    (match r with Ok _ => Ok s.1 | Raise e => Raise e end, s.2).

(** [Website.objects.get_or_create(domain=domain, defaults={...})]:
    [new_id] is the key that the database gives to a new row. *)
Definition get_or_create_website (env : Env) (new_id : Z) (website_url : string) :
    M World Website.t :=
  let domain := netloc env website_url in
  infra ;;
  found <- gets (fun w =>
             filter (fun kv => Website.domain kv.2 = domain) (map_to_list (websites w))) ;;
  match found with
  | [] =>
      t <- timezone_now ;;
      returning_object (Website.mk new_id website_url domain "" "" t t) (Website_save env)
  | [(_, website)] => ret website
  | _ => raise (Exception "get() returned more than one Website")
  end.

(** The row that [Report.objects.create] builds from the defaults of the
    model. *)
Definition new_report (id : string) (website_id : Z) (requester_email : string) (t : Z) :
    Report.t :=
  Report.mk id website_id pending requester_email (JDict []) (JDict []) (JDict [])
    (JDict []) (JDict []) (JDict []) (JList []) (JDict []) t t None None [] [] None.

(** [new_report_id] is the value of [uuid.uuid4()]; an id that is taken
    makes the insertion fail. *)
Definition ReportCreateSerializer_create (env : Env) (new_website_id : Z)
    (new_report_id website_url requester_email : string) : M World Report.t :=
  website <- get_or_create_website env new_website_id website_url ;;
  t <- timezone_now ;;
  taken <- gets (fun w => reports w !! new_report_id) ;;
  match taken with
  | Some _ => infra ;; raise (Exception "UNIQUE constraint failed: report.id")
  | None =>
      returning_object (new_report new_report_id (Website.id website) requester_email t)
        Report_save
  end.

(* ===================================================================== *)
(** * Vocabulary of the statements *)

(** [wp m Q s]: running [m] from [s] ends in a result and a state that
    satisfy [Q]. *)
Definition wp {S A} (m : M S A) (Q : res A -> S -> Prop) (s : S) : Prop :=
  Q (m s).1 (m s).2.

(** Every key of [d] is a key of [d']. *)
Definition keys_incl (d d' : dict) : Prop :=
  forall k, is_Some (dict_get k d) -> is_Some (dict_get k d').

(** The fields of the report that no step assigns. *)
Definition same_header (r r' : Report.t) : Prop :=
  Report.id r' = Report.id r
  /\ Report.website_id r' = Report.website_id r
  /\ Report.status r' = Report.status r
  /\ Report.requester_email r' = Report.requester_email r
  /\ Report.created_at r' = Report.created_at r
  /\ Report.processing_started_at r' = Report.processing_started_at r
  /\ Report.error_messages r' = Report.error_messages r.

Definition step_keeps (f f' : Frame) : Prop :=
  same_header (report f) (report f')
  /\ keys_incl (collected_data f) (collected_data f').

(** After a step, [k] is a key of [collected_data]. *)
Definition collected (k : string) (f : Frame) : Prop :=
  is_Some (dict_get k (collected_data f)).

(** The declared output keys of the steps. *)
Definition output_keys : list string :=
  [ "website_data"; "seo_data"; "social_data"; "reputation_data";
    "competitor_data"; "trust_score"; "growth_opportunities" ].

(** The report as [start_processing] leaves it, whatever it was before. *)
Definition started_report (t : Z) (r : Report.t) : Report.t :=
  saved t (Report.set_error_messages []
             (Report.set_processing_started_at (Some t)
                (Report.set_status processing r))).

(** The report as [complete] leaves it. *)
Definition completed_report (t : Z) (r : Report.t) : Report.t :=
  saved t
    (match Report.processing_started_at r with
     | Some s =>
         Report.set_processing_time_seconds (Some ((t - s) ÷ 1000000))
           (Report.set_completed_at (Some t) (Report.set_status completed r))
     | None => Report.set_completed_at (Some t) (Report.set_status completed r)
     end).

(** The four data-collection steps that have a field of their own on the
    report. *)
Inductive data_step : Type := SEO | Social | Reputation | Competitor.

Definition step_name (s : data_step) : string :=
  match s with
  | SEO => "seo_analysis"
  | Social => "social_analysis"
  | Reputation => "reputation_analysis"
  | Competitor => "competitor_analysis"
  end.

Definition step_key (s : data_step) : string :=
  match s with
  | SEO => "seo_data"
  | Social => "social_data"
  | Reputation => "reputation_data"
  | Competitor => "competitor_data"
  end.

Definition step_field (s : data_step) : Report.t -> json :=
  match s with
  | SEO => Report.seo_data
  | Social => Report.social_data
  | Reputation => Report.reputation_data
  | Competitor => Report.competitor_data
  end.

Definition step_failure_prefix (s : data_step) : string :=
  match s with
  | SEO => "SEO analysis failed: "
  | Social => "Social media analysis failed: "
  | Reputation => "Reputation analysis failed: "
  | Competitor => "Competitor analysis failed: "
  end.

Definition step_fallback (s : data_step) : Website.t -> exn -> json :=
  match s with
  | SEO => seo_fallback
  | Social => social_fallback
  | Reputation => reputation_fallback
  | Competitor => competitor_fallback
  end.

Definition step_try (env : Env) (report_id : string) (s : data_step) : M Frame unit :=
  match s with
  | SEO => seo_try env report_id
  | Social => social_try env report_id
  | Reputation => reputation_try env report_id
  | Competitor => competitor_try env report_id
  end.

Definition step_run (env : Env) (report_id : string) (s : data_step) : M Frame unit :=
  match s with
  | SEO => seo_analysis env report_id
  | Social => social_analysis env report_id
  | Reputation => reputation_analysis env report_id
  | Competitor => competitor_analysis env report_id
  end.

(** What follows a data step in a run: the later steps, then the end. *)
Definition rest_of_run (env : Env) (report_id : string) (s : data_step) :
    M Frame task_result :=
  match s with
  | SEO =>
      social_analysis env report_id ;; reputation_analysis env report_id ;;
      competitor_analysis env report_id ;; ai_analysis env report_id ;;
      report_compilation env report_id ;; complete report_id
  | Social =>
      reputation_analysis env report_id ;;
      competitor_analysis env report_id ;; ai_analysis env report_id ;;
      report_compilation env report_id ;; complete report_id
  | Reputation =>
      competitor_analysis env report_id ;; ai_analysis env report_id ;;
      report_compilation env report_id ;; complete report_id
  | Competitor =>
      ai_analysis env report_id ;;
      report_compilation env report_id ;; complete report_id
  end.

(** The id of a report and its data fields, but for the field of [own]. *)
Definition same_data_but (own : option data_step) (r r' : Report.t) : Prop :=
  Report.id r' = Report.id r
  /\ forall s, Some s <> own -> step_field s r' = step_field s r.

(** The id of a report and its field for the step [s]. *)
Definition same_field (s : data_step) (r r' : Report.t) : Prop :=
  Report.id r' = Report.id r /\ step_field s r' = step_field s r.

(** The report in memory after the handler of a failed step [s] ran at time
    [t]: only the progress entry of the step changed, and the object went
    through [save()]. *)
Definition failed_step_report (s : data_step) (e : exn) (t : Z) (r : Report.t) : Report.t :=
  saved t
    (Report.set_processing_steps
       (update_step (step_name s) "failed" 0 (step_failure_prefix s +:+ str_exn e) t
          (Report.processing_steps r)) r).

(** The report in memory after the handler of the AI step ran at time [t]. *)
Definition failed_ai_report (e : exn) (t : Z) (r : Report.t) : Report.t :=
  Report.set_growth_opportunities (JList [])
    (Report.set_trust_score (trust_fallback e)
       (saved t
          (Report.set_processing_steps
             (update_step "ai_analysis" "failed" 0
                ("AI analysis failed: " +:+ str_exn e) t (Report.processing_steps r))
             r))).

(** The identity and the two scores of a report. *)
Definition same_scores (r r' : Report.t) : Prop :=
  Report.id r' = Report.id r
  /\ Report.trust_score r' = Report.trust_score r
  /\ Report.growth_opportunities r' = Report.growth_opportunities r.

(** The row written when a report is marked as failed with [msg] at time
    [t]: by the handler of the task, and by the monitor. *)
Definition failed_report (msg : string) (t : Z) (r : Report.t) : Report.t :=
  saved t (Report.set_error_messages (Report.error_messages r ++ [msg])
             (Report.set_status failed r)).

(** Rows are stored under their own id. *)
Definition well_keyed (w : World) : Prop :=
  map_Forall (fun k r => Report.id r = k) (reports w).

(** No fault is scheduled. *)
Definition quiet (w : World) : Prop := Forall (fun x => x = None) (faults w).

(** The next [n] calls that leave the process go through. *)
Fixpoint calm (n : nat) (fs : list (option string)) : bool :=
  match n, fs with
  | O, _ => true
  | _, [] => true
  | S n', None :: fs' => calm n' fs'
  | S _, Some _ :: _ => false
  end.

(** The rows written by the first loop, one after the other. *)
Definition fail_all (t : Z) (l : list Report.t) (m : gmap string Report.t) :
    gmap string Report.t :=
  foldl (fun m r => <[Report.id r := failed_report timeout_message t r]> m) m l.

(** The rows the first loop of the monitor goes through. *)
Definition stuck_rows (w : World) : list Report.t :=
  filter (fun r => is_stuck (now w - minutes_30) r = true)
    (merge_sort newest_first (snd <$> map_to_list (reports w))).

(** With faults, the monitor may stop early; each row is then as it was or
    failed with the timeout message. *)
Definition untouched_or_timed_out (m0 : gmap string Report.t) (t : Z) (w : World) : Prop :=
  now w = t
  /\ forall k r, m0 !! k = Some r ->
       reports w !! k = Some r
       \/ reports w !! k = Some (failed_report timeout_message t r).

(** Eight collaborators of which the social collector raises. *)
Definition demo_env : Env :=
  mkEnv
    (fun v => match v with JStr s => s | _ => "?" end)
    (fun url => url)
    (fun a b => JInt (a * 100 / b))
    (fun t => "T")
    (fun url => mkCall 1000000 (Returns [("title", JStr "Home")]))
    (fun url website_data => mkCall 1000000 (Returns [("url", JStr url)]))
    (fun domain company_name => mkCall 1000000 (Raises "timeout"))
    (fun domain company_name => mkCall 1000000 (Returns [("overall_rating", JInt 4)]))
    (fun domain keywords => mkCall 1000000 (Returns [("competitors", JList [])]))
    (fun d => mkCall 1000000 (Raises "no model"))
    (fun d => mkCall 1000000 (Returns []))
    (fun d => mkCall 1000000 (Returns [("summary_text", JStr "ok")])).

(** The same collaborators, with a trust score that is computed: only the
    social collector raises. *)
Definition demo_calm_env : Env :=
  mkEnv (py_str demo_env) (netloc demo_env) (quality_pct demo_env) (isoformat demo_env)
    (analyze_website demo_env) (collect_seo_data demo_env) (collect_social_data demo_env)
    (collect_reputation_data demo_env) (collect_competitor_data demo_env)
    (fun d => mkCall 1000000 (Returns [("overall", JInt 7)]))
    (generate_recommendations demo_env) (generate_summary demo_env).

Definition demo_site : Website.t :=
  Website.mk 1 "https://example.com" "example.com" "" "" 0 0.

Definition demo_step : Step.t :=
  Step.mk "crawl" "completed" 100 "done" (Some 0).

Definition demo_report (st : report_status) (done started : option Z)
    (steps : list Step.t) (errors : list string) : Report.t :=
  Report.mk "r1" 1 st "" (JDict []) (JDict [("old", JInt 1)]) (JDict []) (JDict [])
    (JDict []) (JDict []) (JList []) (JDict []) 0 0 done started steps errors None.

Definition demo_world (r : Report.t) (t : Z) (fs : list (option string)) : World :=
  mkWorld {[ "r1" := r ]} {[ 1 := demo_site ]} t fs true [] [] [].

(** A report that is already being processed, with an error from an
    earlier attempt. *)
Definition demo_processing : Report.t :=
  demo_report processing None (Some 0) [demo_step] ["old"].

(** The frame of a run on [demo_processing] when the third step starts. *)
Definition demo_frame : Frame :=
  mkFrame demo_processing demo_site
    [("website_data", JDict [("title", JStr "Home")]);
     ("seo_data", JDict [("url", JStr "https://example.com")])]
    (demo_world demo_processing 7000000 []).

(** The frame of the concrete run when the sixth step starts. *)
Definition demo_ai_frame : Frame :=
  mkFrame demo_processing demo_site
    [("website_data", JDict [("title", JStr "Home")])]
    (demo_world demo_processing 9000000 []).

(** A world in which the second database call, the first write, fails. *)
Definition demo_outage : World :=
  demo_world (demo_report pending None None [] []) 5000000 [None; Some "db down"].

(** A report that has been processing for an hour. *)
Definition demo_stuck : World :=
  demo_world (demo_report processing None (Some 0) [] []) 3600000000 [].

(* ===================================================================== *)
(** ** The footprint of a run *)

(** [b] is [a] followed by entries that satisfy [P]. *)
Definition grows {A} (P : A -> Prop) (a b : list A) : Prop :=
  exists l, b = a ++ l /\ Forall P l.

(** The groups that the work on the report [rid] sends to. *)
Definition sent_to (rid : string) (m : string * event) : Prop :=
  m.1 = group_name rid \/ m.1 = "report_list".

(** What the work on a report may do to the world around it, where [key]
    is the id of the report object and [rid] the id the task was given:
    calls that leave the process are consumed in order, the rows of the
    other reports stay as they are, the row of [key] is kept or replaced by
    a row with that id, and messages are only added, to the groups of
    [rid], and only when there is a channel layer. *)
Definition footprint (key rid : string) (w w' : World) : Prop :=
  suffix (faults w') (faults w)
  /\ (forall k, k <> key -> reports w' !! k = reports w !! k)
  /\ (forall r, reports w' !! key = Some r ->
        Report.id r = key \/ reports w !! key = Some r)
  /\ channel_layer w' = channel_layer w
  /\ grows (sent_to rid) (published w) (published w')
  /\ (channel_layer w = false -> published w' = published w).

(** The collaborators called between [w] and [w'] are some of [names], in
    that order. *)
Definition calls (names : list string) (w w' : World) : Prop :=
  exists l, invoked w' = invoked w ++ l /\ sublist l names.

(** The row of [key] in [w'] is the one of [w], or a row without error
    messages. *)
Definition cleared (key : string) (w w' : World) : Prop :=
  forall r, reports w' !! key = Some r ->
    Report.error_messages r = [] \/ reports w !! key = Some r.

(** [cleared], for the work of a step on the frame [f]: the report object
    keeps its id and has no error messages after it. *)
Definition errors_cleared (key : string) (f f' : Frame) : Prop :=
  cleared key (world f) (world f')
  /\ Report.id (report f') = key
  /\ Report.error_messages (report f') = [].

(** The message that [self.retry] hands to the broker after [retries]
    retries. *)
Definition retry_message (report_id : string) (retries : nat) : task :=
  generate_marketing_report_retry report_id (S retries) (60 * 2 ^ Z.of_nat retries).

(** A report that failed in an earlier attempt. *)
Definition demo_failed_once : Report.t :=
  Report.mk "r1" 1 failed "" (JDict []) (JDict []) (JDict []) (JDict [])
    (JDict []) (JDict []) (JList []) (JDict []) 0 0 None (Some 0) [] ["first attempt"] None.

(** The collaborators, in the order of the pipeline. *)
Definition collaborators : list string :=
  [ "analyze_website"; "collect_seo_data"; "collect_social_data";
    "collect_reputation_data"; "collect_competitor_data";
    "calculate_trust_score"; "generate_recommendations"; "generate_summary" ].

(** The keys of a dictionary after [d[k] = v]. *)
Definition add_key (k : string) (ks : list string) : list string :=
  if existsb (String.eqb k) ks then ks else ks ++ [k].

(** The entry of the step [name] was set, once, to completed or failed. *)
Definition step_settled (name : string) (steps steps' : list Step.t) : Prop :=
  exists st pr msg t,
    steps' = update_step name st pr msg t steps
    /\ (st = "completed" \/ st = "failed").

(** What the step [name] of the work on a report does: its footprint on
    the world, the collaborators it may call, the keys it sets in
    [collected_data], and its entry in [processing_steps]. Nothing is
    handed to the broker. *)
Definition stage_ran (key rid name : string) (names keys : list string)
    (f f' : Frame) : Prop :=
  footprint key rid (world f) (world f')
  /\ calls names (world f) (world f')
  /\ queue (world f') = queue (world f)
  /\ dict_keys (collected_data f')
     = foldl (fun ks k => add_key k ks) (dict_keys (collected_data f)) keys
  /\ step_settled name (Report.processing_steps (report f))
       (Report.processing_steps (report f')).

(** The value under ['trust_score'] is a dictionary. *)
Definition trust_is_dict (d : dict) : Prop :=
  exists t, dict_get "trust_score" d = Some (JDict t).

(** The entries of the steps [names] were set, in that order. *)
Fixpoint steps_settled (names : list string) (steps steps' : list Step.t) : Prop :=
  match names with
  | [] => steps' = steps
  | n :: ns => exists mid, step_settled n steps mid /\ steps_settled ns mid steps'
  end.

(** What a sequence of steps does; see [stage_ran]. *)
Definition pipeline_ran (key rid : string) (steps names keys : list string)
    (f f' : Frame) : Prop :=
  footprint key rid (world f) (world f')
  /\ calls names (world f) (world f')
  /\ queue (world f') = queue (world f)
  /\ dict_keys (collected_data f')
     = foldl (fun ks k => add_key k ks) (dict_keys (collected_data f)) keys
  /\ steps_settled steps (Report.processing_steps (report f))
       (Report.processing_steps (report f')).

(** The names of the seven steps. *)
Definition step_names : list string := Step.step <$> processing_steps.

(** The task handed to the broker at the end of a run. *)
Definition notification (r : Report.t) : list task :=
  if String.eqb (Report.requester_email r) "" then []
  else [send_report_notification (Report.requester_email r) (Report.id r)].

(** Every step has an entry, and every entry is completed or failed. *)
Definition all_settled (steps : list Step.t) : Prop :=
  Step.step <$> steps = step_names
  /\ Forall (fun s => Step.status s = "completed" \/ Step.status s = "failed") steps.

(** The id of the report object that a run on [rid] works on. *)
Definition object_id (rid : string) (w : World) : string :=
  match reports w !! rid with
  | Some rep => Report.id rep
  | None => rid
  end.

(** Two stored reports, the first with a requester to notify, in a world
    without a channel layer. *)
Definition demo_requested : Report.t :=
  Report.mk "r1" 1 pending "ann@example.com" (JDict []) (JDict []) (JDict []) (JDict [])
    (JDict []) (JDict []) (JList []) (JDict []) 0 0 None None [] [] None.

Definition demo_other : Report.t :=
  Report.mk "r2" 1 completed "" (JDict []) (JDict []) (JDict []) (JDict [])
    (JDict []) (JDict []) (JList []) (JDict []) 0 0 (Some 1) (Some 0) [] [] (Some 0).

Definition demo_offline (fs : list (option string)) : World :=
  mkWorld {[ "r1" := demo_requested; "r2" := demo_other ]} {[ 1 := demo_site ]}
    5000000 fs false [] [] [].

(** [steps'] is [steps] with the first entry named [step] replaced by
    [entry], or with [entry] added at the end when there is none. *)
Definition upserted (step : string) (entry : Step.t) (steps steps' : list Step.t) : Prop :=
  exists pre post,
    Forall (fun s => Step.step s <> step) pre
    /\ steps' = pre ++ entry :: post
    /\ ((exists old, Step.step old = step /\ steps = pre ++ old :: post)
        \/ (steps = pre /\ post = [])).

(** Every stored report names each of its steps once. *)
Definition steps_named_once (w : World) : Prop :=
  map_Forall (fun _ r => NoDup (Step.step <$> Report.processing_steps r)) (reports w).

(** The rows of a query on the reports, in the order of the model. *)
Definition rows (p : Report.t -> bool) (m : gmap string Report.t) : list Report.t :=
  filter (fun r => p r = true) (merge_sort newest_first (snd <$> map_to_list m)).

(** The rows that [regenerate_failed_reports] goes through. *)
Definition failed_rows (w : World) : list Report.t :=
  rows (fun r => status_eqb (Report.status r) failed) (reports w).

(** The row written when a failed report is reset at time [t]. *)
Definition reset_report (t : Z) (r : Report.t) : Report.t :=
  saved t (Report.set_processing_steps []
             (Report.set_error_messages [] (Report.set_status pending r))).

(** The rows written by a loop that saves [g r] for each [r] of [l]. *)
Definition rewrite_all (g : Report.t -> Report.t) (l : list Report.t)
    (m : gmap string Report.t) : gmap string Report.t :=
  foldl (fun m r => <[Report.id r := g r]> m) m l.

(** The task that restarts the generation of a report. *)
Definition restart (r : Report.t) : task := generate_marketing_report_task (Report.id r).

(** The report ids of the entries of a batch, and of those that started. *)
Definition entry_id (e : batch_entry) : string :=
  match e with
  | batch_started report_id => report_id
  | batch_failed report_id _ => report_id
  end.

Fixpoint started_ids (l : list batch_entry) : list string :=
  match l with
  | [] => []
  | batch_started report_id :: l' => report_id :: started_ids l'
  | batch_failed _ _ :: l' => started_ids l'
  end.

(** Where a sweep stopped: every row is as it was or has been rewritten
    by [g], and every task added to the queue restarts a report of [l]
    whose row has been rewritten. *)
Definition swept (g : Report.t -> Report.t) (l : list Report.t)
    (m0 : gmap string Report.t) (q0 : list task) (t : Z) (w : World) : Prop :=
  now w = t
  /\ (forall k r, m0 !! k = Some r ->
        reports w !! k = Some r \/ reports w !! k = Some (g r))
  /\ exists done,
       queue w = q0 ++ (restart <$> done)
       /\ forall r, r ∈ done -> r ∈ l /\ reports w !! Report.id r = Some (g r).

(** The view count of a share respects its limit. *)
Definition within_limit (s : ReportShare.t) : Prop :=
  match ReportShare.max_views s with
  | Some max_views => max_views = 0 \/ ReportShare.current_views s <= max_views
  | None => True
  end.

(** Every share respects its limit. *)
Definition shares_within_limit (s : Store) : Prop :=
  map_Forall (fun _ share => within_limit share) (shares s).

(** A password share without a password, seen twice out of three allowed
    views, and a public share with a limit of zero. *)
Definition demo_locked : ReportShare.t :=
  ReportShare.mk "r1" "t1" share_password "" (JList []) (Some 3) 2 None true.

Definition demo_open : ReportShare.t :=
  ReportShare.mk "r1" "t2" share_public "" (JList []) (Some 0) 41 (Some 9000000) true.

Definition demo_store : Store :=
  mkStore (demo_world demo_processing 5000000 [])
    {[ "t1" := demo_locked; "t2" := demo_open ]}.

(** Every share belongs to a stored report. *)
Definition shares_have_reports (s : Store) : Prop :=
  map_Forall (fun _ share => is_Some (reports (base s) !! ReportShare.report_id share))
    (shares s).

(** The report stored under [rid] is older than ninety days at time [t]. *)
Definition old_report (t : Z) (m : gmap string Report.t) (rid : string) : bool :=
  match m !! rid with
  | Some r => Report.created_at r <? t - days_90
  | None => false
  end.

(** The rows and the shares after a loop of deletions. *)
Definition delete_all (l : list Report.t) (m : gmap string Report.t) : gmap string Report.t :=
  foldl (fun m r => delete (Report.id r) m) m l.

Definition detach_all (l : list Report.t) (sh : gmap string ReportShare.t) :
    gmap string ReportShare.t :=
  foldl (fun sh r => filter (fun kv => ReportShare.report_id kv.2 <> Report.id r) sh) sh l.

(** The rows that [cleanup_old_reports] deletes. *)
Definition old_rows (w : World) : list Report.t :=
  rows (fun r => Report.created_at r <? now w - days_90) (reports w).

(** A report created a hundred days before the time of [demo_aged], with
    a share that expired, next to a recent report with a share. *)
Definition demo_aged : Store :=
  mkStore
    (mkWorld {[ "r1" := demo_report completed (Some 2) (Some 1) [] [];
                "r2" := Report.mk "r2" 1 completed "" (JDict []) (JDict []) (JDict [])
                          (JDict []) (JDict []) (JDict []) (JList []) (JDict [])
                          8000000000000 0 (Some 2) (Some 1) [] [] None ]}
       {[ 1 := demo_site ]} 8640000000000 [] true [] [] [])
    {[ "t1" := ReportShare.mk "r1" "t1" share_public "" (JList []) None 0 None true;
       "t2" := ReportShare.mk "r2" "t2" share_public "" (JList []) None 0 (Some 5) true ]}.

(** The row of a report that [destroy] has cancelled at time [t]. *)
Definition cancelled_report (t : Z) (r : Report.t) : Report.t :=
  saved t (Report.set_status cancelled r).

(** No two websites have the same domain ([unique_together = ['domain']]). *)
Definition domains_unique (w : World) : Prop :=
  forall i j a b,
    websites w !! i = Some a -> websites w !! j = Some b ->
    Website.domain a = Website.domain b -> i = j.

(** Websites are stored under their own key. *)
Definition websites_keyed (w : World) : Prop :=
  map_Forall (fun k a => Website.id a = k) (websites w).

(* ===================================================================== *)
(** * Reasoning about programs in [M] *)

Section WpRules.
Context {S : Type}.

Lemma wp_ret {A} (a : A) (Q : res A -> S -> Prop) s :
  Q (Ok a) s -> wp (ret a) Q s.
Proof. exact id. Qed.

Lemma wp_raise {A} e (Q : res A -> S -> Prop) s :
  Q (Raise e) s -> wp (raise e) Q s.
Proof. exact id. Qed.

Lemma wp_gets {A} (f : S -> A) (Q : res A -> S -> Prop) s :
  Q (Ok (f s)) s -> wp (gets f) Q s.
Proof. exact id. Qed.

Lemma wp_modify (f : S -> S) (Q : res unit -> S -> Prop) s :
  Q (Ok tt) (f s) -> wp (modify f) Q s.
Proof. exact id. Qed.

Lemma wp_bind {A B} (m : M S A) (k : A -> M S B) (Q : res B -> S -> Prop) s :
  wp m (fun r s' => match r with
                    | Ok a => wp (k a) Q s'
                    | Raise e => Q (Raise e) s'
                    end) s ->
  wp (bind m k) Q s.
Proof. unfold wp, bind. destruct (m s) as [[a|e] s']; exact id. Qed.

Lemma wp_try {A} (m : M S A) (h : exn -> M S A) (Q : res A -> S -> Prop) s :
  wp m (fun r s' => match r with
                    | Ok a => Q (Ok a) s'
                    | Raise e => wp (h e) Q s'
                    end) s ->
  wp (try_except m h) Q s.
Proof. unfold wp, try_except. destruct (m s) as [[a|e] s']; exact id. Qed.

Lemma wp_mono {A} (m : M S A) (Q Q' : res A -> S -> Prop) s :
  (forall r s', Q r s' -> Q' r s') -> wp m Q s -> wp m Q' s.
Proof. unfold wp. auto. Qed.

Lemma wp_run {A} (m : M S A) (Q : res A -> S -> Prop) s r s' :
  m s = (r, s') -> wp m Q s -> Q r s'.
Proof. unfold wp. intros ->. exact id. Qed.
End WpRules.

(** ** The calls that leave the process *)

Lemma wp_infra (Q : res unit -> World -> Prop) w :
  (forall fs, Q (Ok tt) (set_faults fs w)) ->
  (forall fs msg, Q (Raise (Exception msg)) (set_faults fs w)) ->
  wp infra Q w.
Proof.
  intros Hok Herr. unfold wp, infra.
  destruct w as [rs ws t fs c p q i]; simpl.
  destruct fs as [|[msg|] fs]; simpl.
  - apply (Hok []).
  - apply (Herr fs msg).
  - apply (Hok fs).
Qed.

Lemma wp_zoom {S T A} (get : S -> T) (set : T -> S -> S) (m : M T A)
    (Q : res A -> S -> Prop) s :
  wp m (fun r t => Q r (set t s)) (get s) -> wp (zoom get set m) Q s.
Proof. unfold wp, zoom. destruct (m (get s)); exact id. Qed.

Section PrimitiveSpecs.
Context (env : Env) (report_id : string).

(** The two notification helpers never raise and touch only the fault
    schedule and the published messages. *)
Lemma wp_send_progress step st pr msg err (Q : res unit -> World -> Prop) w :
  (forall fs pub, Q (Ok tt) (set_published pub (set_faults fs w))) ->
  wp (send_progress report_id step st pr msg err) Q w.
Proof.
  intros H. unfold send_progress.
  assert (Hid : Q (Ok tt) w).
  { specialize (H (faults w) (published w)). by destruct w. }
  apply wp_try, wp_bind, wp_gets. destruct (channel_layer w).
  - apply wp_bind, wp_gets. unfold group_send. apply wp_bind, wp_infra.
    + intros fs. apply wp_modify. simpl. apply H.
    + intros fs m. apply wp_ret.
      specialize (H fs (published w)). by destruct w.
  - by apply wp_ret.
Qed.

Lemma wp_send_status_update st msg (Q : res unit -> World -> Prop) w :
  (forall fs pub, Q (Ok tt) (set_published pub (set_faults fs w))) ->
  wp (send_status_update report_id st msg) Q w.
Proof.
  intros H. unfold send_status_update.
  assert (Hid : Q (Ok tt) w).
  { specialize (H (faults w) (published w)). by destruct w. }
  apply wp_try, wp_bind, wp_gets. destruct (channel_layer w).
  - apply wp_bind, wp_gets. unfold group_send. apply wp_bind, wp_infra.
    + intros fs. apply wp_modify. simpl. apply H.
    + intros fs m. apply wp_ret.
      specialize (H fs (published w)). by destruct w.
  - by apply wp_ret.
Qed.
End PrimitiveSpecs.

(** ** [Report.save] *)

Ltac before_save_cases r :=
  destruct r as [? ? st ? ? ? ? ? ? ? ? ? ? ? done started ? ? ?];
  unfold before_save; simpl;
  destruct st, done, started; simpl.

Lemma before_save_id t r :
  Report.id (before_save t r) = Report.id r.
Proof. before_save_cases r; reflexivity. Qed.
Lemma before_save_website_id t r :
  Report.website_id (before_save t r) = Report.website_id r.
Proof. before_save_cases r; reflexivity. Qed.
Lemma before_save_status t r :
  Report.status (before_save t r) = Report.status r.
Proof. before_save_cases r; reflexivity. Qed.
Lemma before_save_requester_email t r :
  Report.requester_email (before_save t r) = Report.requester_email r.
Proof. before_save_cases r; reflexivity. Qed.
Lemma before_save_executive_summary t r :
  Report.executive_summary (before_save t r) = Report.executive_summary r.
Proof. before_save_cases r; reflexivity. Qed.
Lemma before_save_seo_data t r :
  Report.seo_data (before_save t r) = Report.seo_data r.
Proof. before_save_cases r; reflexivity. Qed.
Lemma before_save_social_data t r :
  Report.social_data (before_save t r) = Report.social_data r.
Proof. before_save_cases r; reflexivity. Qed.
Lemma before_save_reputation_data t r :
  Report.reputation_data (before_save t r) = Report.reputation_data r.
Proof. before_save_cases r; reflexivity. Qed.
Lemma before_save_competitor_data t r :
  Report.competitor_data (before_save t r) = Report.competitor_data r.
Proof. before_save_cases r; reflexivity. Qed.
Lemma before_save_trust_score t r :
  Report.trust_score (before_save t r) = Report.trust_score r.
Proof. before_save_cases r; reflexivity. Qed.
Lemma before_save_growth_opportunities t r :
  Report.growth_opportunities (before_save t r) = Report.growth_opportunities r.
Proof. before_save_cases r; reflexivity. Qed.
Lemma before_save_technical_analysis t r :
  Report.technical_analysis (before_save t r) = Report.technical_analysis r.
Proof. before_save_cases r; reflexivity. Qed.
Lemma before_save_created_at t r :
  Report.created_at (before_save t r) = Report.created_at r.
Proof. before_save_cases r; reflexivity. Qed.
Lemma before_save_processing_started_at t r :
  Report.processing_started_at (before_save t r) = Report.processing_started_at r.
Proof. before_save_cases r; reflexivity. Qed.
Lemma before_save_processing_steps t r :
  Report.processing_steps (before_save t r) = Report.processing_steps r.
Proof. before_save_cases r; reflexivity. Qed.
Lemma before_save_error_messages t r :
  Report.error_messages (before_save t r) = Report.error_messages r.
Proof. before_save_cases r; reflexivity. Qed.

Lemma saved_id t r : Report.id (saved t r) = Report.id r.
Proof. apply before_save_id. Qed.
Lemma saved_website_id t r : Report.website_id (saved t r) = Report.website_id r.
Proof. apply before_save_website_id. Qed.
Lemma saved_status t r : Report.status (saved t r) = Report.status r.
Proof. apply before_save_status. Qed.
Lemma saved_requester_email t r : Report.requester_email (saved t r) = Report.requester_email r.
Proof. apply before_save_requester_email. Qed.
Lemma saved_executive_summary t r : Report.executive_summary (saved t r) = Report.executive_summary r.
Proof. apply before_save_executive_summary. Qed.
Lemma saved_seo_data t r : Report.seo_data (saved t r) = Report.seo_data r.
Proof. apply before_save_seo_data. Qed.
Lemma saved_social_data t r : Report.social_data (saved t r) = Report.social_data r.
Proof. apply before_save_social_data. Qed.
Lemma saved_reputation_data t r : Report.reputation_data (saved t r) = Report.reputation_data r.
Proof. apply before_save_reputation_data. Qed.
Lemma saved_competitor_data t r : Report.competitor_data (saved t r) = Report.competitor_data r.
Proof. apply before_save_competitor_data. Qed.
Lemma saved_trust_score t r : Report.trust_score (saved t r) = Report.trust_score r.
Proof. apply before_save_trust_score. Qed.
Lemma saved_growth_opportunities t r : Report.growth_opportunities (saved t r) = Report.growth_opportunities r.
Proof. apply before_save_growth_opportunities. Qed.
Lemma saved_technical_analysis t r : Report.technical_analysis (saved t r) = Report.technical_analysis r.
Proof. apply before_save_technical_analysis. Qed.
Lemma saved_created_at t r : Report.created_at (saved t r) = Report.created_at r.
Proof. apply before_save_created_at. Qed.
Lemma saved_processing_started_at t r : Report.processing_started_at (saved t r) = Report.processing_started_at r.
Proof. apply before_save_processing_started_at. Qed.
Lemma saved_processing_steps t r : Report.processing_steps (saved t r) = Report.processing_steps r.
Proof. apply before_save_processing_steps. Qed.
Lemma saved_error_messages t r : Report.error_messages (saved t r) = Report.error_messages r.
Proof. apply before_save_error_messages. Qed.

Create Rewrite HintDb saved_fields.
#[global] Hint Rewrite
  before_save_id saved_id
  before_save_website_id saved_website_id
  before_save_status saved_status
  before_save_requester_email saved_requester_email
  before_save_executive_summary saved_executive_summary
  before_save_seo_data saved_seo_data
  before_save_social_data saved_social_data
  before_save_reputation_data saved_reputation_data
  before_save_competitor_data saved_competitor_data
  before_save_trust_score saved_trust_score
  before_save_growth_opportunities saved_growth_opportunities
  before_save_technical_analysis saved_technical_analysis
  before_save_created_at saved_created_at
  before_save_processing_started_at saved_processing_started_at
  before_save_processing_steps saved_processing_steps
  before_save_error_messages saved_error_messages
  : saved_fields.

Lemma wp_Report_save (Q : res unit -> Report.t * World -> Prop) r w :
  (forall fs,
     Q (Ok tt) (saved (now w) r,
                set_reports (<[Report.id r := saved (now w) r]> (reports w))
                  (set_faults fs w))) ->
  (forall fs msg, Q (Raise (Exception msg)) (saved (now w) r, set_faults fs w)) ->
  wp Report_save Q (r, w).
Proof.
  intros Hok Herr. unfold Report_save.
  apply wp_bind, wp_zoom, wp_gets. simpl.
  apply wp_bind, wp_modify. simpl.
  apply wp_bind, wp_zoom, wp_infra; simpl.
  - intros fs. apply wp_modify. simpl.
    rewrite before_save_id.
    apply Hok.
  - intros fs msg. apply Herr.
Qed.

Section StepSpecs.
Context (env : Env) (report_id : string).

(** [update_processing_step] never raises. The report in memory always
    ends as the saved object with the updated entry; the row is written
    unless the write fails. *)
Lemma wp_update_processing_step name st pr msg (Q : res unit -> Frame -> Prop) f :
  let r' := saved (now (world f))
              (Report.set_processing_steps
                 (update_step name st pr msg (now (world f))
                    (Report.processing_steps (report f))) (report f)) in
  (forall fs,
     Q (Ok tt) (set_world
                  (set_reports (<[Report.id (report f) := r']> (reports (world f)))
                     (set_faults fs (world f)))
                  (set_report r' f))) ->
  (forall fs, Q (Ok tt) (set_world (set_faults fs (world f)) (set_report r' f))) ->
  wp (update_processing_step name st pr msg) Q f.
Proof.
  intros r' Hok Herr. unfold update_processing_step.
  apply wp_try, wp_bind. unfold on_world. apply wp_zoom, wp_gets. simpl.
  apply wp_bind. unfold assign. apply wp_modify. simpl.
  unfold on_report. apply wp_zoom. simpl. apply wp_Report_save.
  - intros fs. simpl. apply Hok.
  - intros fs m. apply wp_ret. simpl. apply Herr.
Qed.

(** [send_progress], run on the frame. *)
Lemma wp_on_send_progress step st pr msg err (Q : res unit -> Frame -> Prop) f :
  (forall fs pub,
     Q (Ok tt) (set_world (set_published pub (set_faults fs (world f))) f)) ->
  wp (on_world (send_progress report_id step st pr msg err)) Q f.
Proof.
  intros H. unfold on_world. apply wp_zoom, wp_send_progress. exact H.
Qed.

(** [report.save()], run on the frame. *)
Lemma wp_on_Report_save (Q : res unit -> Frame -> Prop) f :
  let r' := saved (now (world f)) (report f) in
  (forall fs,
     Q (Ok tt) (set_world
                  (set_reports (<[Report.id (report f) := r']> (reports (world f)))
                     (set_faults fs (world f)))
                  (set_report r' f))) ->
  (forall fs msg,
     Q (Raise (Exception msg)) (set_world (set_faults fs (world f)) (set_report r' f))) ->
  wp (on_report Report_save) Q f.
Proof.
  intros r' Hok Herr. unfold on_report. apply wp_zoom. simpl.
  apply wp_Report_save; simpl; [apply Hok | apply Herr].
Qed.

(** [group_send] and [delay], run on the frame. *)
Lemma wp_on_group_send group ev (Q : res unit -> Frame -> Prop) f :
  (forall fs pub,
     Q (Ok tt) (set_world (set_published pub (set_faults fs (world f))) f)) ->
  (forall fs msg, Q (Raise (Exception msg)) (set_world (set_faults fs (world f)) f)) ->
  wp (on_world (group_send group ev)) Q f.
Proof.
  intros Hok Herr. unfold on_world, group_send.
  apply wp_zoom, wp_bind, wp_infra.
  - intros fs. apply wp_modify. simpl. apply Hok.
  - intros fs msg. apply Herr.
Qed.

Lemma wp_on_delay t (Q : res unit -> Frame -> Prop) f :
  (forall fs q, Q (Ok tt) (set_world (set_queue q (set_faults fs (world f))) f)) ->
  (forall fs msg, Q (Raise (Exception msg)) (set_world (set_faults fs (world f)) f)) ->
  wp (on_world (delay t)) Q f.
Proof.
  intros Hok Herr. unfold on_world, delay.
  apply wp_zoom, wp_bind, wp_infra.
  - intros fs. apply wp_modify. simpl. apply Hok.
  - intros fs msg. apply Herr.
Qed.

(** [timezone.now()], read from the frame. *)
Lemma wp_on_now (Q : res Z -> Frame -> Prop) f :
  Q (Ok (now (world f))) f -> wp (on_world timezone_now) Q f.
Proof.
  intros H. unfold on_world, timezone_now. apply wp_zoom, wp_gets.
  by destruct f.
Qed.

(** A collaborator, called from the frame. *)
Lemma wp_on_invoke {A} name (c : call A) (Q : res A -> Frame -> Prop) f :
  let f' := set_world (set_invoked (invoked (world f) ++ [name])
                         (set_now (now (world f) + elapsed c) (world f))) f in
  (forall a, result c = Returns a -> Q (Ok a) f') ->
  (forall msg, result c = Raises msg -> Q (Raise (Exception msg)) f') ->
  wp (on_world (invoke name c)) Q f.
Proof.
  intros f' Hok Herr. unfold on_world, invoke.
  apply wp_zoom, wp_bind, wp_modify.
  destruct (result c) as [a|msg] eqn:E.
  - apply wp_ret. by apply Hok.
  - apply wp_raise. by apply Herr.
Qed.

(** [Website.save()], run on the frame. *)
Lemma wp_on_Website_save (Q : res unit -> Frame -> Prop) f :
  (forall site' w',
     Website.url site' = Website.url (website f) ->
     reports w' = reports (world f) ->
     now w' = now (world f) ->
     Q (Ok tt) (set_world w' (set_website site' f))) ->
  (forall site' w' msg,
     Website.url site' = Website.url (website f) ->
     reports w' = reports (world f) ->
     now w' = now (world f) ->
     Q (Raise (Exception msg)) (set_world w' (set_website site' f))) ->
  wp (on_website (Website_save env)) Q f.
Proof.
  intros Hok Herr. unfold on_website, Website_save.
  apply wp_zoom. simpl.
  apply wp_bind, wp_modify. simpl.
  apply wp_bind, wp_zoom, wp_gets. simpl.
  apply wp_bind, wp_modify. simpl.
  apply wp_bind, wp_zoom, wp_infra; simpl.
  - intros fs. apply wp_modify. simpl. apply Hok; simpl; try reflexivity.
    by destruct (_ && _).
  - intros fs msg. apply Herr; simpl; try reflexivity.
    by destruct (_ && _).
Qed.
End StepSpecs.

(* ===================================================================== *)
(** * Facts about dictionaries *)

Lemma dict_get_set_eq k v d : dict_get k (dict_set k v d) = Some v.
Proof.
  induction d as [|[k' v'] d IH]; simpl.
  - by rewrite String.eqb_refl.
  - destruct (String.eqb k k') eqn:E; simpl; rewrite E; [done | exact IH].
Qed.

Lemma dict_get_set_ne k k' v d :
  k <> k' -> dict_get k (dict_set k' v d) = dict_get k d.
Proof.
  intros Hne. induction d as [|[k'' v''] d IH]; simpl.
  - destruct (String.eqb k k') eqn:E; [|done].
    apply String.eqb_eq in E. contradiction.
  - destruct (String.eqb k' k'') eqn:E; simpl.
    + apply String.eqb_eq in E. subst k''.
      destruct (String.eqb k k') eqn:E'; [|done].
      apply String.eqb_eq in E'. contradiction.
    + by rewrite IH.
Qed.

Lemma keys_incl_refl d : keys_incl d d.
Proof. by intros k. Qed.

Lemma keys_incl_trans d1 d2 d3 :
  keys_incl d1 d2 -> keys_incl d2 d3 -> keys_incl d1 d3.
Proof. intros H12 H23 k Hk. by apply H23, H12. Qed.

Lemma keys_incl_set d d' k v : keys_incl d d' -> keys_incl d (dict_set k v d').
Proof.
  intros H k' Hk'. destruct (decide (k' = k)) as [->|Hne].
  - rewrite dict_get_set_eq. by eexists.
  - rewrite dict_get_set_ne by done. by apply H.
Qed.

Lemma has_key_set k v d : is_Some (dict_get k (dict_set k v d)).
Proof. rewrite dict_get_set_eq. by eexists. Qed.

Lemma has_key_set_other k k' v d :
  is_Some (dict_get k d) -> is_Some (dict_get k (dict_set k' v d)).
Proof. intros H. by apply (keys_incl_set d d k' v (keys_incl_refl d)). Qed.

(* ===================================================================== *)
(** * What every step of the pipeline keeps *)

Lemma same_header_refl r : same_header r r.
Proof. by repeat split. Qed.

Lemma same_header_trans r1 r2 r3 :
  same_header r1 r2 -> same_header r2 r3 -> same_header r1 r3.
Proof.
  unfold same_header. intros (?&?&?&?&?&?&?) (?&?&?&?&?&?&?).
  repeat split; congruence.
Qed.

Lemma step_keeps_refl f : step_keeps f f.
Proof. split; [apply same_header_refl | apply keys_incl_refl]. Qed.

Lemma step_keeps_trans f1 f2 f3 :
  step_keeps f1 f2 -> step_keeps f2 f3 -> step_keeps f1 f3.
Proof.
  intros [H1 K1] [H2 K2].
  split; [by eapply same_header_trans | by eapply keys_incl_trans].
Qed.

(** Symbolic execution of a step: the control structure is taken apart with
    the rules of [wp], the helpers are replaced by their specifications, and
    every test is split. *)
Ltac norm_state :=
  cbn [world report website collected_data
       set_world set_report set_website set_collected_data
       reports websites now faults channel_layer published queue invoked
       set_reports set_websites set_now set_faults set_published set_queue
       set_invoked fst snd].

(** States are kept as constructor applications, so that the setters
    compute. *)
Ltac open_frame f :=
  let w := fresh "w" in
  destruct f as [? ? ? w]; destruct w; norm_state.

Ltac wp_step :=
  lazymatch goal with
  | |- wp (bind _ _) _ _ => apply wp_bind
  | |- wp (try_except _ _) _ _ => apply wp_try
  | |- wp (ret _) _ _ => apply wp_ret
  | |- wp (raise _) _ _ => apply wp_raise
  | |- wp (gets _) _ _ => apply wp_gets
  | |- wp (modify _) _ _ => apply wp_modify
  | |- wp (on_world (send_progress _ _ _ _ _ _)) _ _ =>
      apply wp_on_send_progress; intros ? ?
  | |- wp (on_world (invoke _ _)) _ _ =>
      apply wp_on_invoke; [intros ? ? | intros ? ?]
  | |- wp (on_world timezone_now) _ _ => apply wp_on_now
  | |- wp (on_report Report_save) _ _ =>
      apply wp_on_Report_save; [intros ? | intros ? ?]
  | |- wp (on_world (group_send _ _)) _ _ =>
      apply wp_on_group_send; [intros ? ? | intros ? ?]
  | |- wp (on_world (delay _)) _ _ =>
      apply wp_on_delay; [intros ? ? | intros ? ?]
  | |- wp (update_processing_step _ _ _ _) _ _ =>
      apply wp_update_processing_step; intros ?
  | |- wp (on_website (Website_save _)) _ _ =>
      apply wp_on_Website_save; [intros ? ? ? ? ? | intros ? ? ? ? ? ?]
  | |- wp (assign _) _ _ => unfold assign
  | |- wp (cd_set _ _) _ _ => unfold cd_set
  | |- wp (cd_item _) _ _ => unfold cd_item
  | |- wp (get_method _ _ _) _ _ => unfold get_method
  | |- wp (contains _ _) _ _ => unfold contains
  | |- wp (item _ _) _ _ => unfold item
  | |- wp (keys_method _) _ _ => unfold keys_method
  | |- wp (match ?x with _ => _ end) _ _ => destruct x eqn:?
  | |- wp (if ?b then _ else _) _ _ => destruct b eqn:?
  end;
  cbv beta iota; norm_state.

Ltac wp_go := repeat wp_step.

(** The assignments made by the steps keep the header. *)
Lemma same_header_saved r r0 t : same_header r r0 -> same_header r (saved t r0).
Proof.
  intros H. eapply same_header_trans; [exact H|].
  unfold same_header. autorewrite with saved_fields. by repeat split.
Qed.

Lemma same_header_set_processing_steps r r0 v :
  same_header r r0 -> same_header r (Report.set_processing_steps v r0).
Proof. intros H. eapply same_header_trans; [exact H|]. by repeat split. Qed.

Lemma same_header_set_seo_data r r0 v :
  same_header r r0 -> same_header r (Report.set_seo_data v r0).
Proof. intros H. eapply same_header_trans; [exact H|]. by repeat split. Qed.

Lemma same_header_set_social_data r r0 v :
  same_header r r0 -> same_header r (Report.set_social_data v r0).
Proof. intros H. eapply same_header_trans; [exact H|]. by repeat split. Qed.

Lemma same_header_set_reputation_data r r0 v :
  same_header r r0 -> same_header r (Report.set_reputation_data v r0).
Proof. intros H. eapply same_header_trans; [exact H|]. by repeat split. Qed.

Lemma same_header_set_competitor_data r r0 v :
  same_header r r0 -> same_header r (Report.set_competitor_data v r0).
Proof. intros H. eapply same_header_trans; [exact H|]. by repeat split. Qed.

Lemma same_header_set_trust_score r r0 v :
  same_header r r0 -> same_header r (Report.set_trust_score v r0).
Proof. intros H. eapply same_header_trans; [exact H|]. by repeat split. Qed.

Lemma same_header_set_growth_opportunities r r0 v :
  same_header r r0 -> same_header r (Report.set_growth_opportunities v r0).
Proof. intros H. eapply same_header_trans; [exact H|]. by repeat split. Qed.

Lemma same_header_set_executive_summary r r0 v :
  same_header r r0 -> same_header r (Report.set_executive_summary v r0).
Proof. intros H. eapply same_header_trans; [exact H|]. by repeat split. Qed.

Lemma same_header_set_technical_analysis r r0 v :
  same_header r r0 -> same_header r (Report.set_technical_analysis v r0).
Proof. intros H. eapply same_header_trans; [exact H|]. by repeat split. Qed.

Ltac header_done :=
  repeat first
    [ apply same_header_saved
    | apply same_header_set_processing_steps
    | apply same_header_set_seo_data
    | apply same_header_set_social_data
    | apply same_header_set_reputation_data
    | apply same_header_set_competitor_data
    | apply same_header_set_trust_score
    | apply same_header_set_growth_opportunities
    | apply same_header_set_executive_summary
    | apply same_header_set_technical_analysis ];
  apply same_header_refl.

(** Closing a goal [step_keeps f f'] where [f'] is [f] under setters. *)
Ltac keeps_done :=
  split; norm_state;
  [ header_done | repeat (apply keys_incl_set); apply keys_incl_refl ].

Section StepsKeep.
Context (env : Env) (report_id : string).

Ltac step_done :=
  split;
  [ keeps_done
  | intros _; unfold collected; norm_state;
    repeat first [ apply has_key_set | apply has_key_set_other ] ].

Lemma website_analysis_keeps f :
  wp (website_analysis env report_id)
     (fun r f' => step_keeps f f' /\ (r = Ok tt -> collected "website_data" f')) f.
Proof.
  unfold website_analysis, website_try, website_except.
  open_frame f. wp_go. all: step_done.
Qed.

Lemma seo_analysis_keeps f :
  wp (seo_analysis env report_id)
     (fun r f' => step_keeps f f' /\ (r = Ok tt -> collected "seo_data" f')) f.
Proof.
  unfold seo_analysis, seo_try, seo_except.
  open_frame f. wp_go. all: step_done.
Qed.

Lemma social_analysis_keeps f :
  wp (social_analysis env report_id)
     (fun r f' => step_keeps f f' /\ (r = Ok tt -> collected "social_data" f')) f.
Proof.
  unfold social_analysis, social_try, social_except.
  open_frame f. wp_go. all: step_done.
Qed.

Lemma reputation_analysis_keeps f :
  wp (reputation_analysis env report_id)
     (fun r f' => step_keeps f f' /\ (r = Ok tt -> collected "reputation_data" f')) f.
Proof.
  unfold reputation_analysis, reputation_try, reputation_except.
  open_frame f. wp_go. all: step_done.
Qed.

Lemma competitor_analysis_keeps f :
  wp (competitor_analysis env report_id)
     (fun r f' => step_keeps f f' /\ (r = Ok tt -> collected "competitor_data" f')) f.
Proof.
  unfold competitor_analysis, competitor_try, competitor_except, competitor_keywords.
  open_frame f. wp_go. all: step_done.
Qed.

Lemma ai_analysis_keeps f :
  wp (ai_analysis env report_id)
     (fun r f' => step_keeps f f'
                  /\ (r = Ok tt -> collected "trust_score" f'
                                   /\ collected "growth_opportunities" f')) f.
Proof.
  unfold ai_analysis, ai_try, ai_except.
  open_frame f. wp_go.
  all: split;
    [ keeps_done
    | intros _; unfold collected; norm_state;
      split; repeat first [ apply has_key_set | apply has_key_set_other ] ].
Qed.

Lemma report_compilation_keeps f :
  wp (report_compilation env report_id) (fun r f' => step_keeps f f') f.
Proof.
  unfold report_compilation, compilation_try, compilation_except.
  open_frame f. wp_go. all: keeps_done.
Qed.
End StepsKeep.

(* ===================================================================== *)
(** * The whole pipeline *)

Section Pipeline.
Context (env : Env) (report_id : string).

Lemma collected_keeps k f f' : step_keeps f f' -> collected k f -> collected k f'.
Proof. intros [_ H]. apply H. Qed.

(** One more step of [run_steps], by the lemma [L] about that step; [K]
    relates the first frame to the current one. *)
Ltac next_step L K H :=
  apply wp_bind; eapply wp_mono; [|apply L];
  let K' := fresh "K" in
  intros [[]|?] ? [K' H]; cbv beta iota;
  pose proof (step_keeps_trans _ _ _ K K') as K'';
  clear K; rename K'' into K;
  [ specialize (H eq_refl) | split; [ exact K | discriminate ] ].

Lemma run_steps_keeps f :
  wp (run_steps env report_id)
     (fun r f' => step_keeps f f'
                  /\ (r = Ok tt -> Forall (fun k => collected k f') output_keys)) f.
Proof.
  unfold run_steps.
  pose proof (step_keeps_refl f) as K.
  next_step website_analysis_keeps K H1.
  next_step seo_analysis_keeps K H2.
  next_step social_analysis_keeps K H3.
  next_step reputation_analysis_keeps K H4.
  next_step competitor_analysis_keeps K H5.
  next_step ai_analysis_keeps K H6.
  eapply wp_mono; [|apply report_compilation_keeps].
  intros r f7 K7. cbv beta in *. destruct H6 as [H6a H6b].
  split; [by eapply step_keeps_trans|].
  intros _. unfold output_keys.
  repeat apply List.Forall_cons; try apply List.Forall_nil.
  all: eauto 20 using collected_keeps.
Qed.
End Pipeline.

(* ===================================================================== *)
(** * Start and end of a run *)

Section StartAndEnd.
Context (env : Env) (report_id : string).

Lemma start_processing_spec r w :
  wp (start_processing report_id)
     (fun res s =>
        s.1 = started_report (now w) r
        /\ now s.2 = now w
        /\ invoked s.2 = invoked w
        /\ queue s.2 = queue w
        /\ websites s.2 = websites w
        /\ (reports s.2 = reports w
            \/ reports s.2 = <[Report.id r := started_report (now w) r]> (reports w))
        /\ (forall site, res = Ok site ->
              reports s.2 = <[Report.id r := started_report (now w) r]> (reports w)))
     (r, w).
Proof.
  unfold start_processing, started_report.
  destruct w as [rs ws t fs ch pub q inv].
  apply wp_bind, wp_modify. simpl.
  apply wp_bind, wp_zoom, wp_gets. simpl.
  apply wp_bind, wp_modify. simpl.
  apply wp_bind, wp_modify. simpl.
  apply wp_bind, wp_Report_save; simpl.
  - intros fs1.
    apply wp_bind, wp_zoom, wp_send_status_update. simpl. intros fs2 pub2.
    apply wp_bind, wp_zoom, wp_infra; simpl.
    + intros fs3. apply wp_bind, wp_gets. simpl.
      destruct (ws !! _); [apply wp_ret | apply wp_raise]; simpl; auto 10.
    + intros fs3 msg. simpl. repeat split; auto; discriminate.
  - intros fs1 msg. repeat split; auto; discriminate.
Qed.

Lemma initialize_steps_spec f :
  wp initialize_steps
     (fun res f' =>
        report f' = saved (now (world f))
                      (Report.set_processing_steps processing_steps (report f))
        /\ collected_data f' = collected_data f
        /\ website f' = website f
        /\ now (world f') = now (world f)
        /\ (res = Ok tt ->
              reports (world f') = <[Report.id (report f) := report f']> (reports (world f))))
     f.
Proof.
  unfold initialize_steps. open_frame f. wp_go; repeat split; auto; discriminate.
Qed.

Lemma complete_spec f :
  wp (complete report_id)
     (fun res f' =>
        report f' = completed_report (now (world f)) (report f)
        /\ collected_data f' = collected_data f
        /\ forall r, res = Ok r ->
             reports (world f') = <[Report.id (report f) := report f']> (reports (world f))
             /\ exists overall,
                  r = result_completed (Report.id (report f'))
                        (Report.processing_time_seconds (report f'))
                        (length (collected_data f)) overall)
     f.
Proof.
  unfold complete, completed_report. open_frame f.
  wp_go.
  all: match goal with
       | H : Report.processing_started_at _ = _ |- _ => simpl in H; rewrite H
       end.
  all: norm_state; simpl.
  all: split; [reflexivity | split; [reflexivity | intros ? Hr]].
  all: try discriminate.
  all: injection Hr as <-; split; [reflexivity | eauto].
Qed.
End StartAndEnd.

(** Fields of the report at the start and at the end of a run. *)
Lemma completed_report_status t r : Report.status (completed_report t r) = completed.
Proof.
  unfold completed_report. rewrite saved_status.
  by destruct (Report.processing_started_at r).
Qed.

Lemma completed_report_header t r :
  Report.id (completed_report t r) = Report.id r
  /\ Report.processing_started_at (completed_report t r) = Report.processing_started_at r
  /\ Report.error_messages (completed_report t r) = Report.error_messages r.
Proof.
  unfold completed_report. autorewrite with saved_fields.
  destruct (Report.processing_started_at r) eqn:E; simpl; by rewrite ?E.
Qed.

Lemma completed_report_data t r :
  Report.seo_data (completed_report t r) = Report.seo_data r
  /\ Report.social_data (completed_report t r) = Report.social_data r
  /\ Report.reputation_data (completed_report t r) = Report.reputation_data r
  /\ Report.competitor_data (completed_report t r) = Report.competitor_data r
  /\ Report.trust_score (completed_report t r) = Report.trust_score r
  /\ Report.growth_opportunities (completed_report t r) = Report.growth_opportunities r.
Proof.
  unfold completed_report. autorewrite with saved_fields.
  by destruct (Report.processing_started_at r).
Qed.

Lemma started_report_fields t r :
  Report.id (started_report t r) = Report.id r
  /\ Report.status (started_report t r) = processing
  /\ Report.processing_started_at (started_report t r) = Some t
  /\ Report.error_messages (started_report t r) = [].
Proof. unfold started_report. autorewrite with saved_fields. by repeat split. Qed.

Lemma objects_get_spec report_id w :
  wp (objects_get report_id)
     (fun r w1 =>
        (exists fs, w1 = set_faults fs w)
        /\ match r with
           | Ok rep => reports w !! report_id = Some rep
           | Raise DoesNotExist => reports w !! report_id = None
           | Raise (Exception _) => True
           end) w.
Proof.
  unfold objects_get. apply wp_bind, wp_infra.
  - intros fs. apply wp_bind, wp_gets. simpl.
    destruct (reports w !! report_id) eqn:E; [apply wp_ret | apply wp_raise];
      (split; [by exists fs | done]).
  - intros fs msg. split; [by exists fs | done].
Qed.

Section WholeRun.
Context (env : Env) (report_id : string).

(** Lines 108-423, from the frame built when the report is loaded. *)
Lemma pipeline_spec f0 :
  wp (initialize_steps ;; run_steps env report_id ;; complete report_id)
     (fun r f' =>
        forall res, r = Ok res ->
          reports (world f') !! Report.id (report f0) = Some (report f')
          /\ Report.status (report f') = completed
          /\ Forall (fun k => collected k f') output_keys
          /\ Report.processing_started_at (report f')
             = Report.processing_started_at (report f0)
          /\ Report.error_messages (report f') = Report.error_messages (report f0))
     f0.
Proof.
  apply wp_bind. eapply wp_mono; [|apply initialize_steps_spec].
  intros [[]|e] f1 (Hr1 & Hcd1 & _ & _ & _); cbv beta iota; [|discriminate].
  apply wp_bind. eapply wp_mono; [|apply run_steps_keeps].
  intros [[]|e] f2 [[Hh K] Hkeys]; cbv beta iota; [|discriminate].
  eapply wp_mono; [|apply complete_spec].
  intros r f3 (Hr3 & Hcd3 & Hok) res ->.
  destruct (Hok _ eq_refl) as [Hrep _].
  destruct Hh as (Hid & _ & _ & _ & _ & Hst & Herr).
  destruct (completed_report_header (now (world f2)) (report f2)) as (Cid & Cst & Cerr).
  rewrite Hr1 in Hid, Hst, Herr. autorewrite with saved_fields in Hid, Hst, Herr.
  simpl in Hid, Hst, Herr.
  rewrite Hrep, Hid, lookup_insert_eq.
  split; [done|]. rewrite Hr3.
  split; [apply completed_report_status|].
  split.
  - specialize (Hkeys eq_refl).
    eapply Forall_impl; [exact Hkeys|]. intros k Hk.
    unfold collected in *. by rewrite Hcd3.
  - split; congruence.
Qed.

(** A run whose body ends normally on a stored report went through the
    pipeline. *)
Lemma try_body_ok w rep res d w' :
  reports w !! report_id = Some rep ->
  try_body env report_id w = (Ok (res, d), w') ->
  exists fs s site f,
    start_processing report_id (rep, set_faults fs w) = (Ok site, s)
    /\ (initialize_steps ;; run_steps env report_id ;; complete report_id)
         (mkFrame s.1 site [] s.2) = (Ok res, f)
    /\ d = collected_data f
    /\ w' = world f.
Proof.
  intros Hrep Hrun. unfold try_body in Hrun.
  pose proof (objects_get_spec report_id w) as Hget. unfold wp in Hget.
  destruct (objects_get report_id w) as [[r0|e0] w1]; simpl in Hget.
  - destruct Hget as [[fs ->] Hr0].
    assert (r0 = rep) as -> by congruence.
    destruct (start_processing report_id (rep, set_faults fs w))
      as [[site|e1] s] eqn:Hstart; [|done].
    destruct ((initialize_steps ;; run_steps env report_id ;; complete report_id)
                (mkFrame s.1 site [] s.2)) as [[r2|e2] f] eqn:Hpipe; [|done].
    injection Hrun as <- <- <-. by exists fs, s, site, f.
  - destruct Hget as [_ Hr0]. destruct e0; [congruence | done].
Qed.
End WholeRun.

(* ===================================================================== *)
(** * A step that fails *)

Section FailedStep.
Context (env : Env) (report_id : string).

(** When the [try] block of a data step raises, nothing was assigned yet. *)
Lemma step_try_raises s f :
  wp (step_try env report_id s)
     (fun r f1 =>
        forall e, r = Raise e ->
          report f1 = report f
          /\ website f1 = website f
          /\ collected_data f1 = collected_data f
          /\ reports (world f1) = reports (world f)) f.
Proof.
  destruct s; simpl;
    unfold seo_try, social_try, reputation_try, competitor_try, competitor_keywords;
    open_frame f; wp_go; intros ? ?; try discriminate; by repeat split.
Qed.

(** The handler of a data step: it returns, stores the fallback under the
    key of the step, and touches the report only through the progress
    entry. *)
Lemma step_except_spec s e f1 :
  forall h,
    h = match s with
        | SEO => seo_except report_id e
        | Social => social_except report_id e
        | Reputation => reputation_except report_id e
        | Competitor => competitor_except report_id e
        end ->
    wp h
       (fun r f' =>
          r = Ok tt
          /\ collected_data f'
             = dict_set (step_key s) (step_fallback s (website f1) e) (collected_data f1)
          /\ report f' = failed_step_report s e (now (world f1)) (report f1)
          /\ website f' = website f1
          /\ (reports (world f') = reports (world f1)
              \/ reports (world f')
                 = <[Report.id (report f1) := report f']> (reports (world f1)))) f1.
Proof.
  intros h ->. unfold failed_step_report.
  destruct s; simpl;
    unfold seo_except, social_except, reputation_except, competitor_except;
    open_frame f1; wp_go; repeat split; auto.
Qed.

(** A failed data step, from the frame [f] it started in: [f1] is the
    frame at the time of the failure. *)
Lemma failed_step s f e f1 :
  step_try env report_id s f = (Raise e, f1) ->
  let f' := (step_run env report_id s f).2 in
  (step_run env report_id s f).1 = Ok tt
  /\ collected_data f'
     = dict_set (step_key s) (step_fallback s (website f1) e) (collected_data f)
  /\ report f' = failed_step_report s e (now (world f1)) (report f)
  /\ (reports (world f') = reports (world f)
      \/ reports (world f') = <[Report.id (report f) := report f']> (reports (world f))).
Proof.
  intros Htry.
  pose proof (wp_run _ _ _ _ _ Htry (step_try_raises s f) e eq_refl)
    as (Hr & Hw & Hd & Hrs).
  pose proof (step_except_spec s e f1 _ eq_refl) as Hh. unfold wp in Hh.
  assert (Hrun : step_run env report_id s f
                 = match s with
                   | SEO => seo_except report_id e
                   | Social => social_except report_id e
                   | Reputation => reputation_except report_id e
                   | Competitor => competitor_except report_id e
                   end f1).
  { destruct s; simpl in *;
      unfold seo_analysis, social_analysis, reputation_analysis,
        competitor_analysis, try_except; by rewrite Htry. }
  simpl. rewrite Hrun.
  destruct Hh as (H1 & H2 & H3 & _ & H5).
  rewrite Hr, Hd, Hrs in *. by repeat split.
Qed.
End FailedStep.

Section FailedAI.
Context (env : Env) (report_id : string).

Lemma ai_except_spec e f1 :
  wp (ai_except report_id e)
     (fun r f' =>
        r = Ok tt
        /\ report f' = failed_ai_report e (now (world f1)) (report f1)
        /\ collected_data f'
           = dict_set "growth_opportunities" (JList [])
               (dict_set "trust_score" (trust_fallback e) (collected_data f1))) f1.
Proof.
  unfold ai_except, failed_ai_report. open_frame f1. wp_go.
  all: repeat match goal with
         | H : dict_get _ (dict_set _ _ _) = _ |- _ =>
             first [ rewrite dict_get_set_eq in H
                   | rewrite dict_get_set_ne in H by discriminate ]
         end.
  all: try discriminate.
  all: repeat match goal with H : Some _ = Some _ |- _ => injection H as <- end.
  all: by repeat split.
Qed.

Lemma same_scores_refl r : same_scores r r.
Proof. by repeat split. Qed.

Lemma same_scores_saved r r0 t : same_scores r r0 -> same_scores r (saved t r0).
Proof.
  unfold same_scores. autorewrite with saved_fields. exact id.
Qed.

Lemma same_scores_set_processing_steps r r0 v :
  same_scores r r0 -> same_scores r (Report.set_processing_steps v r0).
Proof. exact id. Qed.

Lemma same_scores_set_executive_summary r r0 v :
  same_scores r r0 -> same_scores r (Report.set_executive_summary v r0).
Proof. exact id. Qed.

Lemma same_scores_set_technical_analysis r r0 v :
  same_scores r r0 -> same_scores r (Report.set_technical_analysis v r0).
Proof. exact id. Qed.

(** The last step leaves the scores of the report as they are. *)
Lemma report_compilation_keeps_scores f :
  wp (report_compilation env report_id)
     (fun r f' => same_scores (report f) (report f')) f.
Proof.
  unfold report_compilation, compilation_try, compilation_except.
  open_frame f. wp_go.
  all: repeat first
         [ apply same_scores_saved
         | apply same_scores_set_processing_steps
         | apply same_scores_set_executive_summary
         | apply same_scores_set_technical_analysis ];
       apply same_scores_refl.
Qed.

(** A failed AI step: the fallback scores are on the report in memory, and
    the save that ends the run writes them. *)
Lemma failed_ai f e f1 :
  ai_try env report_id f = (Raise e, f1) ->
  let f' := (ai_analysis env report_id f).2 in
  (ai_analysis env report_id f).1 = Ok tt
  /\ dict_get "trust_score" (collected_data f') = Some (trust_fallback e)
  /\ dict_get "growth_opportunities" (collected_data f') = Some (JList [])
  /\ Report.trust_score (report f') = trust_fallback e
  /\ Report.growth_opportunities (report f') = JList []
  /\ forall res f'',
       (report_compilation env report_id ;; complete report_id) f' = (Ok res, f'') ->
       exists rec,
         reports (world f'') !! Report.id (report f) = Some rec
         /\ Report.trust_score rec = trust_fallback e
         /\ Report.growth_opportunities rec = JList [].
Proof.
  intros Htry.
  pose proof (ai_analysis_keeps env report_id f) as Hkeep. unfold wp in Hkeep.
  destruct Hkeep as [[[Hid _] _] _].
  pose proof (ai_except_spec e f1) as Hh. unfold wp in Hh.
  assert (Hrun : ai_analysis env report_id f = ai_except report_id e f1).
  { unfold ai_analysis, try_except. by rewrite Htry. }
  simpl. rewrite Hrun in *. destruct Hh as (H1 & H2 & H3).
  split; [exact H1|]. rewrite H3.
  split; [by rewrite dict_get_set_ne, dict_get_set_eq|].
  split; [by rewrite dict_get_set_eq|].
  rewrite H2. split; [reflexivity|]. split; [reflexivity|].
  intros res f'' Hend.
  assert (Hwp : wp (report_compilation env report_id ;; complete report_id)
                  (fun r g =>
                     forall res, r = Ok res ->
                       exists rec,
                         reports (world g) !! Report.id (report f) = Some rec
                         /\ Report.trust_score rec = trust_fallback e
                         /\ Report.growth_opportunities rec = JList [])
                  (ai_except report_id e f1).2).
  { apply wp_bind. eapply wp_mono; [|apply report_compilation_keeps_scores].
    intros [[]|e7] f7 (Kid & Kts & Kgo); cbv beta iota; [|discriminate].
    eapply wp_mono; [|apply complete_spec].
    intros r f8 (Hr8 & _ & Hok) res' ->.
    destruct (Hok _ eq_refl) as [Hrep _].
    destruct (completed_report_header (now (world f7)) (report f7)) as (Cid & _).
    destruct (completed_report_data (now (world f7)) (report f7))
      as (_ & _ & _ & _ & Cts & Cgo).
    exists (report f8). rewrite Hrep, Kid, Hid, lookup_insert_eq.
    split; [reflexivity|]. rewrite Hr8, Cts, Cgo, Kts, Kgo, H2. by split. }
  exact (wp_run _ _ _ _ _ Hend Hwp res eq_refl).
Qed.
End FailedAI.

(* ===================================================================== *)
(** * The data fields of the report along a run *)

Lemma same_data_but_refl own r : same_data_but own r r.
Proof. by split. Qed.

Lemma same_data_but_trans own r1 r2 r3 :
  same_data_but own r1 r2 -> same_data_but own r2 r3 -> same_data_but own r1 r3.
Proof.
  intros [I1 H1] [I2 H2]. split; [congruence|].
  intros s Hs. rewrite (H2 s Hs). by apply H1.
Qed.

Lemma same_data_but_field own s r r' :
  Some s <> own -> same_data_but own r r' -> same_field s r r'.
Proof. intros Hs [I H]. split; [exact I | by apply H]. Qed.

Lemma same_field_refl s r : same_field s r r.
Proof. by split. Qed.

Lemma same_field_trans s r1 r2 r3 :
  same_field s r1 r2 -> same_field s r2 r3 -> same_field s r1 r3.
Proof. intros [I1 H1] [I2 H2]. split; congruence. Qed.

(** An operation on the report that keeps the id and the four data fields. *)
Ltac keeps_data :=
  let I := fresh "I" in
  let H := fresh "H" in
  let s := fresh "s" in
  let Hs := fresh "Hs" in
  intros [I H]; split;
  [ autorewrite with saved_fields; exact I
  | intros s Hs; rewrite <- (H s Hs); destruct s; simpl;
    autorewrite with saved_fields; first [reflexivity | congruence] ].

Lemma same_data_saved own r r0 t :
  same_data_but own r r0 -> same_data_but own r (saved t r0).
Proof. keeps_data. Qed.

Lemma same_data_set_processing_steps own r r0 v :
  same_data_but own r r0 -> same_data_but own r (Report.set_processing_steps v r0).
Proof. keeps_data. Qed.

Lemma same_data_set_executive_summary own r r0 v :
  same_data_but own r r0 -> same_data_but own r (Report.set_executive_summary v r0).
Proof. keeps_data. Qed.

Lemma same_data_set_technical_analysis own r r0 v :
  same_data_but own r r0 -> same_data_but own r (Report.set_technical_analysis v r0).
Proof. keeps_data. Qed.

Lemma same_data_set_trust_score own r r0 v :
  same_data_but own r r0 -> same_data_but own r (Report.set_trust_score v r0).
Proof. keeps_data. Qed.

Lemma same_data_set_growth_opportunities own r r0 v :
  same_data_but own r r0 -> same_data_but own r (Report.set_growth_opportunities v r0).
Proof. keeps_data. Qed.

Lemma same_data_set_status own r r0 v :
  same_data_but own r r0 -> same_data_but own r (Report.set_status v r0).
Proof. keeps_data. Qed.

Lemma same_data_set_completed_at own r r0 v :
  same_data_but own r r0 -> same_data_but own r (Report.set_completed_at v r0).
Proof. keeps_data. Qed.

Lemma same_data_set_processing_time_seconds own r r0 v :
  same_data_but own r r0 ->
  same_data_but own r (Report.set_processing_time_seconds v r0).
Proof. keeps_data. Qed.

Lemma same_data_set_social_data r r0 v :
  same_data_but (Some Social) r r0 ->
  same_data_but (Some Social) r (Report.set_social_data v r0).
Proof. keeps_data. Qed.

Lemma same_data_set_reputation_data r r0 v :
  same_data_but (Some Reputation) r r0 ->
  same_data_but (Some Reputation) r (Report.set_reputation_data v r0).
Proof. keeps_data. Qed.

Lemma same_data_set_competitor_data r r0 v :
  same_data_but (Some Competitor) r r0 ->
  same_data_but (Some Competitor) r (Report.set_competitor_data v r0).
Proof. keeps_data. Qed.

Ltac data_done :=
  repeat first
    [ apply same_data_saved
    | apply same_data_set_processing_steps
    | apply same_data_set_executive_summary
    | apply same_data_set_technical_analysis
    | apply same_data_set_trust_score
    | apply same_data_set_growth_opportunities
    | apply same_data_set_social_data
    | apply same_data_set_reputation_data
    | apply same_data_set_competitor_data ];
  apply same_data_but_refl.

Section DataAlongRun.
Context (env : Env) (report_id : string).

Lemma social_analysis_data f :
  wp (social_analysis env report_id)
     (fun _ f' => same_data_but (Some Social) (report f) (report f')) f.
Proof.
  unfold social_analysis, social_try, social_except.
  open_frame f. wp_go. all: data_done.
Qed.

Lemma reputation_analysis_data f :
  wp (reputation_analysis env report_id)
     (fun _ f' => same_data_but (Some Reputation) (report f) (report f')) f.
Proof.
  unfold reputation_analysis, reputation_try, reputation_except.
  open_frame f. wp_go. all: data_done.
Qed.

Lemma competitor_analysis_data f :
  wp (competitor_analysis env report_id)
     (fun _ f' => same_data_but (Some Competitor) (report f) (report f')) f.
Proof.
  unfold competitor_analysis, competitor_try, competitor_except, competitor_keywords.
  open_frame f. wp_go. all: data_done.
Qed.

Lemma ai_analysis_data f :
  wp (ai_analysis env report_id)
     (fun _ f' => same_data_but None (report f) (report f')) f.
Proof.
  unfold ai_analysis, ai_try, ai_except.
  open_frame f. wp_go. all: data_done.
Qed.

Lemma report_compilation_data f :
  wp (report_compilation env report_id)
     (fun _ f' => same_data_but None (report f) (report f')) f.
Proof.
  unfold report_compilation, compilation_try, compilation_except.
  open_frame f. wp_go. all: data_done.
Qed.

(** The end of the run writes the report with its data fields. *)
Lemma complete_data f :
  wp (complete report_id)
     (fun r f' =>
        forall res, r = Ok res ->
          reports (world f') !! Report.id (report f) = Some (report f')
          /\ same_data_but None (report f) (report f')) f.
Proof.
  eapply wp_mono; [|apply complete_spec].
  intros r f' (Hr & _ & Hok) res ->.
  destruct (Hok _ eq_refl) as [Hrep _].
  split; [by rewrite Hrep, lookup_insert_eq|].
  rewrite Hr. unfold completed_report.
  destruct (Report.processing_started_at (report f));
    repeat first
      [ apply same_data_saved
      | apply same_data_set_processing_time_seconds
      | apply same_data_set_completed_at
      | apply same_data_set_status ];
    apply same_data_but_refl.
Qed.

(** One more step of [rest_of_run], by the lemma [L] about that step: [K]
    relates the report of the first frame to the current one. *)
Ltac later_step s L K :=
  apply wp_bind; eapply wp_mono; [|apply L];
  let K' := fresh "K" in
  intros [[]|?] ? K'; cbv beta iota; [|discriminate];
  apply (same_data_but_field _ s) in K'; [|discriminate];
  let K'' := fresh "K" in
  pose proof (same_field_trans s _ _ _ K K') as K'';
  clear K K'; rename K'' into K.

Ltac end_of_run s K :=
  eapply wp_mono; [|apply complete_data];
  let res := fresh "res" in
  let f' := fresh "f'" in
  let Hc := fresh "Hc" in
  let Hrow := fresh "Hrow" in
  let K' := fresh "K'" in
  let Hid := fresh "Hid" in
  let Hf := fresh "Hf" in
  intros ? f' Hc res ->;
  destruct (Hc _ eq_refl) as [Hrow K'];
  apply (same_data_but_field _ s) in K'; [|discriminate];
  rewrite (proj1 K) in Hrow;
  pose proof (same_field_trans s _ _ _ K K') as [Hid Hf];
  exists (report f'); split; [exact Hrow | exact Hf].

(** After a data step, the field of that step reaches the row written at
    the end of the run as the step left it. *)
Lemma rest_of_run_keeps_field s f :
  wp (rest_of_run env report_id s)
     (fun r f' =>
        forall res, r = Ok res ->
          exists row,
            reports (world f') !! Report.id (report f) = Some row
            /\ step_field s row = step_field s (report f)) f.
Proof.
  pose proof (same_field_refl s (report f)) as K.
  destruct s; unfold rest_of_run.
  - later_step SEO social_analysis_data K.
    later_step SEO reputation_analysis_data K.
    later_step SEO competitor_analysis_data K.
    later_step SEO ai_analysis_data K.
    later_step SEO report_compilation_data K.
    end_of_run SEO K.
  - later_step Social reputation_analysis_data K.
    later_step Social competitor_analysis_data K.
    later_step Social ai_analysis_data K.
    later_step Social report_compilation_data K.
    end_of_run Social K.
  - later_step Reputation competitor_analysis_data K.
    later_step Reputation ai_analysis_data K.
    later_step Reputation report_compilation_data K.
    end_of_run Reputation K.
  - later_step Competitor ai_analysis_data K.
    later_step Competitor report_compilation_data K.
    end_of_run Competitor K.
Qed.
End DataAlongRun.

(* ===================================================================== *)
(** * Properties of the pipeline *)

(** What a run that ends normally on a stored report leaves behind. *)
Lemma completed_run env report_id w rep res d w' :
  reports w !! report_id = Some rep ->
  Report.id rep = report_id ->
  try_body env report_id w = (Ok (res, d), w') ->
  exists rep',
    reports w' !! report_id = Some rep'
    /\ Report.status rep' = completed
    /\ Report.processing_started_at rep' = Some (now w)
    /\ Report.error_messages rep' = []
    /\ Forall (fun k => is_Some (dict_get k d)) output_keys.
Proof.
  intros Hrep Hid Hrun.
  destruct (try_body_ok env report_id w rep res d w' Hrep Hrun)
    as (fs & s & site & f & Hstart & Hpipe & -> & ->).
  pose proof (wp_run _ _ _ _ _ Hstart (start_processing_spec report_id rep _))
    as (Hs1 & _).
  simpl in Hs1.
  pose proof (wp_run _ _ _ _ _ Hpipe (pipeline_spec env report_id _) res eq_refl)
    as (Hlook & Hst & Hkeys & Hstarted & Herrs).
  simpl in Hlook, Hstarted, Herrs.
  destruct (started_report_fields (now w) rep) as (Sid & _ & Sst & Serr).
  rewrite Hs1 in Hlook, Hstarted, Herrs.
  rewrite Sid, Hid in Hlook. rewrite Sst in Hstarted. rewrite Serr in Herrs.
  exists (report f). by repeat split.
Qed.

(** C1. Total stage coverage: when the body of the task ends without an
    exception on a stored report, the stored record has status
    ['completed'], the task returns its result, and [collected_data] holds
    a value under each of the seven output keys, whatever the collaborators
    returned or raised. *)
Theorem completed_run_covers_all_outputs env report_id retries w rep res d w' :
  reports w !! report_id = Some rep ->
  Report.id rep = report_id ->
  try_body env report_id w = (Ok (res, d), w') ->
  generate_marketing_report env report_id retries w = (Returned res, w')
  /\ (exists rep', reports w' !! report_id = Some rep'
                   /\ Report.status rep' = completed)
  /\ Forall (fun k => is_Some (dict_get k d)) output_keys.
Proof.
  intros Hrep Hid Hrun.
  destruct (completed_run env report_id w rep res d w' Hrep Hid Hrun)
    as (rep' & Hlook & Hst & _ & _ & Hkeys).
  split; [|split]; [| by exists rep' | exact Hkeys].
  unfold generate_marketing_report. by rewrite Hrun.
Qed.

(* ===================================================================== *)
(** * Marking a report as failed *)

Lemma well_keyed_lookup w k r :
  well_keyed w -> reports w !! k = Some r -> Report.id r = k.
Proof. intros H. exact (H k r). Qed.

Lemma failed_report_fields msg t r :
  Report.id (failed_report msg t r) = Report.id r
  /\ Report.status (failed_report msg t r) = failed
  /\ Report.error_messages (failed_report msg t r) = Report.error_messages r ++ [msg].
Proof. unfold failed_report. autorewrite with saved_fields. by repeat split. Qed.

Lemma wp_with_object {T A} (obj : T) (m : M (T * World) A) (Q : res A -> World -> Prop) w :
  wp m (fun r s => Q r s.2) (obj, w) -> wp (with_object obj m) Q w.
Proof. unfold wp, with_object. destruct (m (obj, w)) as [r s]. exact id. Qed.

Section MarkFailed.
Context (report_id : string).

Lemma mark_failed_spec exc w :
  wp (mark_failed report_id exc)
     (fun res w' =>
        res = Ok tt
        /\ now w' = now w /\ invoked w' = invoked w /\ queue w' = queue w
        /\ websites w' = websites w
        /\ ((reports w' = reports w /\ published w' = published w)
            \/ exists r,
                 reports w !! report_id = Some r
                 /\ reports w'
                    = <[Report.id r := failed_report (str_exn exc) (now w) r]> (reports w)))
     w.
Proof.
  unfold mark_failed, objects_get, group_send, failed_report.
  destruct w as [rs ws t fs ch pub q inv].
  apply wp_try, wp_bind, wp_bind, wp_infra.
  - intros fs1. apply wp_bind, wp_gets. simpl.
    destruct (rs !! report_id) as [r|] eqn:Hr.
    + apply wp_ret, wp_bind, wp_with_object, wp_Report_save; simpl.
      * intros fs2. apply wp_bind, wp_gets. simpl.
        destruct ch.
        -- apply wp_bind, wp_gets, wp_bind, wp_infra; simpl.
           ++ intros fs3. apply wp_modify. simpl.
              repeat split; auto. right. by exists r.
           ++ intros fs3 msg. apply wp_ret. simpl.
              repeat split; auto. right. by exists r.
        -- apply wp_ret. simpl. repeat split; auto. right. by exists r.
      * intros fs2 msg. apply wp_ret. simpl. repeat split; auto.
    + apply wp_raise, wp_ret. simpl. repeat split; auto.
  - intros fs1 msg. apply wp_ret. simpl. repeat split; auto.
Qed.

(** When the row is there and the two database calls of the handler go
    through, the row is written. *)
Lemma mark_failed_calm exc w r :
  reports w !! report_id = Some r ->
  calm 2 (faults w) = true ->
  reports (mark_failed report_id exc w).2
  = <[Report.id r := failed_report (str_exn exc) (now w) r]> (reports w).
Proof.
  intros Hr Hcalm. destruct w as [rs ws t fs ch pub q inv]. simpl in *.
  unfold mark_failed, try_except, bind, objects_get, bind, infra, with_object,
    Report_save, bind, zoom, timezone_now, gets, modify, infra, ret, group_send,
    bind, infra, modify; simpl.
  destruct fs as [|[m1|] [|[m2|] [|[m3|] fs]]]; simpl in *; try discriminate;
    rewrite Hr; simpl; rewrite ?before_save_id; destruct ch; simpl;
    by rewrite ?before_save_id.
Qed.

(** When the row is missing, the handler changes nothing but the fault
    schedule. *)
Lemma mark_failed_missing exc w :
  reports w !! report_id = None ->
  exists fs, (mark_failed report_id exc w).2 = set_faults fs w.
Proof.
  intros Hr. destruct w as [rs ws t fs ch pub q inv]. simpl in *.
  unfold mark_failed, try_except, bind, objects_get, bind, infra, gets, raise, ret;
    simpl.
  destruct fs as [|[m1|] fs]; simpl; rewrite ?Hr; simpl; by eexists.
Qed.
End MarkFailed.

(* ===================================================================== *)
(** * The monitor *)

Lemma infra_quiet w :
  quiet w -> infra w = (Ok tt, set_faults (drop 1 (faults w)) w).
Proof.
  unfold quiet, infra. destruct w as [rs ws t fs ch pub q inv]; simpl.
  destruct fs as [|[m|] fs]; intros H; try reflexivity.
  by inversion H.
Qed.

Lemma quiet_drop n w : quiet w -> quiet (set_faults (drop n (faults w)) w).
Proof.
  unfold quiet. destruct w as [rs ws t fs ch pub q inv]; simpl.
  apply Forall_drop.
Qed.

Lemma fail_stuck_quiet r w :
  quiet w ->
  fail_stuck r w
  = (Ok tt,
     set_reports (<[Report.id r := failed_report timeout_message (now w) r]> (reports w))
       (set_faults (drop 1 (faults w)) w)).
Proof.
  intros Hq. unfold fail_stuck, with_object, Report_save, bind, zoom, timezone_now,
    gets, modify. simpl.
  rewrite (infra_quiet w Hq). simpl.
  unfold failed_report. by rewrite before_save_id.
Qed.

Lemma for_each_fail_stuck_quiet l w :
  quiet w ->
  for_each fail_stuck l w
  = (Ok tt,
     set_reports (fail_all (now w) l (reports w))
       (set_faults (drop (length l) (faults w)) w)).
Proof.
  revert w. induction l as [|r l IH]; intros w Hq.
  - simpl. unfold ret. by destruct w.
  - simpl. unfold bind. rewrite (fail_stuck_quiet r w Hq).
    rewrite IH.
    + destruct w as [rs ws t fs ch pub q inv]; simpl.
      by rewrite drop_drop.
    + destruct w as [rs ws t fs ch pub q inv]; unfold quiet in *; simpl in *.
      by apply Forall_drop.
Qed.

Lemma for_each_delay_quiet {A} (mk : A -> task) l w :
  quiet w ->
  for_each (fun x => delay (mk x)) l w
  = (Ok tt,
     set_queue (queue w ++ (mk <$> l)) (set_faults (drop (length l) (faults w)) w)).
Proof.
  revert w. induction l as [|x l IH]; intros w Hq.
  - simpl. unfold ret. destruct w; simpl. by rewrite app_nil_r.
  - simpl. unfold bind at 1. unfold delay at 1, bind, modify.
    rewrite (infra_quiet w Hq). rewrite IH.
    + destruct w as [rs ws t fs ch pub q inv]; simpl.
      by rewrite drop_drop, <- app_assoc.
    + destruct w as [rs ws t fs ch pub q inv]; unfold quiet in *; simpl in *.
      by apply Forall_drop.
Qed.

Lemma fail_all_lookup_notin t l m k :
  (forall r, r ∈ l -> Report.id r <> k) ->
  fail_all t l m !! k = m !! k.
Proof.
  unfold fail_all. revert m. induction l as [|r l IH]; intros m Hl; [done|].
  simpl. rewrite IH.
  - apply lookup_insert_ne. apply Hl. by left.
  - intros r' Hr'. apply Hl. by right.
Qed.

Lemma fail_all_lookup_in t l m r :
  r ∈ l ->
  (forall r', r' ∈ l -> Report.id r' = Report.id r -> r' = r) ->
  fail_all t l m !! Report.id r = Some (failed_report timeout_message t r).
Proof.
  revert m. induction l as [|r0 l IH]; intros m Hin Huniq.
  - by apply elem_of_nil in Hin.
  - change (fail_all t (r0 :: l) m)
      with (fail_all t l (<[Report.id r0 := failed_report timeout_message t r0]> m)).
    destruct (decide (Report.id r ∈ Report.id <$> l)) as [Hl|Hl].
    + apply list_elem_of_fmap in Hl as (r' & Hid & Hr').
      assert (r' = r) as ->.
      { apply Huniq; [by right | done]. }
      apply IH; [done|].
      intros r' Hin'. apply Huniq. by right.
    + assert (r = r0) as ->.
      { apply elem_of_cons in Hin as [->|Hin]; [done|].
        exfalso. apply Hl. apply list_elem_of_fmap. by exists r. }
      rewrite fail_all_lookup_notin; [apply lookup_insert_eq|].
      intros r' Hr' Heq. apply Hl. apply list_elem_of_fmap. by exists r'.
Qed.

(** The rows of a query are the stored rows that match. *)
Lemma elem_of_rows (p : Report.t -> bool) (m : gmap string Report.t) r :
  r ∈ filter (fun r => p r = true) (merge_sort newest_first (snd <$> map_to_list m))
  <-> p r = true /\ exists k, m !! k = Some r.
Proof.
  rewrite list_elem_of_filter, merge_sort_Permutation, list_elem_of_fmap.
  split.
  - intros [Hp [[k r'] [-> Hin]]]. split; [done|].
    exists k. by apply elem_of_map_to_list.
  - intros [Hp [k Hk]]. split; [done|].
    exists (k, r). split; [done|]. by apply elem_of_map_to_list.
Qed.

Lemma select_quiet p w :
  quiet w ->
  select p w
  = (Ok (filter (fun r => p r = true)
           (merge_sort newest_first (snd <$> map_to_list (reports w)))),
     set_faults (drop 1 (faults w)) w).
Proof.
  intros Hq. unfold select, bind. rewrite (infra_quiet w Hq).
  unfold gets. by destruct w.
Qed.

Lemma bind_ok {S A B} (m : M S A) (k : A -> M S B) s a s' :
  m s = (Ok a, s') -> bind m k s = k a s'.
Proof. unfold bind. by intros ->. Qed.

(** Without faults, the monitor fails every stuck row and nothing else. *)
Lemma monitor_quiet w :
  quiet w ->
  let w1 := (monitor_report_processing w).2 in
  reports w1 = fail_all (now w) (stuck_rows w) (reports w)
  /\ now w1 = now w
  /\ quiet w1.
Proof.
  intros Hq. unfold monitor_report_processing, try_except.
  erewrite bind_ok; [|reflexivity].
  erewrite bind_ok; [|by apply select_quiet].
  fold (stuck_rows w).
  pose proof (quiet_drop 1 w Hq) as Hq1.
  erewrite bind_ok; [|by apply for_each_fail_stuck_quiet].
  set (w2 := set_reports _ _).
  assert (Hq2 : quiet w2).
  { unfold w2, quiet in *. destruct w; simpl in *. by apply Forall_drop. }
  erewrite bind_ok; [|reflexivity].
  erewrite bind_ok; [|by apply select_quiet].
  pose proof (quiet_drop 1 w2 Hq2) as Hq3.
  erewrite bind_ok; [|by apply for_each_delay_quiet].
  erewrite bind_ok; [|reflexivity].
  unfold ret. cbv zeta. cbn [snd fst].
  unfold w2 in *. destruct w as [rs ws t fs ch pub q inv]; simpl in *.
  repeat split. unfold quiet in *; simpl in *.
  by repeat apply Forall_drop.
Qed.

Lemma stuck_rows_stored w r :
  well_keyed w ->
  r ∈ stuck_rows w <->
  is_stuck (now w - minutes_30) r = true /\ reports w !! Report.id r = Some r.
Proof.
  intros Hwk. unfold stuck_rows. rewrite elem_of_rows. split.
  - intros [Hp [k Hk]]. split; [done|]. by rewrite (well_keyed_lookup w k r Hwk Hk).
  - intros [Hp Hk]. split; [done|]. by eexists.
Qed.

Lemma monitor_quiet_lookup w k r :
  quiet w -> well_keyed w ->
  reports w !! k = Some r ->
  reports (monitor_report_processing w).2 !! k
  = Some (if is_stuck (now w - minutes_30) r
          then failed_report timeout_message (now w) r
          else r).
Proof.
  intros Hq Hwk Hk.
  destruct (monitor_quiet w Hq) as (-> & _ & _).
  pose proof (well_keyed_lookup w k r Hwk Hk) as Hid. subst k.
  destruct (is_stuck (now w - minutes_30) r) eqn:Hs.
  - apply fail_all_lookup_in.
    + by apply stuck_rows_stored.
    + intros r' Hr' Heq. apply stuck_rows_stored in Hr' as [_ Hr']; [|done].
      rewrite Heq in Hr'. congruence.
  - rewrite fail_all_lookup_notin; [done|].
    intros r' Hr' Heq. apply stuck_rows_stored in Hr' as [Hs' Hr']; [|done].
    rewrite Heq in Hr'. congruence.
Qed.

Lemma monitor_quiet_well_keyed w :
  quiet w -> well_keyed w -> well_keyed (monitor_report_processing w).2.
Proof.
  intros Hq Hwk k r1 Hk.
  destruct (reports w !! k) as [r|] eqn:Hr.
  - rewrite (monitor_quiet_lookup w k r Hq Hwk Hr) in Hk.
    injection Hk as <-. pose proof (well_keyed_lookup w k r Hwk Hr).
    destruct (is_stuck _ r); [|done].
    by destruct (failed_report_fields timeout_message (now w) r) as (-> & _).
  - destruct (monitor_quiet w Hq) as (Hrep & _ & _). rewrite Hrep in Hk.
    rewrite fail_all_lookup_notin in Hk; [congruence|].
    intros r' Hr' Heq. apply stuck_rows_stored in Hr' as [_ Hr']; [|done].
    rewrite Heq in Hr'. congruence.
Qed.

Lemma for_each_fail_stuck_any m0 t l w :
  (forall r, r ∈ l -> m0 !! Report.id r = Some r) ->
  untouched_or_timed_out m0 t w ->
  wp (for_each fail_stuck l) (fun _ w' => untouched_or_timed_out m0 t w') w.
Proof.
  revert w. induction l as [|r l IH]; intros w Hl [Hnow Hinv].
  - simpl. apply wp_ret. by split.
  - simpl. apply wp_bind. unfold fail_stuck.
    apply wp_with_object, wp_Report_save; simpl.
    + intros fs. apply IH; [intros r' Hr'; apply Hl; by right|].
      split; [by destruct w|]. intros k r0 Hk.
      assert (Hw : reports (set_reports
                   (<[Report.id r := saved (now w)
                        (Report.set_error_messages
                           (Report.error_messages r ++ [timeout_message])
                           (Report.set_status failed r))]> (reports w))
                   (set_faults fs w))
                   = <[Report.id r := failed_report timeout_message t r]> (reports w)).
      { unfold failed_report. rewrite Hnow. by destruct w. }
      rewrite Hw. destruct (decide (Report.id r = k)) as [<-|Hne].
      * rewrite lookup_insert_eq. right.
        assert (r0 = r) as ->; [|done].
        specialize (Hl r (ltac:(by left))). congruence.
      * rewrite lookup_insert_ne by done. by apply Hinv.
    + intros fs msg. split; [by destruct w|].
      intros k r0 Hk. destruct w; simpl in *. by apply Hinv.
Qed.

Lemma for_each_delay_any {A} (mk : A -> task) l w :
  wp (for_each (fun x => delay (mk x)) l)
     (fun _ w' => reports w' = reports w /\ now w' = now w) w.
Proof.
  revert w. induction l as [|x l IH]; intros w.
  - simpl. by apply wp_ret.
  - simpl. apply wp_bind. unfold delay. apply wp_bind, wp_infra.
    + intros fs. apply wp_modify. eapply wp_mono; [|apply IH].
      intros r w' [H1 H2]. destruct w; simpl in *. by split.
    + intros fs msg. by destruct w.
Qed.

Lemma monitor_any w k r :
  well_keyed w ->
  reports w !! k = Some r ->
  reports (monitor_report_processing w).2 !! k = Some r
  \/ reports (monitor_report_processing w).2 !! k
     = Some (failed_report timeout_message (now w) r).
Proof.
  intros Hwk Hk.
  assert (Hwp : wp monitor_report_processing
                  (fun _ w' => untouched_or_timed_out (reports w) (now w) w') w).
  { assert (H0 : forall fs, untouched_or_timed_out (reports w) (now w) (set_faults fs w)).
    { intros fs. split; [by destruct w|]. intros k0 r0 Hk0. left. by destruct w. }
    unfold monitor_report_processing.
    apply wp_try, wp_bind, wp_gets, wp_bind.
    unfold select at 1. apply wp_bind, wp_infra; [|intros fs msg; apply wp_ret, H0].
    intros fs. apply wp_gets. cbv beta iota.
    apply wp_bind. eapply wp_mono; [|apply (for_each_fail_stuck_any (reports w) (now w))].
    - intros [[]|e] w2 [Hnow2 Hinv2]; cbv beta iota; [|by apply wp_ret].
      apply wp_bind, wp_gets, wp_bind.
      unfold select at 1. apply wp_bind, wp_infra.
      + intros fs2. apply wp_gets. cbv beta iota.
        apply wp_bind. eapply wp_mono; [|apply for_each_delay_any].
        intros [[]|e] w3 [Hr3 Hn3]; cbv beta iota.
        * apply wp_bind, wp_gets, wp_ret.
          split; [destruct w2; simpl in *; congruence|].
          intros k0 r0 Hk0. rewrite Hr3. destruct w2; simpl in *. by apply Hinv2.
        * apply wp_ret.
          split; [destruct w2; simpl in *; congruence|].
          intros k0 r0 Hk0. rewrite Hr3. destruct w2; simpl in *. by apply Hinv2.
      + intros fs2 msg. apply wp_ret.
        split; [by destruct w2|].
        intros k0 r0 Hk0. destruct w2; simpl in *. by apply Hinv2.
    - intros r0 Hr0.
      replace (now (set_faults fs w)) with (now w) in Hr0 by (by destruct w).
      replace (reports (set_faults fs w)) with (reports w) in Hr0 by (by destruct w).
      apply elem_of_rows in Hr0 as [_ [k0 Hk0]].
      by rewrite (well_keyed_lookup w k0 r0 Hwk Hk0).
    - apply H0. }
  destruct Hwp as [_ Hinv]. by apply Hinv.
Qed.

(* ===================================================================== *)
(** * A concrete run *)

Lemma demo_world_well_keyed r t fs : Report.id r = "r1" -> well_keyed (demo_world r t fs).
Proof.
  intros Hid k r' Hk. simpl in Hk.
  apply lookup_singleton_Some in Hk as [<- <-]. exact Hid.
Qed.

(* ===================================================================== *)
(** * A failed step: fallback and error log *)

(** C2, as the code has it. When the [try] block of the social step raises
    [e], the step still returns; [collected_data["social_data"]] is the
    fallback built from the website of the frame at the time of the failure
    (keys [domain], [error] and an empty [platforms]); the list
    [error_messages] of the report is left as it was; and the failure is
    written to the progress entry of the step (status ['failed'], progress 0,
    message ["Social media analysis failed: ..."]). *)
Theorem failed_social_step_substitutes_fallback env report_id f e f1 :
  social_try env report_id f = (Raise e, f1) ->
  let f' := (social_analysis env report_id f).2 in
  (social_analysis env report_id f).1 = Ok tt
  /\ dict_get "social_data" (collected_data f')
     = Some (JDict [ ("domain", JStr (Website.domain (website f1)));
                     ("error", JStr (str_exn e));
                     ("platforms", JDict []) ])
  /\ Report.error_messages (report f') = Report.error_messages (report f)
  /\ Report.processing_steps (report f')
     = update_step "social_analysis" "failed" 0
         ("Social media analysis failed: " +:+ str_exn e) (now (world f1))
         (Report.processing_steps (report f)).
Proof.
  intros Htry.
  destruct (failed_step env report_id Social f e f1 Htry) as (H1 & H2 & H3 & _).
  simpl in *. split; [exact H1|]. rewrite H2, H3.
  split; [apply dict_get_set_eq|].
  unfold failed_step_report. autorewrite with saved_fields. by split.
Qed.

Lemma failed_social_step_substitutes_fallback_witness :
  let f1 := (social_try demo_env "r1" demo_frame).2 in
  let f' := (social_analysis demo_env "r1" demo_frame).2 in
  social_try demo_env "r1" demo_frame = (Raise (Exception "timeout"), f1)
  /\ (social_analysis demo_env "r1" demo_frame).1 = Ok tt
  /\ dict_get "social_data" (collected_data f')
     = Some (JDict [ ("domain", JStr (Website.domain (website f1)));
                     ("error", JStr "timeout");
                     ("platforms", JDict []) ])
  /\ Report.error_messages (report f') = Report.error_messages (report demo_frame)
  /\ Report.processing_steps (report f')
     = update_step "social_analysis" "failed" 0
         ("Social media analysis failed: " +:+ "timeout") (now (world f1))
         (Report.processing_steps (report demo_frame)).
Proof.
  intros f1 f'.
  assert (H : social_try demo_env "r1" demo_frame = (Raise (Exception "timeout"), f1))
    by (vm_compute; reflexivity).
  split; [exact H|].
  exact (failed_social_step_substitutes_fallback demo_env "r1" demo_frame
           (Exception "timeout") f1 H).
Defined.

(** C2, as stated, fails: in the concrete frame the social collector raises,
    and the error list of the report gains no entry, neither in memory after
    the step nor on the stored row after the whole run. *)
Lemma failed_social_step_adds_no_error_entry :
  (social_try demo_env "r1" demo_frame).1 = Raise (Exception "timeout")
  /\ ~ (exists entry,
          Report.error_messages (report (social_analysis demo_env "r1" demo_frame).2)
          = Report.error_messages (report demo_frame) ++ [entry])
  /\ Report.error_messages
       <$> reports (generate_marketing_report demo_env "r1" 0
                      (demo_world (demo_report pending None None [] []) 5000000 [])).2
           !! "r1"
     = Some [].
Proof.
  split; [vm_compute; reflexivity|]. split.
  - intros [entry H]. vm_compute in H. discriminate H.
  - vm_compute. reflexivity.
Qed.

(* ===================================================================== *)
(** * Starting a run again *)

(** C3, as the code has it. Whatever the status of the report was, also
    ['processing'], a run that gets past its first lines has set the status
    to ['processing'] and [processing_started_at] to the current time and
    has written that row; the list [processing_steps] is then set to the
    seven pending entries, and written when the save succeeds. *)
Theorem run_restarts_clock_and_steps report_id rep w site s :
  start_processing report_id (rep, w) = (Ok site, s) ->
  let run_init := initialize_steps (mkFrame s.1 site [] s.2) in
  Report.status s.1 = processing
  /\ Report.processing_started_at s.1 = Some (now w)
  /\ reports s.2 !! Report.id rep = Some s.1
  /\ Report.processing_started_at (report run_init.2) = Some (now w)
  /\ Report.processing_steps (report run_init.2) = processing_steps
  /\ (run_init.1 = Ok tt ->
      reports (world run_init.2) !! Report.id rep = Some (report run_init.2)).
Proof.
  intros Hstart.
  pose proof (wp_run _ _ _ _ _ Hstart (start_processing_spec report_id rep w))
    as (Hs1 & Hnow & _ & _ & _ & _ & Hrep).
  specialize (Hrep site eq_refl).
  destruct s as [r1 w1]. simpl in Hs1, Hnow, Hrep. subst r1.
  destruct (started_report_fields (now w) rep) as (Sid & Sst & Sstart & _).
  pose proof (initialize_steps_spec (mkFrame (started_report (now w) rep) site [] w1))
    as Hinit.
  unfold wp in Hinit. simpl in Hinit.
  destruct Hinit as (Hr & _ & _ & _ & Hok).
  cbv zeta. simpl.
  split; [exact Sst|]. split; [exact Sstart|].
  split; [by rewrite Hrep, lookup_insert_eq|].
  rewrite Hr. autorewrite with saved_fields. simpl.
  split; [exact Sstart|]. split; [reflexivity|].
  intros Hres. rewrite (Hok Hres), before_save_id. simpl.
  rewrite lookup_insert_eq. by rewrite Hr.
Qed.

Lemma run_restarts_clock_and_steps_witness :
  let w := demo_world demo_processing 5000000 [] in
  let s := (start_processing "r1" (demo_processing, w)).2 in
  let run_init := initialize_steps (mkFrame s.1 demo_site [] s.2) in
  start_processing "r1" (demo_processing, w) = (Ok demo_site, s)
  /\ Report.status s.1 = processing
  /\ Report.processing_started_at s.1 = Some 5000000
  /\ reports s.2 !! "r1" = Some s.1
  /\ Report.processing_started_at (report run_init.2) = Some 5000000
  /\ Report.processing_steps (report run_init.2) = processing_steps
  /\ (run_init.1 = Ok tt -> reports (world run_init.2) !! "r1" = Some (report run_init.2)).
Proof.
  intros w s run_init.
  assert (H : start_processing "r1" (demo_processing, w) = (Ok demo_site, s))
    by (vm_compute; reflexivity).
  split; [exact H|].
  exact (run_restarts_clock_and_steps "r1" demo_processing w demo_site s H).
Defined.

(** C3, as stated, fails: the stored report is already ['processing'], was
    started at time 0 and has a progress entry of its own; after a run at
    time 5000000 the stored row says it was started at 5000000, and its
    progress entries are the seven of the task. *)
Lemma rerun_resets_clock_and_steps :
  let w := demo_world demo_processing 5000000 [] in
  let w' := (generate_marketing_report demo_env "r1" 0 w).2 in
  Report.status <$> reports w !! "r1" = Some processing
  /\ Report.processing_started_at <$> reports w !! "r1" = Some (Some 0)
  /\ Report.processing_started_at <$> reports w' !! "r1" = Some (Some 5000000)
  /\ (fun r => Step.step <$> Report.processing_steps r) <$> reports w !! "r1"
     = Some ["crawl"]
  /\ (fun r => Step.step <$> Report.processing_steps r) <$> reports w' !! "r1"
     = Some ["website_analysis"; "seo_analysis"; "social_analysis";
             "reputation_analysis"; "competitor_analysis"; "ai_analysis";
             "report_compilation"].
Proof. vm_compute. repeat split; reflexivity. Qed.

(* ===================================================================== *)
(** * Fallbacks and the stored report *)

Lemma step_field_failed_step_report s e t r :
  step_field s (failed_step_report s e t r) = step_field s r.
Proof.
  unfold failed_step_report. destruct s; simpl; autorewrite with saved_fields; done.
Qed.

(** C10. When the [try] block of the SEO, social, reputation or competitor
    step raises, whatever the other steps do, the fallback goes to
    [collected_data] under the key of the step, the field of the report for
    that step keeps its value, and a row written by the step, like the row
    written at the end of the run, carries that same value. When the [try]
    block of the AI step raises, the fallback trust score and the empty list
    of growth opportunities are assigned to the report as well, and the save
    that ends the run writes them to the row. *)
Theorem failed_step_fallback_stays_in_memory env report_id :
  (forall s f e f1,
     step_try env report_id s f = (Raise e, f1) ->
     let f' := (step_run env report_id s f).2 in
     dict_get (step_key s) (collected_data f') = Some (step_fallback s (website f1) e)
     /\ step_field s (report f') = step_field s (report f)
     /\ (reports (world f') = reports (world f)
         \/ exists row,
              reports (world f') = <[Report.id (report f) := row]> (reports (world f))
              /\ step_field s row = step_field s (report f))
     /\ forall res f'',
          rest_of_run env report_id s f' = (Ok res, f'') ->
          exists row,
            reports (world f'') !! Report.id (report f) = Some row
            /\ step_field s row = step_field s (report f))
  /\ (forall fa ea fa1,
        ai_try env report_id fa = (Raise ea, fa1) ->
        let fa' := (ai_analysis env report_id fa).2 in
        dict_get "trust_score" (collected_data fa') = Some (trust_fallback ea)
        /\ dict_get "growth_opportunities" (collected_data fa') = Some (JList [])
        /\ Report.trust_score (report fa') = trust_fallback ea
        /\ Report.growth_opportunities (report fa') = JList []
        /\ forall res f'',
             (report_compilation env report_id ;; complete report_id) fa' = (Ok res, f'') ->
             exists row,
               reports (world f'') !! Report.id (report fa) = Some row
               /\ Report.trust_score row = trust_fallback ea
               /\ Report.growth_opportunities row = JList []).
Proof.
  split.
  - intros s f e f1 Hstep.
    destruct (failed_step env report_id s f e f1 Hstep) as (_ & H2 & H3 & H4).
    cbv zeta. rewrite H2, H3, dict_get_set_eq, step_field_failed_step_report.
    split; [reflexivity|]. split; [reflexivity|]. split.
    + destruct H4 as [H4|H4]; [by left|]. right.
      eexists. split; [exact H4|].
      rewrite H3. apply step_field_failed_step_report.
    + intros res f'' Hrest.
      destruct (wp_run _ _ _ _ _ Hrest
                  (rest_of_run_keeps_field env report_id s _) res eq_refl)
        as (row & Hrow & Hfield).
      rewrite H3 in Hrow, Hfield.
      rewrite step_field_failed_step_report in Hfield.
      unfold failed_step_report in Hrow.
      rewrite saved_id in Hrow. simpl in Hrow.
      by exists row.
  - intros fa ea fa1 Hai.
    destruct (failed_ai env report_id fa ea fa1 Hai) as (_ & H2 & H3 & H4 & H5 & H6).
    by repeat split.
Qed.

(** The social step fails where the AI step goes through ([demo_calm_env]),
    and the AI step fails in [demo_env]. *)
Lemma failed_step_fallback_stays_in_memory_witness :
  let f1 := (step_try demo_calm_env "r1" Social demo_frame).2 in
  let f' := (step_run demo_calm_env "r1" Social demo_frame).2 in
  let fa1 := (ai_try demo_env "r1" demo_ai_frame).2 in
  let fa' := (ai_analysis demo_env "r1" demo_ai_frame).2 in
  (ai_try demo_calm_env "r1" demo_ai_frame).1 = Ok tt
  /\ step_try demo_calm_env "r1" Social demo_frame = (Raise (Exception "timeout"), f1)
  /\ dict_get "social_data" (collected_data f')
     = Some (social_fallback (website f1) (Exception "timeout"))
  /\ Report.social_data (report f') = Report.social_data (report demo_frame)
  /\ ai_try demo_env "r1" demo_ai_frame = (Raise (Exception "no model"), fa1)
  /\ Report.trust_score (report fa') = trust_fallback (Exception "no model")
  /\ Report.growth_opportunities (report fa') = JList [].
Proof.
  intros f1 f' fa1 fa'.
  assert (H : step_try demo_calm_env "r1" Social demo_frame
              = (Raise (Exception "timeout"), f1))
    by (vm_compute; reflexivity).
  assert (Ha : ai_try demo_env "r1" demo_ai_frame = (Raise (Exception "no model"), fa1))
    by (vm_compute; reflexivity).
  split; [vm_compute; reflexivity|].
  split; [exact H|].
  destruct (proj1 (failed_step_fallback_stays_in_memory demo_calm_env "r1")
              Social demo_frame (Exception "timeout") f1 H) as (H1 & H2 & _).
  split; [exact H1|]. split; [exact H2|].
  split; [exact Ha|].
  destruct (proj2 (failed_step_fallback_stays_in_memory demo_env "r1")
              demo_ai_frame (Exception "no model") fa1 Ha) as (_ & _ & H3 & H4 & _).
  split; [exact H3 | exact H4].
Defined.

(* ===================================================================== *)
(** * A report that does not exist *)

(** C5. When no row is stored under the id, no row is created, no
    collaborator is called and nothing is published: the world changes only
    in its fault schedule, and, when the lookup itself failed and the task
    asks for a retry, in the queue, which then holds the task again. When
    the lookup goes through, the task returns the error ['Report not found'],
    asks for no retry, and only the fault schedule has changed. *)
Theorem missing_report_is_not_found env report_id retries w :
  reports w !! report_id = None ->
  let out := generate_marketing_report env report_id retries w in
  (exists fs,
     out.2 = match out.1 with
             | Retry countdown _ =>
                 set_queue
                   (queue w ++ [generate_marketing_report_retry report_id (S retries) countdown])
                   (set_faults fs w)
             | _ => set_faults fs w
             end)
  /\ reports out.2 !! report_id = None
  /\ invoked out.2 = invoked w
  /\ (calm 1 (faults w) = true ->
      out.1 = Returned (result_error "Report not found" false)).
Proof.
  intros Hnone. cbv zeta.
  assert (Hbody :
    (exists fs, try_body env report_id w
                = (Ok (result_error "Report not found" false, []), set_faults fs w))
    \/ (exists fs msg, try_body env report_id w
                       = (Raise (Exception msg), set_faults fs w)
                       /\ calm 1 (faults w) = false)).
  { unfold try_body, objects_get, bind, infra, gets, raise.
    destruct w as [rs ws t fs ch pub q inv]; simpl in *.
    destruct fs as [|[msg|] fs]; simpl; rewrite ?Hnone; simpl.
    - left. by exists [].
    - right. by exists fs, msg.
    - left. by exists fs. }
  unfold generate_marketing_report.
  destruct Hbody as [[fs ->]|(fs & msg & -> & Hc)].
  - cbn [fst snd]. split; [by exists fs|].
    split; [by destruct w|]. split; [by destruct w | done].
  - destruct (mark_failed_missing report_id (Exception msg) (set_faults fs w))
      as [fs' Hfs']; [by destruct w|].
    cbv zeta. rewrite Hfs'.
    destruct (retries <? max_retries)%nat.
    + unfold self_retry, delay, bind, infra, modify.
      destruct w as [rs ws t fs0 ch pub q inv]. cbn in Hnone, Hc |- *.
      destruct fs' as [|[m|] fs'']; cbn.
      * split; [by exists []|]. split; [done|]. split; [done | congruence].
      * split; [by exists fs''|]. split; [done|]. split; [done | congruence].
      * split; [by exists fs''|]. split; [done|]. split; [done | congruence].
    + cbn [fst snd]. split; [exists fs'; by destruct w|].
      split; [by destruct w|]. split; [by destruct w | congruence].
Qed.

Lemma missing_report_is_not_found_witness :
  let w := demo_world demo_processing 5000000 [] in
  let out := generate_marketing_report demo_env "r2" 0 w in
  reports w !! "r2" = None
  /\ (exists fs, out.2 = set_faults fs w)
  /\ reports out.2 !! "r2" = None
  /\ invoked out.2 = invoked w
  /\ out.1 = Returned (result_error "Report not found" false).
Proof.
  intros w out.
  assert (H : reports w !! "r2" = None) by (vm_compute; reflexivity).
  split; [exact H|].
  destruct (missing_report_is_not_found demo_env "r2" 0 w H) as (H1 & H2 & H3 & H4).
  specialize (H4 eq_refl).
  split; [|split; [exact H2 | split; [exact H3 | exact H4]]].
  destruct H1 as [fs H1]. exists fs.
  change (generate_marketing_report demo_env "r2" 0 w) with out in H1, H4.
  rewrite H4 in H1. exact H1.
Defined.

(* ===================================================================== *)
(** * The error list *)

(** C6, as the code has it. Every run first clears [error_messages]
    ("Clear previous errors"). After that the list only grows at its end:
    the steps and the end of the run leave it as it is; the handler of a
    failed job and the monitor leave each stored row with its list unchanged
    or with one entry appended. *)
Theorem errors_cleared_at_start_then_appended env report_id w :
  well_keyed w ->
  (forall rep, Report.error_messages (start_processing report_id (rep, w)).2.1 = [])
  /\ (forall f,
        Report.error_messages
          (report ((initialize_steps ;; run_steps env report_id) f).2)
        = Report.error_messages (report f))
  /\ (forall f,
        Report.error_messages (report (complete report_id f).2)
        = Report.error_messages (report f))
  /\ (forall exc k r,
        reports w !! k = Some r ->
        exists r',
          reports (mark_failed report_id exc w).2 !! k = Some r'
          /\ (Report.error_messages r' = Report.error_messages r
              \/ Report.error_messages r' = Report.error_messages r ++ [str_exn exc]))
  /\ (forall k r,
        reports w !! k = Some r ->
        exists r',
          reports (monitor_report_processing w).2 !! k = Some r'
          /\ (Report.error_messages r' = Report.error_messages r
              \/ Report.error_messages r' = Report.error_messages r ++ [timeout_message])).
Proof.
  intros Hwk. repeat split.
  - intros rep.
    pose proof (start_processing_spec report_id rep w) as H. unfold wp in H.
    destruct H as (-> & _).
    by destruct (started_report_fields (now w) rep) as (_ & _ & _ & ->).
  - intros f.
    assert (H : wp (initialize_steps ;; run_steps env report_id)
                  (fun _ f' => Report.error_messages (report f')
                               = Report.error_messages (report f)) f).
    { apply wp_bind. eapply wp_mono; [|apply initialize_steps_spec].
      intros r1 f1 (Hr1 & _).
      assert (He : Report.error_messages (report f1) = Report.error_messages (report f)).
      { rewrite Hr1. by autorewrite with saved_fields. }
      destruct r1 as [[]|e1]; [|exact He].
      eapply wp_mono; [|apply run_steps_keeps].
      intros r2 f2 [[Hh _] _]. destruct Hh as (_ & _ & _ & _ & _ & _ & He2).
      congruence. }
    exact H.
  - intros f.
    pose proof (complete_spec report_id f) as H. unfold wp in H.
    destruct H as (-> & _).
    by destruct (completed_report_header (now (world f)) (report f)) as (_ & _ & ->).
  - intros exc k r Hk.
    pose proof (mark_failed_spec report_id exc w) as H. unfold wp in H.
    destruct H as (_ & _ & _ & _ & _ & [[-> _]|(r0 & Hr0 & ->)]).
    + exists r. by split; [|left].
    + pose proof (well_keyed_lookup w _ _ Hwk Hr0) as Hid. rewrite Hid.
      destruct (decide (report_id = k)) as [<-|Hne].
      * rewrite lookup_insert_eq. eexists. split; [reflexivity|]. right.
        assert (r0 = r) as -> by congruence.
        by destruct (failed_report_fields (str_exn exc) (now w) r) as (_ & _ & ->).
      * rewrite lookup_insert_ne by done. exists r. by split; [|left].
  - intros k r Hk.
    destruct (monitor_any w k r Hwk Hk) as [H|H]; rewrite H; eexists;
      (split; [reflexivity|]); [by left|right].
    by destruct (failed_report_fields timeout_message (now w) r) as (_ & _ & ->).
Qed.

Lemma errors_cleared_at_start_then_appended_witness :
  let w := demo_world demo_processing 5000000 [] in
  Report.error_messages (start_processing "r1" (demo_processing, w)).2.1 = []
  /\ exists r',
       reports (mark_failed "r1" (Exception "boom") w).2 !! "r1" = Some r'
       /\ (Report.error_messages r' = ["old"]
           \/ Report.error_messages r' = ["old"] ++ ["boom"]).
Proof.
  intros w.
  assert (Hwk : well_keyed w) by (apply demo_world_well_keyed; reflexivity).
  destruct (errors_cleared_at_start_then_appended demo_env "r1" w Hwk)
    as (H1 & _ & _ & H4 & _).
  split; [exact (H1 demo_processing)|].
  apply (H4 (Exception "boom") "r1" demo_processing). vm_compute. reflexivity.
Defined.

(** C6, as stated, fails: the stored report has the error ["old"]; after a
    run on it the stored list is empty. *)
Lemma run_removes_earlier_errors :
  let w := demo_world demo_processing 5000000 [] in
  let w' := (generate_marketing_report demo_env "r1" 0 w).2 in
  Report.error_messages <$> reports w !! "r1" = Some ["old"]
  /\ Report.error_messages <$> reports w' !! "r1" = Some [].
Proof. vm_compute. split; reflexivity. Qed.

(* ===================================================================== *)
(** * Timestamps of a saved report *)







(* ===================================================================== *)
(** * The stuck-job reaper *)

Lemma is_stuck_failed_report msg t threshold r :
  is_stuck threshold (failed_report msg t r) = false.
Proof.
  unfold is_stuck.
  by destruct (failed_report_fields msg t r) as (_ & -> & _).
Qed.

(** C8. In a world without faults, one run of the monitor leaves each
    stored report that is ['processing'] and was started more than thirty
    minutes ago as ['failed'] with the timeout message appended, and a second
    run, at whatever time, leaves that row as the first one wrote it; every
    other report is left as it was. *)
Theorem reaper_fails_stuck_report_once w k r t' :
  well_keyed w ->
  quiet w ->
  reports w !! k = Some r ->
  let w1 := (monitor_report_processing w).2 in
  let w2 := (monitor_report_processing (set_now t' w1)).2 in
  if is_stuck (now w - minutes_30) r
  then exists r1,
         reports w1 !! k = Some r1
         /\ Report.status r1 = failed
         /\ Report.error_messages r1 = Report.error_messages r ++ [timeout_message]
         /\ reports w2 !! k = Some r1
  else reports w1 !! k = Some r.
Proof.
  intros Hwk Hq Hk. cbv zeta.
  pose proof (monitor_quiet_lookup w k r Hq Hwk Hk) as H1.
  destruct (is_stuck (now w - minutes_30) r) eqn:Hs; [|exact H1].
  exists (failed_report timeout_message (now w) r).
  destruct (failed_report_fields timeout_message (now w) r) as (_ & Hst & Herr).
  split; [exact H1|]. split; [exact Hst|]. split; [exact Herr|].
  set (w1 := (monitor_report_processing w).2) in *.
  assert (Hq1 : quiet (set_now t' w1)).
  { destruct (monitor_quiet w Hq) as (_ & _ & Hq1).
    fold w1 in Hq1. unfold quiet in *. by destruct w1. }
  assert (Hwk1 : well_keyed (set_now t' w1)).
  { pose proof (monitor_quiet_well_keyed w Hq Hwk) as Hwk1.
    fold w1 in Hwk1. unfold well_keyed in *. by destruct w1. }
  assert (Hk1 : reports (set_now t' w1) !! k
                = Some (failed_report timeout_message (now w) r)).
  { rewrite <- H1. by destruct w1. }
  rewrite (monitor_quiet_lookup _ k _ Hq1 Hwk1 Hk1).
  by rewrite is_stuck_failed_report.
Qed.

Lemma reaper_fails_stuck_report_once_witness :
  let w1 := (monitor_report_processing demo_stuck).2 in
  let w2 := (monitor_report_processing (set_now 7200000000 w1)).2 in
  exists r1,
    reports w1 !! "r1" = Some r1
    /\ Report.status r1 = failed
    /\ Report.error_messages r1 = [] ++ [timeout_message]
    /\ reports w2 !! "r1" = Some r1.
Proof.
  intros w1 w2.
  assert (Hwk : well_keyed demo_stuck) by (apply demo_world_well_keyed; reflexivity).
  assert (Hq : quiet demo_stuck) by (vm_compute; constructor).
  assert (Hk : reports demo_stuck !! "r1"
               = Some (demo_report processing None (Some 0) [] []))
    by (vm_compute; reflexivity).
  exact (reaper_fails_stuck_report_once demo_stuck "r1" _ 7200000000 Hwk Hq Hk).
Defined.

(* ===================================================================== *)
(** * Progress *)

Lemma completed_steps_le steps : (completed_steps steps <= length steps)%nat.
Proof. unfold completed_steps. apply length_filter. Qed.

(** C9. The progress of a report lies between 0 and 100, and is 0 when the
    list of steps is empty. [fl] is the rounding of a floating-point
    operation: it is monotone and leaves 0, 1 and 100 as they are. *)
Theorem progress_percentage_bounds (fl : Q -> Q) r :
  (forall x y, (x <= y)%Q -> (fl x <= fl y)%Q) ->
  (fl 0 == 0)%Q -> (fl 1 == 1)%Q -> (fl 100 == 100)%Q ->
  (0 <= progress_percentage fl r)%Q
  /\ (progress_percentage fl r <= 100)%Q
  /\ (Report.processing_steps r = [] -> progress_percentage fl r = 0%Q).
Proof.
  intros Hmono H0 H1 H100. unfold progress_percentage.
  destruct (Report.processing_steps r) as [|s steps] eqn:Hsteps.
  - repeat split; done.
  - set (l := s :: steps).
    assert (Hlen : (0 < length l)%nat) by (simpl; lia).
    destruct (Nat.eqb_spec (length l) 0) as [Hz|_]; [lia|].
    pose proof (completed_steps_le l) as Hle.
    set (c := inject_Z (Z.of_nat (completed_steps l))).
    set (n := inject_Z (Z.of_nat (length l))).
    assert (Hn : (0 < n)%Q).
    { unfold n. change 0%Q with (inject_Z 0). rewrite <- Zlt_Qlt. lia. }
    assert (Hc0 : (0 <= c)%Q).
    { unfold c. change 0%Q with (inject_Z 0). rewrite <- Zle_Qle. lia. }
    assert (Hcn : (c <= n)%Q).
    { unfold c, n. rewrite <- Zle_Qle. lia. }
    assert (Hlo : (0 <= c / n)%Q).
    { apply Qle_shift_div_l; [exact Hn|]. by rewrite Qmult_0_l. }
    assert (Hhi : (c / n <= 1)%Q).
    { apply Qle_shift_div_r; [exact Hn|]. by rewrite Qmult_1_l. }
    assert (E0 : (0 <= fl 0)%Q) by (rewrite H0; apply Qle_refl).
    assert (E1 : (fl 1 <= 1)%Q) by (rewrite H1; apply Qle_refl).
    assert (E100 : (fl 100 <= 100)%Q) by (rewrite H100; apply Qle_refl).
    assert (Hf0 : (0 <= fl (c / n))%Q).
    { eapply Qle_trans; [exact E0|]. by apply Hmono. }
    assert (Hf1 : (fl (c / n) <= 1)%Q).
    { eapply Qle_trans; [|exact E1]. by apply Hmono. }
    split; [|split; [|discriminate]].
    + eapply Qle_trans; [exact E0|]. apply Hmono.
      apply Qmult_le_0_compat; [exact Hf0 | discriminate].
    + eapply Qle_trans; [|exact E100]. apply Hmono.
      apply Qle_trans with (1 * 100)%Q; [|apply Qle_refl].
      apply Qmult_le_compat_r; [exact Hf1 | discriminate].
Qed.

Lemma progress_percentage_bounds_witness :
  let r := demo_report processing None (Some 0)
             [demo_step; initial_step "seo_analysis" "Collecting"] [] in
  (0 <= progress_percentage (fun x => x) r)%Q
  /\ (progress_percentage (fun x => x) r <= 100)%Q
  /\ (Report.processing_steps r = [] -> progress_percentage (fun x => x) r = 0%Q).
Proof.
  intros r.
  apply (progress_percentage_bounds (fun x => x) r).
  - intros x y H. exact H.
  - reflexivity.
  - reflexivity.
  - reflexivity.
Defined.

(* ===================================================================== *)
(** * A run that completes *)

Lemma completed_run_covers_all_outputs_witness :
  let w := demo_world demo_processing 5000000 [] in
  let out := try_body demo_env "r1" w in
  exists res d,
    out = (Ok (res, d), out.2)
    /\ generate_marketing_report demo_env "r1" 0 w = (Returned res, out.2)
    /\ (exists rep', reports out.2 !! "r1" = Some rep' /\ Report.status rep' = completed)
    /\ Forall (fun k => is_Some (dict_get k d)) output_keys.
Proof.
  intros w out.
  destruct out as [[[res d]|e] w'] eqn:Hout; [|vm_compute in Hout; discriminate Hout].
  exists res, d. split; [reflexivity|].
  apply (completed_run_covers_all_outputs demo_env "r1" 0 w demo_processing res d w').
  - vm_compute. reflexivity.
  - reflexivity.
  - exact Hout.
Defined.

(* ===================================================================== *)
(** * The footprint of a run *)

(** * Keys of a dictionary *)

Lemma dict_keys_set k v d : dict_keys (dict_set k v d) = add_key k (dict_keys d).
Proof.
  unfold add_key, dict_keys. induction d as [|[k' v'] d IH]; [done|].
  simpl. destruct (String.eqb k k') eqn:E; simpl; [done|].
  rewrite IH. by destruct (existsb _ _).
Qed.

Lemma add_key_idem k ks : add_key k (add_key k ks) = add_key k ks.
Proof.
  unfold add_key at 2 3. destruct (existsb (String.eqb k) ks) eqn:E.
  - unfold add_key. by rewrite E.
  - unfold add_key. rewrite existsb_app. simpl. rewrite String.eqb_refl.
    by rewrite orb_true_r.
Qed.

(** * Calls that leave the process, with the faults they consume *)

Lemma suffix_quiet (fs fs' : list (option string)) :
  suffix fs' fs -> Forall (fun x => x = None) fs -> Forall (fun x => x = None) fs'.
Proof. intros [k ->] H. by apply Forall_app in H as [_ H]. Qed.

Lemma grows_refl {A} (P : A -> Prop) a : grows P a a.
Proof. exists []. by rewrite app_nil_r. Qed.

Lemma grows_trans {A} (P : A -> Prop) a b c : grows P a b -> grows P b c -> grows P a c.
Proof.
  intros (l1 & -> & H1) (l2 & -> & H2). exists (l1 ++ l2).
  split; [by rewrite app_assoc | by apply Forall_app].
Qed.

Lemma grows_snoc {A} (P : A -> Prop) a b x : P x -> grows P a b -> grows P a (b ++ [x]).
Proof.
  intros Hx H. eapply grows_trans; [exact H|]. exists [x]. split; [done|].
  by apply Forall_singleton.
Qed.

Lemma wp_infra_used (Q : res unit -> World -> Prop) w :
  (forall fs, suffix fs (faults w) -> Q (Ok tt) (set_faults fs w)) ->
  (forall fs msg, faults w = Some msg :: fs -> Q (Raise (Exception msg)) (set_faults fs w)) ->
  wp infra Q w.
Proof.
  intros Hok Herr. unfold wp, infra.
  destruct w as [rs ws t fs ch pub q inv]; simpl in *.
  destruct fs as [|[msg|] fs]; simpl.
  - by apply (Hok []).
  - by apply (Herr fs msg).
  - apply (Hok fs). by apply suffix_cons_r.
Qed.

Lemma wp_send_progress_used report_id step st pr msg err (Q : res unit -> World -> Prop) w :
  (forall fs pub,
     suffix fs (faults w) ->
     grows (sent_to report_id) (published w) pub ->
     (channel_layer w = false -> pub = published w) ->
     Q (Ok tt) (set_published pub (set_faults fs w))) ->
  wp (send_progress report_id step st pr msg err) Q w.
Proof.
  intros H. unfold send_progress.
  assert (Hid : forall fs, suffix fs (faults w) -> Q (Ok tt) (set_faults fs w)).
  { intros fs Hfs.
    specialize (H fs (published w) Hfs (grows_refl _ _) (fun _ => eq_refl)).
    by destruct w. }
  apply wp_try, wp_bind, wp_gets. destruct (channel_layer w) eqn:Hc.
  - apply wp_bind, wp_gets. unfold group_send. apply wp_bind, wp_infra_used.
    + intros fs Hfs. apply wp_modify. simpl. apply H; [done| |done].
      apply grows_snoc; [by left | apply grows_refl].
    + intros fs m Hfs. apply wp_ret. apply Hid. rewrite Hfs. by apply suffix_cons_r.
  - apply wp_ret. specialize (Hid (faults w) (reflexivity _)). by destruct w.
Qed.

Lemma wp_send_status_update_used report_id st msg (Q : res unit -> World -> Prop) w :
  (forall fs pub,
     suffix fs (faults w) ->
     grows (sent_to report_id) (published w) pub ->
     (channel_layer w = false -> pub = published w) ->
     Q (Ok tt) (set_published pub (set_faults fs w))) ->
  wp (send_status_update report_id st msg) Q w.
Proof.
  intros H. unfold send_status_update.
  assert (Hid : forall fs, suffix fs (faults w) -> Q (Ok tt) (set_faults fs w)).
  { intros fs Hfs.
    specialize (H fs (published w) Hfs (grows_refl _ _) (fun _ => eq_refl)).
    by destruct w. }
  apply wp_try, wp_bind, wp_gets. destruct (channel_layer w) eqn:Hc.
  - apply wp_bind, wp_gets. unfold group_send. apply wp_bind, wp_infra_used.
    + intros fs Hfs. apply wp_modify. simpl. apply H; [done| |done].
      apply grows_snoc; [by left | apply grows_refl].
    + intros fs m Hfs. apply wp_ret. apply Hid. rewrite Hfs. by apply suffix_cons_r.
  - apply wp_ret. specialize (Hid (faults w) (reflexivity _)). by destruct w.
Qed.

Lemma wp_Report_save_used (Q : res unit -> Report.t * World -> Prop) r w :
  (forall fs, suffix fs (faults w) ->
     Q (Ok tt) (saved (now w) r,
                set_reports (<[Report.id r := saved (now w) r]> (reports w))
                  (set_faults fs w))) ->
  (forall fs msg, faults w = Some msg :: fs ->
     Q (Raise (Exception msg)) (saved (now w) r, set_faults fs w)) ->
  wp Report_save Q (r, w).
Proof.
  intros Hok Herr. unfold Report_save.
  apply wp_bind, wp_zoom, wp_gets. simpl.
  apply wp_bind, wp_modify. simpl.
  apply wp_bind, wp_zoom, wp_infra_used; simpl.
  - intros fs Hfs. apply wp_modify. simpl. rewrite before_save_id. by apply Hok.
  - intros fs msg Hfs. by apply Herr.
Qed.

Lemma wp_update_processing_step_used name st pr msg (Q : res unit -> Frame -> Prop) f :
  let r' := saved (now (world f))
              (Report.set_processing_steps
                 (update_step name st pr msg (now (world f))
                    (Report.processing_steps (report f))) (report f)) in
  (forall fs, suffix fs (faults (world f)) ->
     Q (Ok tt) (set_world
                  (set_reports (<[Report.id (report f) := r']> (reports (world f)))
                     (set_faults fs (world f)))
                  (set_report r' f))) ->
  (forall fs msg, faults (world f) = Some msg :: fs ->
     Q (Ok tt) (set_world (set_faults fs (world f)) (set_report r' f))) ->
  wp (update_processing_step name st pr msg) Q f.
Proof.
  intros r' Hok Herr. unfold update_processing_step.
  apply wp_try, wp_bind. unfold on_world. apply wp_zoom, wp_gets. simpl.
  apply wp_bind. unfold assign. apply wp_modify. simpl.
  unfold on_report. apply wp_zoom. simpl. apply wp_Report_save_used.
  - intros fs Hfs. simpl. by apply Hok.
  - intros fs m Hfs. apply wp_ret. simpl. by apply (Herr fs m).
Qed.

Lemma wp_on_send_progress_used report_id step st pr msg err (Q : res unit -> Frame -> Prop) f :
  (forall fs pub,
     suffix fs (faults (world f)) ->
     grows (sent_to report_id) (published (world f)) pub ->
     (channel_layer (world f) = false -> pub = published (world f)) ->
     Q (Ok tt) (set_world (set_published pub (set_faults fs (world f))) f)) ->
  wp (on_world (send_progress report_id step st pr msg err)) Q f.
Proof.
  intros H. unfold on_world. apply wp_zoom, wp_send_progress_used. exact H.
Qed.

Lemma wp_on_Report_save_used (Q : res unit -> Frame -> Prop) f :
  let r' := saved (now (world f)) (report f) in
  (forall fs, suffix fs (faults (world f)) ->
     Q (Ok tt) (set_world
                  (set_reports (<[Report.id (report f) := r']> (reports (world f)))
                     (set_faults fs (world f)))
                  (set_report r' f))) ->
  (forall fs msg, faults (world f) = Some msg :: fs ->
     Q (Raise (Exception msg)) (set_world (set_faults fs (world f)) (set_report r' f))) ->
  wp (on_report Report_save) Q f.
Proof.
  intros r' Hok Herr. unfold on_report. apply wp_zoom. simpl.
  apply wp_Report_save_used; simpl; [apply Hok | apply Herr].
Qed.

Lemma wp_on_group_send_used group ev (Q : res unit -> Frame -> Prop) f :
  (forall fs, suffix fs (faults (world f)) ->
     Q (Ok tt) (set_world (set_published (published (world f) ++ [(group, ev)])
                             (set_faults fs (world f))) f)) ->
  (forall fs msg, faults (world f) = Some msg :: fs ->
     Q (Raise (Exception msg)) (set_world (set_faults fs (world f)) f)) ->
  wp (on_world (group_send group ev)) Q f.
Proof.
  intros Hok Herr. unfold on_world, group_send.
  apply wp_zoom, wp_bind, wp_infra_used.
  - intros fs Hfs. apply wp_modify. simpl. by apply Hok.
  - intros fs msg Hfs. by apply Herr.
Qed.

Lemma wp_on_delay_used t (Q : res unit -> Frame -> Prop) f :
  (forall fs, suffix fs (faults (world f)) ->
     Q (Ok tt) (set_world (set_queue (queue (world f) ++ [t])
                             (set_faults fs (world f))) f)) ->
  (forall fs msg, faults (world f) = Some msg :: fs ->
     Q (Raise (Exception msg)) (set_world (set_faults fs (world f)) f)) ->
  wp (on_world (delay t)) Q f.
Proof.
  intros Hok Herr. unfold on_world, delay.
  apply wp_zoom, wp_bind, wp_infra_used.
  - intros fs Hfs. apply wp_modify. simpl. by apply Hok.
  - intros fs msg Hfs. by apply Herr.
Qed.

Lemma wp_on_Website_save_used env (Q : res unit -> Frame -> Prop) f :
  (forall site' ws fs,
     suffix fs (faults (world f)) ->
     Q (Ok tt) (set_world (set_websites ws (set_faults fs (world f)))
                  (set_website site' f))) ->
  (forall site' fs msg,
     faults (world f) = Some msg :: fs ->
     Q (Raise (Exception msg)) (set_world (set_faults fs (world f)) (set_website site' f))) ->
  wp (on_website (Website_save env)) Q f.
Proof.
  intros Hok Herr. unfold on_website, Website_save.
  apply wp_zoom. simpl.
  apply wp_bind, wp_modify. simpl.
  apply wp_bind, wp_zoom, wp_gets. simpl.
  apply wp_bind, wp_modify. simpl.
  apply wp_bind, wp_zoom, wp_infra_used; simpl.
  - intros fs Hfs. apply wp_modify. simpl. by apply Hok.
  - intros fs msg Hfs. by apply Herr.
Qed.

Ltac wpu_step :=
  lazymatch goal with
  | |- wp (bind _ _) _ _ => apply wp_bind
  | |- wp (try_except _ _) _ _ => apply wp_try
  | |- wp (ret _) _ _ => apply wp_ret
  | |- wp (raise _) _ _ => apply wp_raise
  | |- wp (gets _) _ _ => apply wp_gets
  | |- wp (modify _) _ _ => apply wp_modify
  | |- wp (on_world (send_progress _ _ _ _ _ _)) _ _ =>
      apply wp_on_send_progress_used; intros ? ? ? ? ?
  | |- wp (on_world (invoke _ _)) _ _ =>
      apply wp_on_invoke; [intros ? ? | intros ? ?]
  | |- wp (on_world timezone_now) _ _ => apply wp_on_now
  | |- wp (on_report Report_save) _ _ =>
      apply wp_on_Report_save_used; [intros ? ? | intros ? ? ?]
  | |- wp (on_world (group_send _ _)) _ _ =>
      apply wp_on_group_send_used; [intros ? ? | intros ? ? ?]
  | |- wp (on_world (delay _)) _ _ =>
      apply wp_on_delay_used; [intros ? ? | intros ? ? ?]
  | |- wp (update_processing_step _ _ _ _) _ _ =>
      apply wp_update_processing_step_used; [intros ? ? | intros ? ? ?]
  | |- wp (on_website (Website_save _)) _ _ =>
      apply wp_on_Website_save_used; [intros ? ? ? ? | intros ? ? ? ?]
  | |- wp (assign _) _ _ => unfold assign
  | |- wp (cd_set _ _) _ _ => unfold cd_set
  | |- wp (cd_item _) _ _ => unfold cd_item
  | |- wp (get_method _ _ _) _ _ => unfold get_method
  | |- wp (contains _ _) _ _ => unfold contains
  | |- wp (item _ _) _ _ => unfold item
  | |- wp (keys_method _) _ _ => unfold keys_method
  | |- wp (match ?x with _ => _ end) _ _ => destruct x eqn:?
  | |- wp (if ?b then _ else _) _ _ => destruct b eqn:?
  end;
  cbv beta iota; norm_state.

Ltac wpu_go := repeat wpu_step.

Ltac norm_all :=
  cbn [world report website collected_data
       set_world set_report set_website set_collected_data
       reports websites now faults channel_layer published queue invoked
       set_reports set_websites set_now set_faults set_published set_queue
       set_invoked fst snd] in *.

(** Closing the parts of a footprint at the end of a path. *)
Ltac suffix_chain :=
  repeat match goal with
         | H : ?a = Some _ :: ?b |- _ =>
             assert (suffix b a) by (rewrite H; apply suffix_cons_r; reflexivity);
             clear H
         end;
  repeat match goal with
         | |- suffix ?a ?a => reflexivity
         | H : suffix ?a ?b |- suffix ?a ?c => transitivity b; [exact H|]; clear H
         end.

Ltac report_id_simpl :=
  repeat (cbn [Report.id Report.set_status Report.set_executive_summary
               Report.set_seo_data Report.set_social_data Report.set_reputation_data
               Report.set_competitor_data Report.set_trust_score
               Report.set_growth_opportunities Report.set_technical_analysis
               Report.set_updated_at Report.set_completed_at
               Report.set_processing_started_at Report.set_processing_steps
               Report.set_error_messages Report.set_processing_time_seconds];
          rewrite ?saved_id).

Ltac rows_done Hid :=
  intros ? ?; report_id_simpl; rewrite ?Hid;
  rewrite ?lookup_insert_ne by congruence; reflexivity.

Ltac own_done Hid :=
  intros ?; report_id_simpl; rewrite ?Hid; rewrite ?lookup_insert_eq;
  let H := fresh in
  intros H;
  first [ right; exact H
        | left; apply (inj Some) in H; rewrite <- H; report_id_simpl; exact Hid ].

Ltac grows_chain :=
  repeat first
    [ apply grows_refl
    | apply grows_snoc; [first [left; reflexivity | right; reflexivity | exact I]|]
    | match goal with
      | H : grows _ ?a ?b |- grows _ ?c ?b =>
          apply (grows_trans _ c a b); [|exact H]; clear H
      end ].

Ltac silent_done :=
  let Hc := fresh "Hc" in
  intros Hc; try discriminate;
  repeat match goal with
         | H : _ = false -> _ |- _ => specialize (H Hc)
         end;
  subst; reflexivity.

Ltac calls_done :=
  eexists; split;
  [ rewrite <- ?app_assoc; first [reflexivity | symmetry; apply app_nil_r]
  | cbn [app];
    solve [repeat first [apply sublist_nil | apply sublist_skip | apply sublist_cons]] ].

Ltac footprint_done Hid :=
  unfold footprint; norm_all;
  refine (conj _ (conj _ (conj _ (conj _ (conj _ _)))));
  [ suffix_chain | rows_done Hid | own_done Hid | reflexivity | grows_chain | silent_done ].

Ltac report_steps_simpl :=
  repeat (cbn [Report.processing_steps Report.set_status Report.set_executive_summary
               Report.set_seo_data Report.set_social_data Report.set_reputation_data
               Report.set_competitor_data Report.set_trust_score
               Report.set_growth_opportunities Report.set_technical_analysis
               Report.set_updated_at Report.set_completed_at
               Report.set_processing_started_at Report.set_processing_steps
               Report.set_error_messages Report.set_processing_time_seconds];
          rewrite ?saved_processing_steps).

Ltac settled_done :=
  unfold step_settled; norm_all; report_steps_simpl;
  do 4 eexists; split; [reflexivity | first [left; reflexivity | right; reflexivity]].

Ltac keys_done :=
  norm_all; cbn [foldl]; rewrite ?dict_keys_set, ?add_key_idem; reflexivity.

Ltac ran_done Hid :=
  unfold stage_ran;
  refine (conj _ (conj _ (conj _ (conj _ _))));
  [ footprint_done Hid
  | unfold calls; norm_all; calls_done
  | reflexivity
  | keys_done
  | settled_done ].

Ltac stage_done Hid := split; [reflexivity | ran_done Hid].

(** A key that was just set is there. *)
Ltac key_absurd :=
  exfalso;
  match goal with
  | H : dict_get _ (dict_set _ _ _) = None |- _ =>
      rewrite ?dict_get_set_eq in H;
      repeat (rewrite dict_get_set_ne in H by discriminate;
              rewrite ?dict_get_set_eq in H);
      discriminate H
  end.

(** * The steps never raise *)

Lemma website_analysis_ran env report_id key f :
  Report.id (report f) = key ->
  wp (website_analysis env report_id)
     (fun r f' =>
        r = Ok tt
        /\ stage_ran key report_id "website_analysis" ["analyze_website"] ["website_data"] f f')
     f.
Proof.
  intros Hid. unfold website_analysis, website_try, website_except.
  open_frame f. norm_all. wpu_go. all: stage_done Hid.
Qed.

Lemma seo_analysis_ran env report_id key f :
  Report.id (report f) = key ->
  wp (seo_analysis env report_id)
     (fun r f' =>
        r = Ok tt
        /\ stage_ran key report_id "seo_analysis" ["collect_seo_data"] ["seo_data"] f f')
     f.
Proof.
  intros Hid. unfold seo_analysis, seo_try, seo_except.
  open_frame f. norm_all. wpu_go. all: stage_done Hid.
Qed.

Lemma social_analysis_ran env report_id key f :
  Report.id (report f) = key ->
  wp (social_analysis env report_id)
     (fun r f' =>
        r = Ok tt
        /\ stage_ran key report_id "social_analysis" ["collect_social_data"] ["social_data"] f f')
     f.
Proof.
  intros Hid. unfold social_analysis, social_try, social_except.
  open_frame f. norm_all. wpu_go. all: stage_done Hid.
Qed.

Lemma reputation_analysis_ran env report_id key f :
  Report.id (report f) = key ->
  wp (reputation_analysis env report_id)
     (fun r f' =>
        r = Ok tt
        /\ stage_ran key report_id "reputation_analysis" ["collect_reputation_data"]
             ["reputation_data"] f f')
     f.
Proof.
  intros Hid. unfold reputation_analysis, reputation_try, reputation_except.
  open_frame f. norm_all. wpu_go. all: stage_done Hid.
Qed.

Lemma competitor_analysis_ran env report_id key f :
  Report.id (report f) = key ->
  wp (competitor_analysis env report_id)
     (fun r f' =>
        r = Ok tt
        /\ stage_ran key report_id "competitor_analysis" ["collect_competitor_data"]
             ["competitor_data"] f f')
     f.
Proof.
  intros Hid.
  unfold competitor_analysis, competitor_try, competitor_except, competitor_keywords.
  open_frame f. norm_all. wpu_go. all: stage_done Hid.
Qed.

Lemma ai_analysis_ran env report_id key f :
  Report.id (report f) = key ->
  wp (ai_analysis env report_id)
     (fun r f' =>
        r = Ok tt
        /\ stage_ran key report_id "ai_analysis"
             ["calculate_trust_score"; "generate_recommendations"]
             ["trust_score"; "growth_opportunities"] f f'
        /\ trust_is_dict (collected_data f'))
     f.
Proof.
  intros Hid. unfold ai_analysis, ai_try, ai_except.
  open_frame f. norm_all. wpu_go.
  all: try key_absurd.
  all: refine (conj eq_refl (conj _ _)); [ran_done Hid|].
  all: unfold trust_is_dict, trust_fallback; norm_all; eexists.
  all: rewrite ?dict_get_set_eq;
       repeat (rewrite dict_get_set_ne by discriminate; rewrite ?dict_get_set_eq).
  all: reflexivity.
Qed.

Lemma report_compilation_ran env report_id key f :
  Report.id (report f) = key ->
  trust_is_dict (collected_data f) ->
  wp (report_compilation env report_id)
     (fun r f' =>
        r = Ok tt
        /\ stage_ran key report_id "report_compilation" ["generate_summary"] [] f f'
        /\ collected_data f' = collected_data f)
     f.
Proof.
  intros Hid [t Ht]. unfold report_compilation, compilation_try, compilation_except.
  open_frame f. norm_all. wpu_go.
  all: try (exfalso;
            match goal with
            | H : default _ (dict_get "trust_score" _) = _ |- _ =>
                rewrite Ht in H; discriminate H
            end).
  all: refine (conj eq_refl (conj _ eq_refl)); ran_done Hid.
Qed.

Lemma wp_and {S A} (m : M S A) (Q1 Q2 : res A -> S -> Prop) s :
  wp m Q1 s -> wp m Q2 s -> wp m (fun r s' => Q1 r s' /\ Q2 r s') s.
Proof. unfold wp. by split. Qed.

Lemma footprint_refl key rid w : footprint key rid w w.
Proof.
  unfold footprint. split; [reflexivity|]. split; [done|].
  split; [intros r H; by right|]. split; [done|].
  split; [apply grows_refl | done].
Qed.

Lemma footprint_trans key rid w1 w2 w3 :
  footprint key rid w1 w2 -> footprint key rid w2 w3 -> footprint key rid w1 w3.
Proof.
  intros (F1 & R1 & O1 & C1 & G1 & S1) (F2 & R2 & O2 & C2 & G2 & S2).
  unfold footprint. split; [by transitivity (faults w2)|].
  split; [intros k Hk; by rewrite R2, R1|].
  split. { intros r Hr. destruct (O2 r Hr) as [?|H]; [by left | by apply O1]. }
  split; [congruence|].
  split; [by eapply grows_trans|].
  intros Hc. rewrite S2, S1; congruence.
Qed.

Lemma calls_refl w : calls [] w w.
Proof. exists []. split; [by rewrite app_nil_r | constructor]. Qed.

Lemma calls_app n1 n2 w1 w2 w3 :
  calls n1 w1 w2 -> calls n2 w2 w3 -> calls (n1 ++ n2) w1 w3.
Proof.
  intros (l1 & E1 & S1) (l2 & E2 & S2). exists (l1 ++ l2).
  split; [by rewrite E2, E1, app_assoc | by apply sublist_app].
Qed.

Lemma calls_none names w w' : invoked w' = invoked w -> calls names w w'.
Proof. intros E. exists []. split; [by rewrite app_nil_r | apply sublist_nil_l]. Qed.

Lemma pipeline_ran_nil key rid f : pipeline_ran key rid [] [] [] f f.
Proof.
  unfold pipeline_ran. split; [apply footprint_refl|].
  split; [apply calls_refl|]. by repeat split.
Qed.

Lemma pipeline_ran_cons key rid n ns c cs k ks f1 f2 f3 :
  stage_ran key rid n c k f1 f2 ->
  pipeline_ran key rid ns cs ks f2 f3 ->
  pipeline_ran key rid (n :: ns) (c ++ cs) (k ++ ks) f1 f3.
Proof.
  intros (F1 & C1 & Q1 & K1 & S1) (F2 & C2 & Q2 & K2 & S2).
  unfold pipeline_ran. split; [by eapply footprint_trans|].
  split; [by eapply calls_app|].
  split; [congruence|].
  split; [by rewrite foldl_app, <- K1|].
  simpl. eauto.
Qed.

(** The steps keep the id of the report object. *)
Lemma step_keeps_id f f' : step_keeps f f' -> Report.id (report f') = Report.id (report f).
Proof. by intros [(H & _) _]. Qed.

(** One step of [run_steps]: it returns, and the next step starts from its
    frame. *)
Ltac stage R K Hid :=
  apply wp_bind;
  eapply wp_mono; [|apply wp_and; [apply R; exact Hid | apply K]];
  let f := fresh "f" in
  let H := fresh "R" in
  let Hk := fresh "K" in
  intros ? f [[-> H] [Hk _]]; cbv beta iota;
  apply step_keeps_id in Hk; rewrite <- Hk in Hid.

Lemma run_steps_ran env report_id key f :
  Report.id (report f) = key ->
  wp (run_steps env report_id)
     (fun r f' =>
        r = Ok tt
        /\ pipeline_ran key report_id step_names collaborators output_keys f f'
        /\ trust_is_dict (collected_data f'))
     f.
Proof.
  intros Hid. unfold run_steps.
  stage website_analysis_ran website_analysis_keeps Hid.
  stage seo_analysis_ran seo_analysis_keeps Hid.
  stage social_analysis_ran social_analysis_keeps Hid.
  stage reputation_analysis_ran reputation_analysis_keeps Hid.
  stage competitor_analysis_ran competitor_analysis_keeps Hid.
  apply wp_bind.
  eapply wp_mono; [|apply wp_and; [apply ai_analysis_ran; exact Hid | apply ai_analysis_keeps]].
  intros ? f6 [(-> & R6 & T6) [K6 _]]; cbv beta iota.
  apply step_keeps_id in K6. rewrite <- K6 in Hid.
  eapply wp_mono; [|apply report_compilation_ran; [exact Hid | exact T6]].
  intros ? f7 (-> & R7 & E7); cbv beta iota.
  split; [reflexivity|]. split; [|by rewrite E7].
  eapply (pipeline_ran_cons _ _ _ _ _ _ _ _ _ _ _ R).
  eapply (pipeline_ran_cons _ _ _ _ _ _ _ _ _ _ _ R0).
  eapply (pipeline_ran_cons _ _ _ _ _ _ _ _ _ _ _ R1).
  eapply (pipeline_ran_cons _ _ _ _ _ _ _ _ _ _ _ R2).
  eapply (pipeline_ran_cons _ _ _ _ _ _ _ _ _ _ _ R3).
  eapply (pipeline_ran_cons _ _ _ _ _ _ _ _ _ _ _ R6).
  eapply (pipeline_ran_cons _ _ _ _ _ _ _ _ _ _ _ R7).
  apply pipeline_ran_nil.
Qed.

(** A fault on a path contradicts a quiet world. *)
Ltac quiet_absurd Hq :=
  exfalso; unfold quiet in Hq; norm_all;
  match type of Hq with
  | Forall _ ?F =>
      match goal with
      | H : ?a = Some _ :: _ |- _ =>
          let Hs := fresh in
          assert (Hs : suffix a F) by (clear H; suffix_chain);
          apply (suffix_quiet _ _ Hs) in Hq; rewrite H in Hq;
          apply Forall_cons_1 in Hq; destruct Hq as [Hq _]; discriminate Hq
      end
  end.

(** The footprint of a path that wrote no row. *)
Ltac footprint_kept :=
  unfold footprint; norm_all;
  refine (conj _ (conj _ (conj _ (conj _ (conj _ _)))));
  [ suffix_chain | intros ? ?; reflexivity | intros ? ?; right; assumption
  | reflexivity | grows_chain | silent_done ].

Ltac report_simpl :=
  repeat (cbn [Report.id Report.requester_email Report.processing_started_at
               Report.website_id
               Report.set_status Report.set_executive_summary
               Report.set_seo_data Report.set_social_data Report.set_reputation_data
               Report.set_competitor_data Report.set_trust_score
               Report.set_growth_opportunities Report.set_technical_analysis
               Report.set_updated_at Report.set_completed_at
               Report.set_processing_started_at Report.set_processing_steps
               Report.set_error_messages Report.set_processing_time_seconds] in *;
          rewrite ?saved_id, ?saved_requester_email, ?saved_processing_started_at,
            ?saved_website_id in * ).

Lemma complete_used report_id key f :
  Report.id (report f) = key ->
  wp (complete report_id)
     (fun r f' =>
        footprint key report_id (world f) (world f')
        /\ invoked (world f') = invoked (world f)
        /\ match r with
           | Ok _ => queue (world f') = queue (world f) ++ notification (report f)
           | Raise e =>
               e <> DoesNotExist
               /\ (trust_is_dict (collected_data f) ->
                   queue (world f') = queue (world f) /\ ~ quiet (world f))
           end)
     f.
Proof.
  intros Hid. unfold complete. open_frame f. norm_all. wpu_go.
  all: refine (conj _ (conj _ _)); [footprint_done Hid | reflexivity | norm_all].
  all: try (split; [discriminate|]; intros [t Ht];
            first [ match goal with
                    | H : default _ (dict_get "trust_score" _) = _ |- _ =>
                        rewrite Ht in H; discriminate H
                    end
                  | split; [reflexivity | intros Hq; quiet_absurd Hq] ]).
  all: report_simpl; unfold notification;
       destruct (String.eqb (Report.requester_email _) ""); simpl in *;
       try discriminate; rewrite ?app_nil_r; reflexivity.
Qed.

Lemma initialize_steps_used report_id key f :
  Report.id (report f) = key ->
  wp initialize_steps
     (fun r f' =>
        footprint key report_id (world f) (world f')
        /\ invoked (world f') = invoked (world f)
        /\ queue (world f') = queue (world f)
        /\ (forall e, r = Raise e -> e <> DoesNotExist /\ ~ quiet (world f)))
     f.
Proof.
  intros Hid. unfold initialize_steps. open_frame f. norm_all. wpu_go.
  all: refine (conj _ (conj _ (conj _ _)));
    [footprint_done Hid | reflexivity | reflexivity | intros e He].
  all: try discriminate He.
  all: injection He as <-; split; [discriminate | intros Hq; quiet_absurd Hq].
Qed.

Lemma objects_get_used report_id w :
  wp (objects_get report_id)
     (fun r w1 =>
        (exists fs, suffix fs (faults w) /\ w1 = set_faults fs w)
        /\ match r with
           | Ok rep => reports w !! report_id = Some rep
           | Raise DoesNotExist => reports w !! report_id = None
           | Raise (Exception _) => ~ quiet w
           end) w.
Proof.
  unfold objects_get. apply wp_bind, wp_infra_used.
  - intros fs Hfs. apply wp_bind, wp_gets. simpl.
    destruct (reports w !! report_id) eqn:E; [apply wp_ret | apply wp_raise];
      (split; [by exists fs | done]).
  - intros fs msg Hfs. split.
    + exists fs. split; [|done]. rewrite Hfs. by apply suffix_cons_r.
    + unfold quiet. rewrite Hfs. intros Hq. apply Forall_cons_1 in Hq as [Hq _].
      discriminate Hq.
Qed.

Lemma start_processing_used report_id key r w :
  Report.id r = key ->
  wp (start_processing report_id)
     (fun res s =>
        footprint key report_id w s.2
        /\ match res with
           | Ok site => websites w !! Report.website_id r = Some site
           | Raise e =>
               e <> DoesNotExist
               /\ (quiet w -> websites w !! Report.website_id r = None)
           end)
     (r, w).
Proof.
  intros Hid. unfold start_processing.
  destruct w as [rs ws t fs ch pub q inv].
  apply wp_bind, wp_modify. simpl.
  apply wp_bind, wp_zoom, wp_gets. simpl.
  apply wp_bind, wp_modify. simpl.
  apply wp_bind, wp_modify. simpl.
  apply wp_bind, wp_Report_save_used; simpl.
  - intros fs1 Hfs1.
    apply wp_bind, wp_zoom, wp_send_status_update_used. simpl.
    intros fs2 pub2 Hfs2 Hg Hc.
    apply wp_bind, wp_zoom, wp_infra_used; simpl.
    + intros fs3 Hfs3. apply wp_bind, wp_gets. simpl.
      rewrite ?saved_website_id, ?before_save_website_id. simpl.
      destruct (ws !! _) eqn:Hsite; [apply wp_ret | apply wp_raise]; simpl.
      all: split; [footprint_done Hid | done].
    + intros fs3 msg Hfs3.
      split; [footprint_done Hid | split; [discriminate | intros Hq; quiet_absurd Hq]].
  - intros fs1 msg Hfs1.
    split; [footprint_done Hid | split; [discriminate | intros Hq; quiet_absurd Hq]].
Qed.

Lemma mark_failed_used report_id key exc w :
  (forall r, reports w !! report_id = Some r -> Report.id r = key) ->
  wp (mark_failed report_id exc)
     (fun res w' =>
        res = Ok tt
        /\ footprint key report_id w w'
        /\ invoked w' = invoked w
        /\ queue w' = queue w)
     w.
Proof.
  intros Hkey. unfold mark_failed, objects_get, group_send.
  destruct w as [rs ws t fs ch pub q inv]. simpl in Hkey.
  apply wp_try, wp_bind, wp_bind, wp_infra_used.
  - intros fs1 Hfs1. apply wp_bind, wp_gets. simpl.
    destruct (rs !! report_id) as [r|] eqn:Hr.
    + pose proof (Hkey r eq_refl) as Hid.
      apply wp_ret, wp_bind, wp_with_object, wp_Report_save_used; simpl.
      * intros fs2 Hfs2. apply wp_bind, wp_gets. simpl.
        destruct ch eqn:Hch.
        -- apply wp_bind, wp_gets, wp_bind, wp_infra_used; simpl.
           ++ intros fs3 Hfs3. apply wp_modify. simpl.
              refine (conj eq_refl (conj _ (conj eq_refl eq_refl))). footprint_done Hid.
           ++ intros fs3 msg Hfs3. apply wp_ret. simpl.
              refine (conj eq_refl (conj _ (conj eq_refl eq_refl))). footprint_done Hid.
        -- apply wp_ret. simpl.
           refine (conj eq_refl (conj _ (conj eq_refl eq_refl))). footprint_done Hid.
      * intros fs2 msg Hfs2. apply wp_ret. simpl.
        refine (conj eq_refl (conj _ (conj eq_refl eq_refl))). footprint_done Hid.
    + apply wp_raise, wp_ret. simpl.
      refine (conj eq_refl (conj _ (conj eq_refl eq_refl))).
      footprint_kept.
  - intros fs1 msg Hfs1. apply wp_ret. simpl.
    refine (conj eq_refl (conj _ (conj eq_refl eq_refl))).
    footprint_kept.
Qed.

Lemma steps_settled_all l : steps_settled step_names processing_steps l -> all_settled l.
Proof.
  unfold step_names, processing_steps, initial_step. cbn [fmap list_fmap Step.step].
  cbn [steps_settled]. unfold step_settled.
  intros (m1 & (s1 & p1 & g1 & t1 & -> & H1)
          & m2 & (s2 & p2 & g2 & t2 & -> & H2)
          & m3 & (s3 & p3 & g3 & t3 & -> & H3)
          & m4 & (s4 & p4 & g4 & t4 & -> & H4)
          & m5 & (s5 & p5 & g5 & t5 & -> & H5)
          & m6 & (s6 & p6 & g6 & t6 & -> & H6)
          & m7 & (s7 & p7 & g7 & t7 & -> & H7) & ->).
  split; [reflexivity|].
  cbn. repeat (apply List.Forall_cons; [assumption|]). apply List.Forall_nil.
Qed.

Lemma quiet_footprint key rid w w' : footprint key rid w w' -> quiet w -> quiet w'.
Proof. intros (F & _) Hq. by eapply suffix_quiet. Qed.

Lemma footprint_keyed key rid w w' :
  footprint key rid w w' ->
  (forall r, reports w !! rid = Some r -> Report.id r = key) ->
  forall r, reports w' !! rid = Some r -> Report.id r = key.
Proof.
  intros (_ & Rows & Own & _) Hkey r Hr.
  destruct (decide (rid = key)) as [->|Hne].
  - destruct (Own r Hr) as [?|H]; [done | by apply Hkey].
  - apply Hkey. by rewrite <- Rows.
Qed.

Lemma footprint_set_faults key rid fs w :
  suffix fs (faults w) -> footprint key rid w (set_faults fs w).
Proof.
  intros H. destruct w. unfold footprint. simpl in *.
  split; [done|]. split; [done|]. split; [by right|]. split; [done|].
  split; [apply grows_refl | done].
Qed.

Lemma completed_report_steps t r :
  Report.processing_steps (completed_report t r) = Report.processing_steps r.
Proof.
  unfold completed_report. rewrite saved_processing_steps.
  by destruct (Report.processing_started_at r).
Qed.

Lemma notification_same r r' :
  Report.id r' = Report.id r ->
  Report.requester_email r' = Report.requester_email r ->
  notification r' = notification r.
Proof. unfold notification. by intros -> ->. Qed.

Lemma output_keys_added : foldl (fun ks k => add_key k ks) [] output_keys = output_keys.
Proof. reflexivity. Qed.

(** Lines 108-423, from the frame built when the report is loaded. *)
Lemma pipeline_used env report_id key f0 :
  Report.id (report f0) = key ->
  wp (initialize_steps ;; run_steps env report_id ;; complete report_id)
     (fun r f' =>
        footprint key report_id (world f0) (world f')
        /\ calls collaborators (world f0) (world f')
        /\ match r with
           | Ok res =>
               dict_keys (collected_data f')
               = foldl (fun ks k => add_key k ks) (dict_keys (collected_data f0)) output_keys
               /\ queue (world f') = queue (world f0) ++ notification (report f0)
               /\ all_settled (Report.processing_steps (report f'))
               /\ reports (world f') !! key = Some (report f')
               /\ exists pt ts,
                    res = result_completed key pt (length (collected_data f')) ts
           | Raise e =>
               e <> DoesNotExist
               /\ queue (world f') = queue (world f0) /\ ~ quiet (world f0)
           end)
     f0.
Proof.
  intros Hid.
  apply wp_bind. eapply wp_mono;
    [|apply wp_and; [apply (initialize_steps_used report_id key); exact Hid
                    | apply initialize_steps_spec]].
  intros r1 f1 [(F1 & I1 & Q1 & E1) (Hr1 & Hcd1 & _ & _ & Hok1)].
  destruct r1 as [[]|e]; cbv beta iota.
  2: { split; [exact F1|]. split; [by apply calls_none|].
       destruct (E1 e eq_refl). by repeat split. }
  assert (Hid1 : Report.id (report f1) = key) by (rewrite Hr1, saved_id; exact Hid).
  apply wp_bind. eapply wp_mono;
    [|apply wp_and; [apply (run_steps_ran env report_id key); exact Hid1
                    | apply run_steps_keeps]].
  intros r2 f2 [(-> & (F2 & C2 & Q2 & K2 & S2) & T2) [[Hh _] _]]; cbv beta iota.
  destruct Hh as (Hid2 & _ & _ & Hmail2 & _).
  eapply wp_mono;
    [|apply wp_and; [apply (complete_used report_id key); congruence
                    | apply complete_spec]].
  intros r3 f3 [(F3 & I3 & Hq3) (Hr3 & Hcd3 & Hok3)]. cbv beta.
  split; [eapply footprint_trans; [|exact F3]; by eapply footprint_trans|].
  split.
  { destruct C2 as (l & E & Sl). exists l. split; [|done]. by rewrite I3, E, I1. }
  destruct r3 as [res|e].
  - destruct (Hok3 res eq_refl) as [Hrows (overall & ->)].
    destruct (completed_report_header (now (world f2)) (report f2)) as (Cid & _ & _).
    split; [by rewrite Hcd3, K2, Hcd1|].
    split.
    { rewrite Hq3, Q2, Q1. f_equal. apply notification_same.
      - rewrite Hid2, Hr1, saved_id. reflexivity.
      - rewrite Hmail2, Hr1, saved_requester_email. reflexivity. }
    split.
    { apply steps_settled_all. rewrite Hr3, completed_report_steps.
      rewrite Hr1, saved_processing_steps in S2. exact S2. }
    split.
    { rewrite Hrows. rewrite Hid2, Hid1. apply lookup_insert_eq. }
    exists (Report.processing_time_seconds (report f3)), overall.
    rewrite Hr3, Cid, Hid2, Hid1, <- Hr3, Hcd3. reflexivity.
  - destruct Hq3 as [He Hq3]. destruct (Hq3 T2) as [Hq Hn].
    split; [exact He|]. split; [congruence|].
    intros Hquiet. apply Hn.
    eapply quiet_footprint; [exact F2|]. by eapply quiet_footprint.
Qed.

Lemma length_dict_keys (d : dict) : length (dict_keys d) = length d.
Proof. unfold dict_keys. apply length_map. Qed.

(** The body of the task, whatever happens in it. *)
Lemma try_body_trace env report_id key w r w' :
  (forall rep, reports w !! report_id = Some rep -> Report.id rep = key) ->
  try_body env report_id w = (r, w') ->
  footprint key report_id w w'
  /\ calls collaborators w w'
  /\ match r with
     | Ok (res, d) =>
         match reports w !! report_id with
         | None =>
             res = result_error "Report not found" false /\ d = []
             /\ queue w' = queue w
         | Some rep =>
             dict_keys d = output_keys
             /\ queue w' = queue w ++ notification rep
             /\ (exists rep', reports w' !! key = Some rep'
                              /\ all_settled (Report.processing_steps rep'))
             /\ exists pt ts, res = result_completed key pt 7 ts
         end
     | Raise e =>
         e <> DoesNotExist
         /\ queue w' = queue w
         /\ (quiet w ->
             exists rep, reports w !! report_id = Some rep
                         /\ websites w !! Report.website_id rep = None)
     end.
Proof.
  intros Hkey Hrun. unfold try_body in Hrun.
  destruct (objects_get report_id w) as [[rep|e0] w1] eqn:Hget.
  - pose proof (wp_run _ _ _ _ _ Hget (objects_get_used report_id w))
      as [(fs & Hfs & ->) Hrep].
    pose proof (Hkey rep Hrep) as Hid.
    pose proof (footprint_set_faults key report_id fs w Hfs) as F0.
    destruct (start_processing report_id (rep, set_faults fs w))
      as [[site|e1] s] eqn:Hstart.
    + pose proof (wp_run _ _ _ _ _ Hstart
                    (start_processing_used report_id key rep _ Hid)) as [F1 Hsite].
      pose proof (wp_run _ _ _ _ _ Hstart (start_processing_spec report_id rep _))
        as (Hs1 & _ & I1 & Q1 & _).
      assert (Hid1 : Report.id s.1 = key)
        by (by rewrite Hs1, (proj1 (started_report_fields _ _))).
      destruct ((initialize_steps ;; run_steps env report_id ;; complete report_id)
                  (mkFrame s.1 site [] s.2)) as [[r2|e2] f] eqn:Hpipe.
      * pose proof (wp_run _ _ _ _ _ Hpipe
          (pipeline_used env report_id key (mkFrame s.1 site [] s.2) Hid1))
          as (F2 & C2 & K2 & Q2 & S2 & R2 & pt & ts & ->).
        injection Hrun as <- <-. simpl in *.
        split; [eapply footprint_trans; [exact F0|]; by eapply footprint_trans|].
        split.
        { destruct C2 as (l & E & Sl). exists l. split; [|done].
          rewrite E, I1. by destruct w. }
        rewrite Hrep.
        split; [exact K2|].
        split.
        { rewrite Q2, Q1. destruct w; simpl. f_equal. apply notification_same.
          - by rewrite Hs1, (proj1 (started_report_fields _ _)).
          - rewrite Hs1. unfold started_report. by rewrite saved_requester_email. }
        split; [by exists (report f)|].
        exists pt, ts. by rewrite <- length_dict_keys, K2.
      * pose proof (wp_run _ _ _ _ _ Hpipe
          (pipeline_used env report_id key (mkFrame s.1 site [] s.2) Hid1))
          as (F2 & C2 & He2 & Q2 & N2).
        injection Hrun as <- <-. simpl in *.
        split; [eapply footprint_trans; [exact F0|]; by eapply footprint_trans|].
        split.
        { destruct C2 as (l & E & Sl). exists l. split; [|done].
          rewrite E, I1. by destruct w. }
        split; [exact He2|]. split; [rewrite Q2, Q1; by destruct w|].
        intros Hq. destruct N2. eapply quiet_footprint; [exact F1|].
        by eapply quiet_footprint.
    + pose proof (wp_run _ _ _ _ _ Hstart
                    (start_processing_used report_id key rep _ Hid)) as [F1 [He1 Hsite]].
      pose proof (wp_run _ _ _ _ _ Hstart (start_processing_spec report_id rep _))
        as (Hs1 & _ & I1 & Q1 & _).
      injection Hrun as <- <-. simpl in *.
      split; [by eapply footprint_trans|].
      split; [apply calls_none; rewrite I1; by destruct w|].
      split; [exact He1|]. split; [rewrite Q1; by destruct w|].
      intros Hq. exists rep. split; [done|]. apply Hsite.
      by eapply quiet_footprint.
  - pose proof (wp_run _ _ _ _ _ Hget (objects_get_used report_id w))
      as [(fs & Hfs & ->) Hrep].
    pose proof (footprint_set_faults key report_id fs w Hfs) as F0.
    destruct e0 as [|msg].
    + injection Hrun as <- <-. rewrite Hrep.
      split; [exact F0|]. split; [apply calls_none; by destruct w|].
      split; [done|]. split; [done | by destruct w].
    + injection Hrun as <- <-.
      split; [exact F0|]. split; [apply calls_none; by destruct w|].
      split; [discriminate|]. split; [by destruct w|]. intros Hq. by destruct Hrep.
Qed.

Lemma object_id_keyed report_id w rep :
  reports w !! report_id = Some rep -> Report.id rep = object_id report_id w.
Proof. unfold object_id. by intros ->. Qed.

(** A change of the fault schedule and of the queue only. *)
Lemma footprint_queue key rid w w' :
  suffix (faults w') (faults w) ->
  reports w' = reports w ->
  channel_layer w' = channel_layer w ->
  published w' = published w ->
  footprint key rid w w'.
Proof.
  intros Hf Hr Hc Hp. unfold footprint. rewrite Hr, Hc, Hp.
  split; [done|]. split; [done|]. split; [by right|]. split; [done|].
  split; [apply grows_refl | done].
Qed.

(** [self.retry]: one call to the broker; the task is queued again and
    [Retry] raised, or the broker fails and [Reject] is raised. *)
Lemma self_retry_used report_id retries c exc w out w' :
  self_retry report_id retries c exc w = (out, w') ->
  suffix (faults w') (faults w)
  /\ reports w' = reports w /\ websites w' = websites w /\ now w' = now w
  /\ channel_layer w' = channel_layer w /\ published w' = published w
  /\ invoked w' = invoked w
  /\ match out with
     | Retry c' e =>
         c' = c /\ e = str_exn exc /\ calm 1 (faults w) = true
         /\ queue w' = queue w ++ [generate_marketing_report_retry report_id (S retries) c]
     | Reject _ => calm 1 (faults w) = false /\ queue w' = queue w
     | Returned _ => False
     end.
Proof.
  unfold self_retry, delay, bind, infra, modify.
  destruct w as [rs ws t fs ch pub q inv]. cbn.
  destruct fs as [|[m|] fs]; cbn; intros H; injection H as <- <-; cbn.
  - by repeat split.
  - repeat split; try done. by apply suffix_cons_r.
  - repeat split; try done. by apply suffix_cons_r.
Qed.

(** One execution of the task, whatever happens in it. *)
Lemma task_trace env report_id key retries w out w' :
  (forall rep, reports w !! report_id = Some rep -> Report.id rep = key) ->
  generate_marketing_report env report_id retries w = (out, w') ->
  footprint key report_id w w'
  /\ calls collaborators w w'
  /\ match out with
     | Returned (result_completed k pt n ts) =>
         exists rep, reports w !! report_id = Some rep
                     /\ k = key /\ n = 7%nat
                     /\ queue w' = queue w ++ notification rep
     | Returned (result_error _ _) => queue w' = queue w
     | Retry c _ =>
         (retries < max_retries)%nat
         /\ queue w' = queue w ++ [retry_message report_id retries]
     | Reject _ => (retries < max_retries)%nat /\ queue w' = queue w
     end.
Proof.
  intros Hkey Hrun. unfold generate_marketing_report in Hrun.
  destruct (try_body env report_id w) as [[[res d]|e] w1] eqn:Hbody.
  - destruct (try_body_trace env report_id key w _ _ Hkey Hbody) as (F & C & H).
    injection Hrun as <- <-. split; [exact F|]. split; [exact C|].
    destruct (reports w !! report_id) as [rep|].
    + destruct H as (_ & Q & _ & pt & ts & ->). by exists rep.
    + by destruct H as (-> & _ & Q).
  - destruct (try_body_trace env report_id key w _ _ Hkey Hbody) as (F & C & He & Q & _).
    destruct e as [|msg]; [done|].
    pose proof (mark_failed_used report_id key (Exception msg) w1
                  (footprint_keyed key report_id w w1 F Hkey)) as Hm.
    unfold wp in Hm. destruct Hm as (_ & Fm & Im & Qm).
    assert (Hw : footprint key report_id w (mark_failed report_id (Exception msg) w1).2
                 /\ calls collaborators w (mark_failed report_id (Exception msg) w1).2
                 /\ queue (mark_failed report_id (Exception msg) w1).2 = queue w).
    { split; [by eapply footprint_trans|]. split; [|congruence].
      destruct C as (l & E & Sl). exists l. split; [congruence | done]. }
    cbv zeta in Hrun.
    destruct (retries <? max_retries)%nat eqn:Hlt.
    + apply Nat.ltb_lt in Hlt.
      destruct Hw as (Fw & Cw & Qw).
      destruct (self_retry_used _ _ _ _ _ _ _ Hrun)
        as (Hf & Hr & _ & _ & Hc & Hp & Hi & Hout).
      split; [eapply footprint_trans; [exact Fw|]; by apply footprint_queue|].
      split.
      { destruct Cw as (l & E & Sl). exists l. split; [congruence | done]. }
      destruct out as [r|c e|reason]; [done| |].
      * destruct Hout as (-> & _ & _ & ->). unfold retry_message. by rewrite Qw.
      * destruct Hout as (_ & ->). by rewrite Qw.
    + injection Hrun as <- <-. exact Hw.
Qed.

(* ===================================================================== *)
(** * The error list along a run *)

Lemma cleared_refl key w : cleared key w w.
Proof. intros r H. by right. Qed.

Lemma cleared_trans key w1 w2 w3 :
  cleared key w1 w2 -> cleared key w2 w3 -> cleared key w1 w3.
Proof.
  intros H1 H2 r Hr. destruct (H2 r Hr) as [?|H]; [by left | by apply H1].
Qed.

Ltac errors_simpl :=
  repeat (cbn [Report.error_messages Report.set_status Report.set_executive_summary
               Report.set_seo_data Report.set_social_data Report.set_reputation_data
               Report.set_competitor_data Report.set_trust_score
               Report.set_growth_opportunities Report.set_technical_analysis
               Report.set_updated_at Report.set_completed_at
               Report.set_processing_started_at Report.set_processing_steps
               Report.set_error_messages Report.set_processing_time_seconds];
          rewrite ?saved_error_messages).

(** Closing [errors_cleared] at the end of a path. *)
Ltac cleared_done Hid Herr :=
  unfold errors_cleared, cleared; norm_all;
  refine (conj _ (conj _ _));
  [ intros ?; report_id_simpl; rewrite ?Hid; rewrite ?lookup_insert_eq;
    let H := fresh in
    intros H;
    first [ right; exact H
          | left; apply (inj Some) in H; rewrite <- H; errors_simpl; exact Herr ]
  | report_id_simpl; exact Hid
  | errors_simpl; exact Herr ].

Section ErrorsAlongRun.
Context (env : Env) (report_id key : string).

Lemma wp_bind_cleared {A B} (m : M Frame A) (k : A -> M Frame B) f :
  wp m (fun _ f' => errors_cleared key f f') f ->
  (forall a f',
     Report.id (report f') = key ->
     Report.error_messages (report f') = [] ->
     wp (k a) (fun _ f'' => errors_cleared key f' f'') f') ->
  wp (bind m k) (fun _ f'' => errors_cleared key f f'') f.
Proof.
  intros Hm Hk. apply wp_bind. eapply wp_mono; [|exact Hm].
  intros [a|e] f1 (C & Hid & Herr); cbv beta iota; [|done].
  eapply wp_mono; [|by apply Hk].
  intros r f2 (C2 & ? & ?). split; [by eapply cleared_trans | done].
Qed.

Lemma website_analysis_cleared f :
  Report.id (report f) = key ->
  Report.error_messages (report f) = [] ->
  wp (website_analysis env report_id) (fun _ f' => errors_cleared key f f') f.
Proof.
  intros Hid Herr. unfold website_analysis, website_try, website_except.
  open_frame f. norm_all. wpu_go. all: cleared_done Hid Herr.
Qed.

Lemma seo_analysis_cleared f :
  Report.id (report f) = key ->
  Report.error_messages (report f) = [] ->
  wp (seo_analysis env report_id) (fun _ f' => errors_cleared key f f') f.
Proof.
  intros Hid Herr. unfold seo_analysis, seo_try, seo_except.
  open_frame f. norm_all. wpu_go. all: cleared_done Hid Herr.
Qed.

Lemma social_analysis_cleared f :
  Report.id (report f) = key ->
  Report.error_messages (report f) = [] ->
  wp (social_analysis env report_id) (fun _ f' => errors_cleared key f f') f.
Proof.
  intros Hid Herr. unfold social_analysis, social_try, social_except.
  open_frame f. norm_all. wpu_go. all: cleared_done Hid Herr.
Qed.

Lemma reputation_analysis_cleared f :
  Report.id (report f) = key ->
  Report.error_messages (report f) = [] ->
  wp (reputation_analysis env report_id) (fun _ f' => errors_cleared key f f') f.
Proof.
  intros Hid Herr. unfold reputation_analysis, reputation_try, reputation_except.
  open_frame f. norm_all. wpu_go. all: cleared_done Hid Herr.
Qed.

Lemma competitor_analysis_cleared f :
  Report.id (report f) = key ->
  Report.error_messages (report f) = [] ->
  wp (competitor_analysis env report_id) (fun _ f' => errors_cleared key f f') f.
Proof.
  intros Hid Herr.
  unfold competitor_analysis, competitor_try, competitor_except, competitor_keywords.
  open_frame f. norm_all. wpu_go. all: cleared_done Hid Herr.
Qed.

Lemma ai_analysis_cleared f :
  Report.id (report f) = key ->
  Report.error_messages (report f) = [] ->
  wp (ai_analysis env report_id) (fun _ f' => errors_cleared key f f') f.
Proof.
  intros Hid Herr. unfold ai_analysis, ai_try, ai_except.
  open_frame f. norm_all. wpu_go. all: cleared_done Hid Herr.
Qed.

Lemma report_compilation_cleared f :
  Report.id (report f) = key ->
  Report.error_messages (report f) = [] ->
  wp (report_compilation env report_id) (fun _ f' => errors_cleared key f f') f.
Proof.
  intros Hid Herr. unfold report_compilation, compilation_try, compilation_except.
  open_frame f. norm_all. wpu_go. all: cleared_done Hid Herr.
Qed.

Lemma initialize_steps_cleared f :
  Report.id (report f) = key ->
  Report.error_messages (report f) = [] ->
  wp initialize_steps (fun _ f' => errors_cleared key f f') f.
Proof.
  intros Hid Herr. unfold initialize_steps.
  open_frame f. norm_all. wpu_go. all: cleared_done Hid Herr.
Qed.

Lemma complete_cleared f :
  Report.id (report f) = key ->
  Report.error_messages (report f) = [] ->
  wp (complete report_id) (fun _ f' => errors_cleared key f f') f.
Proof.
  intros Hid Herr. unfold complete.
  open_frame f. norm_all. wpu_go. all: cleared_done Hid Herr.
Qed.

Lemma pipeline_cleared f :
  Report.id (report f) = key ->
  Report.error_messages (report f) = [] ->
  wp (initialize_steps ;; run_steps env report_id ;; complete report_id)
     (fun _ f' => errors_cleared key f f') f.
Proof.
  intros Hid Herr. unfold run_steps.
  apply wp_bind_cleared; [by apply initialize_steps_cleared|]. intros _ f1 Hid1 Herr1.
  apply wp_bind_cleared; [|intros _ f8 Hid8 Herr8; by apply complete_cleared].
  apply wp_bind_cleared; [by apply website_analysis_cleared|]. intros _ f2 Hid2 Herr2.
  apply wp_bind_cleared; [by apply seo_analysis_cleared|]. intros _ f3 Hid3 Herr3.
  apply wp_bind_cleared; [by apply social_analysis_cleared|]. intros _ f4 Hid4 Herr4.
  apply wp_bind_cleared; [by apply reputation_analysis_cleared|]. intros _ f5 Hid5 Herr5.
  apply wp_bind_cleared; [by apply competitor_analysis_cleared|]. intros _ f6 Hid6 Herr6.
  apply wp_bind_cleared; [by apply ai_analysis_cleared|]. intros _ f7 Hid7 Herr7.
  by apply report_compilation_cleared.
Qed.
End ErrorsAlongRun.

(** Whatever the body of the task does and however it ends, the row stored
    under the id is the one that was there, or a row without error
    messages. *)
Lemma try_body_cleared env report_id w r w' :
  try_body env report_id w = (r, w') -> cleared report_id w w'.
Proof.
  intros Hrun.
  destruct (decide (object_id report_id w = report_id)) as [Hobj|Hobj].
  2: { destruct (try_body_trace env report_id (object_id report_id w) w r w'
                   (object_id_keyed report_id w) Hrun) as ((_ & Rows & _) & _).
       intros r1 Hr1. right. rewrite <- Rows; [done | congruence]. }
  unfold try_body in Hrun.
  destruct (objects_get report_id w) as [[rep|e0] w1] eqn:Hget.
  - pose proof (wp_run _ _ _ _ _ Hget (objects_get_spec report_id w)) as [[fs ->] Hrep].
    assert (Hid : Report.id rep = report_id).
    { unfold object_id in Hobj. by rewrite Hrep in Hobj. }
    assert (Hw : reports (set_faults fs w) = reports w) by (by destruct w).
    destruct (start_processing report_id (rep, set_faults fs w)) as [[site|e1] s] eqn:Hstart.
    + pose proof (wp_run _ _ _ _ _ Hstart (start_processing_spec report_id rep _))
        as (Hs1 & _ & _ & _ & _ & _ & Hrows).
      specialize (Hrows site eq_refl).
      destruct (started_report_fields (now (set_faults fs w)) rep) as (Sid & _ & _ & Serr).
      assert (C1 : cleared report_id w s.2).
      { intros r1 Hr1. left. rewrite Hrows, Hid, lookup_insert_eq in Hr1.
        injection Hr1 as <-. exact Serr. }
      pose proof (pipeline_cleared env report_id report_id (mkFrame s.1 site [] s.2)
                    ltac:(simpl; congruence) ltac:(simpl; congruence)) as Hp.
      unfold wp in Hp.
      destruct ((initialize_steps ;; run_steps env report_id ;; complete report_id)
                  (mkFrame s.1 site [] s.2)) as [[r2|e2] f];
        injection Hrun as <- <-; destruct Hp as (C2 & _);
        exact (cleared_trans _ _ _ _ C1 C2).
    + pose proof (wp_run _ _ _ _ _ Hstart (start_processing_spec report_id rep _))
        as (_ & _ & _ & _ & _ & Hrows & _).
      destruct (started_report_fields (now (set_faults fs w)) rep) as (_ & _ & _ & Serr).
      injection Hrun as <- <-. intros r1 Hr1. simpl in Hr1.
      destruct Hrows as [Hrows|Hrows]; rewrite Hrows in Hr1.
      * right. by rewrite <- Hw.
      * left. rewrite Hid, lookup_insert_eq in Hr1. injection Hr1 as <-. exact Serr.
  - pose proof (wp_run _ _ _ _ _ Hget (objects_get_spec report_id w)) as [[fs ->] _].
    assert (Hw : reports (set_faults fs w) = reports w) by (by destruct w).
    destruct e0; injection Hrun as <- <-; intros r1 Hr1; right; by rewrite <- Hw.
Qed.

(* ===================================================================== *)
(** * Failure of the job and retries *)

(** C4, as the code has it. When the body of the task raises an exception,
    the handler first tries to mark the record: the row stored under the id
    is loaded, set to ['failed'] with the message of the exception appended
    to its errors, and saved; when one of these database calls fails the
    rows are left as the body left them, so the record may still be
    ['pending'] or ['processing']. Then, while fewer than [max_retries = 3]
    retries were made, the task is handed to the broker again with a
    countdown of [60 * 2 ^ retries] (60, 120 and 240 before the first, second
    and third extra attempt) and [Retry] is raised, or [Reject] when the
    broker fails; at three retries the task returns an error marked
    [retries_exhausted] and hands nothing to the broker. Errors of earlier
    attempts are not kept: when the body has written the row before it
    raised, the handler finds a row without error messages. *)
Theorem job_failure_retries_with_backoff env report_id retries w exc w1 :
  try_body env report_id w = (Raise (Exception exc), w1) ->
  let out := generate_marketing_report env report_id retries w in
  let handled := (mark_failed report_id (Exception exc) w1).2 in
  (if (retries <? 3)%nat
   then if calm 1 (faults handled)
        then out.1 = Retry (60 * 2 ^ Z.of_nat retries) exc
             /\ queue out.2
                = queue w ++ [generate_marketing_report_retry report_id (S retries)
                                (60 * 2 ^ Z.of_nat retries)]
        else (exists reason, out.1 = Reject reason) /\ queue out.2 = queue w
   else out.1 = Returned (result_error
                            ("Report generation failed for " +:+ report_id
                             +:+ ": " +:+ exc) true)
        /\ queue out.2 = queue w)
  /\ (reports out.2 = reports w1
      \/ exists r,
           reports w1 !! report_id = Some r
           /\ reports out.2 = <[Report.id r := failed_report exc (now w1) r]> (reports w1))
  /\ (forall r,
        reports w1 !! report_id = Some r ->
        Report.id r = report_id ->
        calm 2 (faults w1) = true ->
        exists r',
          reports out.2 !! report_id = Some r'
          /\ Report.status r' = failed
          /\ Report.error_messages r' = Report.error_messages r ++ [exc])
  /\ (forall r,
        reports w1 !! report_id = Some r ->
        Report.error_messages r = [] \/ reports w !! report_id = Some r).
Proof.
  intros Hrun. cbv zeta.
  destruct (try_body_trace env report_id (object_id report_id w) w _ _
              (object_id_keyed report_id w) Hrun) as (_ & _ & _ & Q1 & _).
  pose proof (mark_failed_spec report_id (Exception exc) w1) as Hm. unfold wp in Hm.
  destruct Hm as (_ & _ & _ & Q2 & _ & Hrows).
  assert (Hrows' : reports (mark_failed report_id (Exception exc) w1).2 = reports w1
                   \/ exists r,
                        reports w1 !! report_id = Some r
                        /\ reports (mark_failed report_id (Exception exc) w1).2
                           = <[Report.id r := failed_report exc (now w1) r]> (reports w1)).
  { destruct Hrows as [[H _]|H]; [by left | by right]. }
  clear Hrows.
  assert (Hout : exists o w2,
            generate_marketing_report env report_id retries w = (o, w2)
            /\ reports w2 = reports (mark_failed report_id (Exception exc) w1).2
            /\ if (retries <? 3)%nat
               then if calm 1 (faults (mark_failed report_id (Exception exc) w1).2)
                    then o = Retry (60 * 2 ^ Z.of_nat retries) exc
                         /\ queue w2
                            = queue w ++ [generate_marketing_report_retry report_id
                                            (S retries) (60 * 2 ^ Z.of_nat retries)]
                    else (exists reason, o = Reject reason) /\ queue w2 = queue w
               else o = Returned (result_error
                                    ("Report generation failed for " +:+ report_id
                                     +:+ ": " +:+ exc) true)
                    /\ queue w2 = queue w).
  { unfold generate_marketing_report. rewrite Hrun. cbv zeta. unfold max_retries.
    destruct (retries <? 3)%nat.
    - destruct (self_retry report_id retries (60 * 2 ^ Z.of_nat retries) (Exception exc)
                  (mark_failed report_id (Exception exc) w1).2) as [o w2] eqn:Hretry.
      exists o, w2. split; [reflexivity|].
      destruct (self_retry_used _ _ _ _ _ _ _ Hretry)
        as (_ & Hr & _ & _ & _ & _ & _ & Ho).
      split; [exact Hr|].
      destruct o as [r|c e|reason]; [done| |].
      + destruct Ho as (-> & -> & -> & ->). split; [reflexivity | congruence].
      + destruct Ho as (-> & ->). split; [by eexists | congruence].
    - eexists _, _. split; [reflexivity|]. split; [reflexivity|].
      split; [reflexivity | congruence]. }
  destruct Hout as (o & w2 & -> & Hr2 & Ho). cbn [fst snd].
  split; [exact Ho|]. rewrite Hr2.
  split; [exact Hrows'|].
  split.
  - intros r Hr Hid Hcalm.
    rewrite (mark_failed_calm report_id (Exception exc) w1 r Hr Hcalm), Hid,
      lookup_insert_eq.
    destruct (failed_report_fields exc (now w1) r) as (_ & Hst & Herr).
    by eexists.
  - exact (try_body_cleared env report_id w _ w1 Hrun).
Qed.

Lemma job_failure_retries_with_backoff_witness :
  let w1 := (try_body demo_env "r1" demo_outage).2 in
  let out n := generate_marketing_report demo_env "r1" n demo_outage in
  try_body demo_env "r1" demo_outage = (Raise (Exception "db down"), w1)
  /\ ((out 0%nat).1 = Retry 60 "db down"
      /\ queue (out 0%nat).2 = [generate_marketing_report_retry "r1" 1 60])
  /\ ((out 1%nat).1 = Retry 120 "db down"
      /\ queue (out 1%nat).2 = [generate_marketing_report_retry "r1" 2 120])
  /\ ((out 2%nat).1 = Retry 240 "db down"
      /\ queue (out 2%nat).2 = [generate_marketing_report_retry "r1" 3 240])
  /\ ((out 3%nat).1
      = Returned (result_error "Report generation failed for r1: db down" true)
      /\ queue (out 3%nat).2 = [])
  /\ exists r',
       reports (out 3%nat).2 !! "r1" = Some r'
       /\ Report.status r' = failed
       /\ Report.error_messages r' = [] ++ ["db down"].
Proof.
  intros w1 out.
  assert (H : try_body demo_env "r1" demo_outage = (Raise (Exception "db down"), w1))
    by (vm_compute; reflexivity).
  split; [exact H|].
  pose proof (fun n => proj1 (job_failure_retries_with_backoff demo_env "r1" n
                                demo_outage "db down" w1 H)) as Hn.
  split; [exact (Hn 0%nat)|]. split; [exact (Hn 1%nat)|].
  split; [exact (Hn 2%nat)|]. split; [exact (Hn 3%nat)|].
  apply (proj1 (proj2 (proj2 (job_failure_retries_with_backoff demo_env "r1" 3
                                demo_outage "db down" w1 H)))
           (demo_report pending None None [] [])).
  - vm_compute. reflexivity.
  - reflexivity.
  - vm_compute. reflexivity.
Defined.

(** C4, as stated, fails. In a database outage that lasts, the handler
    cannot mark the record: after the third retry the task returns its
    error, marked [retries_exhausted], and the stored report is still
    ['pending'], without any error message. And errors do not accumulate
    over the attempts: a report that failed once, with its error stored,
    and fails again after its first write holds the error of the last
    attempt only. *)
Lemma exhausted_retries_leave_report_pending :
  let outage :=
    demo_world (demo_report pending None None [] []) 5000000
      [None; Some "db down"; Some "db down"] in
  let out := generate_marketing_report demo_env "r1" 3 outage in
  let again :=
    demo_world demo_failed_once 5000000 [None; None; None; Some "db down"] in
  let out' := generate_marketing_report demo_env "r1" 3 again in
  out.1 = Returned (result_error "Report generation failed for r1: db down" true)
  /\ Report.status <$> reports out.2 !! "r1" = Some pending
  /\ Report.error_messages <$> reports out.2 !! "r1" = Some []
  /\ queue out.2 = []
  /\ Report.error_messages <$> reports again !! "r1" = Some ["first attempt"]
  /\ out'.1 = Returned (result_error "Report generation failed for r1: db down" true)
  /\ Report.status <$> reports out'.2 !! "r1" = Some failed
  /\ Report.error_messages <$> reports out'.2 !! "r1" = Some ["db down"].
Proof. vm_compute. repeat split; reflexivity. Qed.

(* ===================================================================== *)
(** * The pipeline never raises *)

(** X1. No failure of a step escalates: whatever the collaborators return
    or raise, whatever the frame holds, and whichever calls to the
    database and the channel layer fail, the seven steps run to the end
    and return normally. *)
Theorem run_steps_never_raises env report_id f :
  (run_steps env report_id f).1 = Ok tt.
Proof.
  pose proof (run_steps_ran env report_id (Report.id (report f)) f eq_refl) as H.
  unfold wp in H. by destruct H as [-> _].
Qed.

(* ===================================================================== *)
(** * A run without faults *)

(** X2. When no call to the database, the channel layer or the broker
    fails, and the report and its website are stored, the task always
    returns the result of a completed run and leaves the stored report
    with status ['completed'], whatever the collaborators do. *)
Theorem quiet_run_completes env report_id retries w rep site :
  quiet w ->
  reports w !! report_id = Some rep ->
  Report.id rep = report_id ->
  websites w !! Report.website_id rep = Some site ->
  let out := generate_marketing_report env report_id retries w in
  (exists pt ts, out.1 = Returned (result_completed report_id pt 7 ts))
  /\ exists rep', reports out.2 !! report_id = Some rep'
                  /\ Report.status rep' = completed.
Proof.
  intros Hq Hrep Hid Hsite out. subst out.
  assert (Hkey : forall r, reports w !! report_id = Some r -> Report.id r = report_id)
    by (intros r Hr; congruence).
  unfold generate_marketing_report.
  destruct (try_body env report_id w) as [[[res d]|e] w1] eqn:Hbody.
  - destruct (try_body_trace env report_id report_id w _ _ Hkey Hbody) as (_ & _ & H).
    rewrite Hrep in H. destruct H as (_ & _ & _ & pt & ts & ->).
    split; [by exists pt, ts|].
    destruct (completed_run env report_id w rep _ d w1 Hrep Hid Hbody)
      as (rep' & Hlook & Hst & _).
    by exists rep'.
  - destruct (try_body_trace env report_id report_id w _ _ Hkey Hbody)
      as (_ & _ & _ & _ & H).
    destruct (H Hq) as (rep0 & Hrep0 & Hnone). congruence.
Qed.

Lemma quiet_run_completes_witness :
  let w := demo_world demo_processing 5000000 [] in
  let out := generate_marketing_report demo_env "r1" 0 w in
  (exists pt ts, out.1 = Returned (result_completed "r1" pt 7 ts))
  /\ exists rep', reports out.2 !! "r1" = Some rep' /\ Report.status rep' = completed.
Proof.
  intros w.
  apply (quiet_run_completes demo_env "r1" 0 w demo_processing demo_site).
  - apply List.Forall_nil.
  - vm_compute. reflexivity.
  - reflexivity.
  - vm_compute. reflexivity.
Defined.

(* ===================================================================== *)
(** * What a completed run reports *)

(** X3. A run that ends normally on a stored report has collected exactly
    the seven output keys, in the order of the pipeline, and its result
    counts seven data sources: the two results of the AI step are counted
    as sources. *)
Theorem completed_run_has_seven_sources env report_id w rep res d w' :
  reports w !! report_id = Some rep ->
  try_body env report_id w = (Ok (res, d), w') ->
  dict_keys d = output_keys
  /\ exists pt ts, res = result_completed (Report.id rep) pt 7 ts.
Proof.
  intros Hrep Hbody.
  destruct (try_body_trace env report_id (Report.id rep) w _ _
              ltac:(intros r Hr; congruence) Hbody) as (_ & _ & H).
  rewrite Hrep in H. by destruct H as (K & _ & _ & R).
Qed.

Lemma completed_run_has_seven_sources_witness :
  let w := demo_world demo_processing 5000000 [] in
  let out := try_body demo_env "r1" w in
  exists res d,
    out = (Ok (res, d), out.2)
    /\ dict_keys d = output_keys
    /\ exists pt ts, res = result_completed "r1" pt 7 ts.
Proof.
  intros w out.
  destruct out as [[[res d]|e] w'] eqn:Hout; [|vm_compute in Hout; discriminate Hout].
  exists res, d. split; [reflexivity|].
  apply (completed_run_has_seven_sources demo_env "r1" w demo_processing res d w').
  - vm_compute. reflexivity.
  - exact Hout.
Defined.

(** X4. A run that ends normally on a stored report leaves no step
    pending: the stored [processing_steps] hold the seven steps in order,
    each marked completed or failed, even when writes of the progress
    failed on the way. *)
Theorem completed_run_settles_every_step env report_id w rep res d w' :
  reports w !! report_id = Some rep ->
  try_body env report_id w = (Ok (res, d), w') ->
  exists rep', reports w' !! Report.id rep = Some rep'
               /\ all_settled (Report.processing_steps rep').
Proof.
  intros Hrep Hbody.
  destruct (try_body_trace env report_id (Report.id rep) w _ _
              ltac:(intros r Hr; congruence) Hbody) as (_ & _ & H).
  rewrite Hrep in H. by destruct H as (_ & _ & S & _).
Qed.

Lemma completed_run_settles_every_step_witness :
  let w := demo_world demo_processing 5000000
             [None; None; None; None; None; None; Some "db down"] in
  let out := try_body demo_env "r1" w in
  exists res d,
    out = (Ok (res, d), out.2)
    /\ exists rep', reports out.2 !! "r1" = Some rep'
                    /\ all_settled (Report.processing_steps rep').
Proof.
  intros w out.
  destruct out as [[[res d]|e] w'] eqn:Hout; [|vm_compute in Hout; discriminate Hout].
  exists res, d. split; [reflexivity|].
  apply (completed_run_settles_every_step demo_env "r1" w demo_processing res d w').
  - vm_compute. reflexivity.
  - exact Hout.
Defined.

(* ===================================================================== *)
(** * What the task leaves alone *)

(** X5. The task writes no row but the one of its report: when the row
    stored under the id carries that id, every other row is after the
    task as it was before, whether the run completes, fails or is
    retried. *)
Theorem task_leaves_other_reports env report_id retries w k :
  (forall rep, reports w !! report_id = Some rep -> Report.id rep = report_id) ->
  k <> report_id ->
  reports (generate_marketing_report env report_id retries w).2 !! k = reports w !! k.
Proof.
  intros Hkey Hk.
  destruct (generate_marketing_report env report_id retries w) as [out w'] eqn:Hrun.
  destruct (task_trace env report_id report_id retries w out w' Hkey Hrun)
    as ((_ & Rows & _) & _).
  by apply Rows.
Qed.

Lemma task_leaves_other_reports_witness :
  let w := demo_offline [None; None; Some "db down"] in
  reports (generate_marketing_report demo_env "r1" 0 w).2 !! "r2" = reports w !! "r2".
Proof.
  intros w. apply task_leaves_other_reports.
  - intros rep H. vm_compute in H. injection H as <-. reflexivity.
  - discriminate.
Defined.

(** X6. Messages are only added, and every message of the task goes to
    the group of its report or to the group of the report list. *)
Theorem task_messages_go_to_own_groups env report_id retries w :
  grows (sent_to report_id) (published w)
    (published (generate_marketing_report env report_id retries w).2).
Proof.
  destruct (generate_marketing_report env report_id retries w) as [out w'] eqn:Hrun.
  destruct (task_trace env report_id (object_id report_id w) retries w out w'
              (object_id_keyed report_id w) Hrun) as ((_ & _ & _ & _ & G & _) & _).
  exact G.
Qed.

(** X7. Without a channel layer the task publishes nothing. *)
Theorem task_without_channel_layer_publishes_nothing env report_id retries w :
  channel_layer w = false ->
  published (generate_marketing_report env report_id retries w).2 = published w.
Proof.
  intros Hc.
  destruct (generate_marketing_report env report_id retries w) as [out w'] eqn:Hrun.
  destruct (task_trace env report_id (object_id report_id w) retries w out w'
              (object_id_keyed report_id w) Hrun) as ((_ & _ & _ & _ & _ & S) & _).
  by apply S.
Qed.

Lemma task_without_channel_layer_publishes_nothing_witness :
  published (generate_marketing_report demo_env "r1" 0 (demo_offline [])).2 = [].
Proof.
  apply (task_without_channel_layer_publishes_nothing demo_env "r1" 0 (demo_offline [])).
  reflexivity.
Defined.

(** X8. The collaborators are called in the order of the pipeline, each
    at most once in an execution of the task; the handler of a failed run
    calls none. *)
Theorem task_calls_collaborators_in_order env report_id retries w :
  calls collaborators w (generate_marketing_report env report_id retries w).2
  /\ forall exc w1, invoked (mark_failed report_id exc w1).2 = invoked w1.
Proof.
  split.
  - destruct (generate_marketing_report env report_id retries w) as [out w'] eqn:Hrun.
    destruct (task_trace env report_id (object_id report_id w) retries w out w'
                (object_id_keyed report_id w) Hrun) as (_ & C & _).
    exact C.
  - intros exc w1.
    pose proof (mark_failed_spec report_id exc w1) as H. unfold wp in H.
    by destruct H as (_ & _ & H & _).
Qed.

(** X9. One execution of the task hands one thing to the broker at most:
    the notification of the requester, when it returns the result of a
    completed run and the report has a requester email; or the task itself,
    as its next retry with the countdown [60 * 2 ^ retries], when it raises
    [Retry], which it does with fewer than three retries made only. A run
    that returns an error, finds no report, or is rejected by the broker
    leaves the queue as it was. *)
Theorem task_enqueues_only_the_notification env report_id retries w :
  let out := generate_marketing_report env report_id retries w in
  queue out.2
  = queue w
    ++ match out.1, reports w !! report_id with
       | Returned (result_completed _ _ _ _), Some rep => notification rep
       | Retry _ _, _ =>
           [generate_marketing_report_retry report_id (S retries)
              (60 * 2 ^ Z.of_nat retries)]
       | _, _ => []
       end
  /\ match out.1 with
     | Retry countdown _ =>
         (retries < 3)%nat /\ countdown = 60 * 2 ^ Z.of_nat retries
     | Reject _ => (retries < 3)%nat
     | Returned _ => True
     end.
Proof.
  cbv zeta.
  destruct (generate_marketing_report env report_id retries w) as [out w'] eqn:Hrun.
  destruct (task_trace env report_id (object_id report_id w) retries w out w'
              (object_id_keyed report_id w) Hrun) as (_ & _ & H).
  assert (Hc : match out with
               | Retry c _ => c = 60 * 2 ^ Z.of_nat retries
               | _ => True
               end).
  { unfold generate_marketing_report in Hrun.
    destruct (try_body env report_id w) as [[[res d]|[|msg]] w1];
      [by injection Hrun as <- <- | by injection Hrun as <- <- |].
    cbv zeta in Hrun. destruct (retries <? max_retries)%nat.
    - destruct (self_retry_used _ _ _ _ _ _ _ Hrun) as (_ & _ & _ & _ & _ & _ & _ & Ho).
      destruct out as [r|c e|reason]; [done | by destruct Ho | done].
    - by injection Hrun as <- <-. }
  simpl. destruct out as [[msg ex|k pt n ts]|c exc|reason].
  - by rewrite H, app_nil_r.
  - destruct H as (rep & -> & _ & _ & ->). done.
  - destruct H as (Hlt & ->). by destruct (reports w !! report_id).
  - destruct H as (Hlt & ->). by rewrite app_nil_r.
Qed.

(** X10. The body of the task never raises [Report.DoesNotExist]: a
    missing report is answered inside the body, so the handler of that
    exception around the body is never entered. *)
Theorem body_never_raises_does_not_exist env report_id w :
  (try_body env report_id w).1 <> Raise DoesNotExist.
Proof.
  destruct (try_body env report_id w) as [r w'] eqn:Hbody.
  destruct (try_body_trace env report_id (object_id report_id w) w r w'
              (object_id_keyed report_id w) Hbody) as (_ & _ & H).
  simpl. destruct r as [[res d]|e]; [discriminate|].
  destruct H as [He _]. congruence.
Qed.

(* ===================================================================== *)
(** * Progress updates from outside the task *)

Lemma upsert_step_upserted step status progress message t steps :
  upserted step (Step.mk step status progress message (Some t)) steps
    (upsert_step step status progress message t steps).
Proof.
  unfold upsert_step, upserted.
  induction steps as [|s rest IH]; simpl.
  - exists [], []. split; [constructor|]. split; [done|]. by right.
  - destruct (String.eqb (Step.step s) step) eqn:E.
    + apply String.eqb_eq in E. exists [], rest. split; [constructor|].
      split; [by rewrite E|]. left. by exists s.
    + apply String.eqb_neq in E.
      destruct (update_loop step status progress message t rest) as [rest' b].
      destruct IH as (pre & post & Hpre & Heq & Hold).
      exists (s :: pre), post. split; [by constructor|].
      split.
      * destruct b; simpl; by rewrite Heq.
      * destruct Hold as [(old & Ho & ->)|[-> ->]]; [left; by exists old | by right].
Qed.

Lemma upserted_names step entry steps steps' :
  Step.step entry = step ->
  upserted step entry steps steps' ->
  Step.step <$> steps' = add_key step (Step.step <$> steps).
Proof.
  intros He (pre & post & Hpre & -> & Hold).
  assert (Hno : existsb (String.eqb step) (Step.step <$> pre) = false).
  { clear Hold. induction Hpre as [|s pre Hs _ IH]; [done|].
    rewrite fmap_cons. cbn [existsb].
    rewrite IH, orb_false_r. apply String.eqb_neq. congruence. }
  unfold add_key. destruct Hold as [(old & Ho & ->)|[-> ->]].
  - rewrite !fmap_app, !fmap_cons, existsb_app. cbn [existsb].
    rewrite Ho, String.eqb_refl, orb_true_r. by rewrite He.
  - rewrite Hno, fmap_app. simpl. by rewrite He.
Qed.

Lemma add_key_NoDup k ks : NoDup ks -> NoDup (add_key k ks).
Proof.
  intros H. unfold add_key. destruct (existsb (String.eqb k) ks) eqn:E; [done|].
  apply NoDup_app. split; [done|]. split; [|apply NoDup_singleton].
  intros x Hx Hk. apply list_elem_of_singleton in Hk as ->.
  assert (existsb (String.eqb k) ks = true); [|congruence].
  apply existsb_exists. exists k. split; [by apply list_elem_of_In | apply String.eqb_refl].
Qed.

(** The row written by [update_report_progress] at time [t]. *)
Lemma update_report_progress_spec report_id step status progress message w :
  wp (update_report_progress report_id step status progress message)
     (fun res w' =>
        let row rep :=
          saved (now w)
            (Report.set_processing_steps
               (upsert_step step status progress message (now w)
                  (Report.processing_steps rep)) rep) in
        (exists r, res = Ok r)
        /\ (reports w' = reports w
            \/ exists rep, reports w !! report_id = Some rep
                           /\ reports w' = <[Report.id rep := row rep]> (reports w))
        /\ (quiet w ->
            forall rep, reports w !! report_id = Some rep ->
              res = Ok (progress_updated step)
              /\ reports w' = <[Report.id rep := row rep]> (reports w)
              /\ published w'
                 = published w
                   ++ (if channel_layer w
                       then [(group_name report_id,
                              report_progress_update step status progress message
                                (now w) None)]
                       else [])))
     w.
Proof.
  unfold update_report_progress, objects_get, group_send, timezone_now.
  destruct w as [rs ws t fs ch pub q inv].
  apply wp_try, wp_bind, wp_bind, wp_infra_used.
  - intros fs1 Hfs1. apply wp_bind, wp_gets. simpl.
    destruct (rs !! report_id) as [rep|] eqn:Hr.
    + apply wp_ret, wp_bind, wp_gets, wp_bind, wp_with_object, wp_Report_save_used; simpl.
      * intros fs2 Hfs2. apply wp_bind, wp_gets. simpl.
        destruct ch eqn:Hch.
        -- apply wp_bind, wp_bind, wp_gets, wp_bind, wp_infra_used; simpl.
           ++ intros fs3 Hfs3. apply wp_modify, wp_ret. simpl.
              split; [by eexists|]. split; [right; by exists rep|].
              intros _ rep' [= <-]. by repeat split.
           ++ intros fs3 msg Hfs3. apply wp_ret. simpl.
              split; [by eexists|]. split; [right; by exists rep|].
              intros Hq. exfalso. unfold quiet in Hq. simpl in Hq.
              assert (Hs : suffix fs2 fs) by (by transitivity fs1).
              apply (suffix_quiet _ _ Hs) in Hq. rewrite Hfs3 in Hq.
              apply Forall_cons_1 in Hq as [Hq _]. discriminate Hq.
        -- apply wp_bind, wp_ret, wp_ret. simpl.
           split; [by eexists|]. split; [right; by exists rep|].
           intros _ rep' [= <-]. rewrite app_nil_r. by repeat split.
      * intros fs2 msg Hfs2. apply wp_ret. simpl.
        split; [by eexists|]. split; [by left|].
        intros Hq. exfalso. unfold quiet in Hq. simpl in Hq.
        apply (suffix_quiet _ _ Hfs1) in Hq. rewrite Hfs2 in Hq.
        apply Forall_cons_1 in Hq as [Hq _]. discriminate Hq.
    + apply wp_raise, wp_ret. simpl.
      split; [by eexists|]. split; [by left|]. intros _ rep' [=].
  - intros fs1 msg Hfs1. apply wp_ret. simpl.
    split; [by eexists|]. split; [by left|].
    intros Hq. exfalso. unfold quiet in Hq. simpl in *. rewrite Hfs1 in Hq.
    apply Forall_cons_1 in Hq as [Hq _]. discriminate Hq.
Qed.

(** X11. [update_report_progress] is an upsert on the step list: when no
    call fails and the report is stored under its id, the task reports
    the update, and in the stored row the first entry named [step] has
    been replaced by the new entry, or the new entry has been added at the
    end when there was none. The other entries, the status and the error
    list of the report are as before. With a channel layer one message is
    published to the group of the report. *)
Theorem progress_update_upserts_step report_id step status progress message w rep :
  quiet w ->
  reports w !! report_id = Some rep ->
  Report.id rep = report_id ->
  let out := update_report_progress report_id step status progress message w in
  out.1 = Ok (progress_updated step)
  /\ (exists rep',
        reports out.2 !! report_id = Some rep'
        /\ upserted step (Step.mk step status progress message (Some (now w)))
             (Report.processing_steps rep) (Report.processing_steps rep')
        /\ Report.status rep' = Report.status rep
        /\ Report.error_messages rep' = Report.error_messages rep)
  /\ published out.2
     = published w
       ++ (if channel_layer w
           then [(group_name report_id,
                  report_progress_update step status progress message (now w) None)]
           else []).
Proof.
  intros Hq Hrep Hid out. subst out.
  pose proof (update_report_progress_spec report_id step status progress message w) as H.
  unfold wp in H. cbv zeta in H. destruct H as (_ & _ & H).
  destruct (H Hq rep Hrep) as (Hres & Hrows & Hpub).
  split; [exact Hres|]. split; [|exact Hpub].
  eexists. split; [rewrite Hrows, Hid; apply lookup_insert_eq|].
  rewrite saved_processing_steps, saved_status, saved_error_messages. simpl.
  split; [apply upsert_step_upserted | done].
Qed.

Lemma progress_update_upserts_step_witness :
  let w := demo_world demo_processing 5000000 [] in
  let out := update_report_progress "r1" "seo_analysis" "in_progress" 30 "working" w in
  out.1 = Ok (progress_updated "seo_analysis")
  /\ (exists rep',
        reports out.2 !! "r1" = Some rep'
        /\ upserted "seo_analysis"
             (Step.mk "seo_analysis" "in_progress" 30 "working" (Some 5000000))
             [demo_step] (Report.processing_steps rep')
        /\ Report.status rep' = processing
        /\ Report.error_messages rep' = ["old"])
  /\ published out.2
     = [(group_name "r1",
         report_progress_update "seo_analysis" "in_progress" 30 "working" 5000000 None)].
Proof.
  intros w.
  apply (progress_update_upserts_step "r1" "seo_analysis" "in_progress" 30 "working" w
           demo_processing).
  - apply List.Forall_nil.
  - vm_compute. reflexivity.
  - reflexivity.
Defined.

(** X12. [update_report_progress] never gives a report two entries for
    one step: if every stored report names each of its steps once before
    the task, so it is after, whichever calls fail. *)
Theorem progress_update_keeps_step_names_unique report_id step status progress message w :
  steps_named_once w ->
  steps_named_once (update_report_progress report_id step status progress message w).2.
Proof.
  intros Hw.
  pose proof (update_report_progress_spec report_id step status progress message w) as H.
  unfold wp in H. cbv zeta in H. destruct H as (_ & [Hsame|(rep & Hrep & Hrows)] & _).
  - unfold steps_named_once. by rewrite Hsame.
  - unfold steps_named_once. rewrite Hrows. apply map_Forall_insert_2; [|exact Hw].
    rewrite saved_processing_steps. simpl.
    rewrite (upserted_names step (Step.mk step status progress message (Some (now w)))
               _ _ eq_refl (upsert_step_upserted step status progress message (now w) _)).
    apply add_key_NoDup. exact (Hw _ _ Hrep).
Qed.

Lemma progress_update_keeps_step_names_unique_witness :
  steps_named_once
    (update_report_progress "r1" "crawl" "failed" 0 "again"
       (demo_world demo_processing 5000000 [])).2.
Proof.
  apply progress_update_keeps_step_names_unique.
  intros k r Hk. cbn [demo_world reports] in Hk.
  apply lookup_singleton_Some in Hk as [_ <-].
  apply NoDup_singleton.
Defined.

(* ===================================================================== *)
(** * Sweeps over the reports *)

Lemma rewrite_all_lookup_notin g l m k :
  (forall r, r ∈ l -> Report.id r <> k) ->
  rewrite_all g l m !! k = m !! k.
Proof.
  unfold rewrite_all. revert m. induction l as [|r l IH]; intros m Hl; [done|].
  simpl. rewrite IH.
  - apply lookup_insert_ne. apply Hl. by left.
  - intros r' Hr'. apply Hl. by right.
Qed.

Lemma rewrite_all_lookup_in g l m r :
  r ∈ l ->
  (forall r', r' ∈ l -> Report.id r' = Report.id r -> r' = r) ->
  rewrite_all g l m !! Report.id r = Some (g r).
Proof.
  revert m. induction l as [|r0 l IH]; intros m Hin Huniq.
  - by apply elem_of_nil in Hin.
  - change (rewrite_all g (r0 :: l) m)
      with (rewrite_all g l (<[Report.id r0 := g r0]> m)).
    destruct (decide (Report.id r ∈ Report.id <$> l)) as [Hl|Hl].
    + apply list_elem_of_fmap in Hl as (r' & Hid & Hr').
      assert (r' = r) as ->.
      { apply Huniq; [by right | done]. }
      apply IH; [done|].
      intros r' Hin'. apply Huniq. by right.
    + assert (r = r0) as ->.
      { apply elem_of_cons in Hin as [->|Hin]; [done|].
        exfalso. apply Hl. apply list_elem_of_fmap. by exists r. }
      rewrite rewrite_all_lookup_notin; [apply lookup_insert_eq|].
      intros r' Hr' Heq. apply Hl. apply list_elem_of_fmap. by exists r'.
Qed.

Lemma rows_stored p w r :
  well_keyed w ->
  r ∈ rows p (reports w) <-> p r = true /\ reports w !! Report.id r = Some r.
Proof.
  intros Hwk. unfold rows. rewrite elem_of_rows. split.
  - intros [Hp [k Hk]]. split; [done|]. by rewrite (well_keyed_lookup w k r Hwk Hk).
  - intros [Hp Hk]. split; [done|]. by eexists.
Qed.

Lemma NoDup_fmap_filter {A B} (f : A -> B) (P : A -> Prop) `{!forall x, Decision (P x)} l :
  NoDup (f <$> l) -> NoDup (f <$> filter P l).
Proof.
  induction l as [|x l IH]; [done|].
  rewrite fmap_cons, NoDup_cons. intros [Hx Hl]. rewrite filter_cons.
  destruct (decide (P x)); [|by apply IH].
  rewrite fmap_cons. apply NoDup_cons. split; [|by apply IH].
  intros Hin. apply Hx. apply list_elem_of_fmap in Hin as (y & -> & Hy).
  apply list_elem_of_filter in Hy as [_ Hy]. apply list_elem_of_fmap. by exists y.
Qed.

(** Under their own ids, the rows of a query have different ids. *)
Lemma rows_ids_NoDup p w : well_keyed w -> NoDup (Report.id <$> rows p (reports w)).
Proof.
  intros Hwk. unfold rows. apply NoDup_fmap_filter.
  rewrite merge_sort_Permutation.
  assert (E : Report.id <$> (snd <$> map_to_list (reports w))
              = fst <$> map_to_list (reports w)).
  { rewrite <- list_fmap_compose. apply Forall_fmap_ext_1, Forall_forall.
    intros [k r] Hkr. simpl. apply elem_of_map_to_list in Hkr.
    by apply (well_keyed_lookup w k r Hwk). }
  rewrite E. apply NoDup_fst_map_to_list.
Qed.

Lemma rows_unique p w r r' :
  well_keyed w ->
  r ∈ rows p (reports w) -> r' ∈ rows p (reports w) ->
  Report.id r' = Report.id r -> r' = r.
Proof.
  intros Hwk Hr Hr' Heq.
  apply rows_stored in Hr as [_ Hr]; [|done].
  apply rows_stored in Hr' as [_ Hr']; [|done].
  rewrite Heq in Hr'. congruence.
Qed.

(* ===================================================================== *)
(** * Regenerating the failed reports *)

Lemma regenerate_one_quiet r w :
  quiet w ->
  regenerate_one r w
  = (Ok tt,
     set_queue (queue w ++ [restart r])
       (set_reports (<[Report.id r := reset_report (now w) r]> (reports w))
          (set_faults (drop 2 (faults w)) w))).
Proof.
  intros Hq. unfold regenerate_one. unfold bind at 1.
  unfold with_object, Report_save, bind, zoom, timezone_now, gets, modify. simpl.
  rewrite (infra_quiet w Hq). simpl.
  unfold delay, bind, modify.
  rewrite infra_quiet; [|by apply quiet_drop].
  unfold reset_report, restart. rewrite before_save_id.
  destruct w as [rs ws t fs ch pub q inv]; simpl. by rewrite drop_drop.
Qed.

Lemma for_each_regenerate_quiet l w :
  quiet w ->
  for_each regenerate_one l w
  = (Ok tt,
     set_queue (queue w ++ (restart <$> l))
       (set_reports (rewrite_all (reset_report (now w)) l (reports w))
          (set_faults (drop (2 * length l) (faults w)) w))).
Proof.
  revert w. induction l as [|r l IH]; intros w Hq.
  - simpl. unfold ret. destruct w; simpl. by rewrite app_nil_r.
  - cbn [for_each]. unfold bind. rewrite (regenerate_one_quiet r w Hq).
    rewrite IH.
    + replace (2 * length (r :: l))%nat with (2 + 2 * length l)%nat by (simpl; lia).
      destruct w as [rs ws t fs ch pub q inv]; cbn -[Nat.mul Nat.add].
      by rewrite drop_drop, <- app_assoc.
    + destruct w as [rs ws t fs ch pub q inv]; unfold quiet in *; simpl in *.
      by apply Forall_drop.
Qed.

Lemma reset_report_fields t r :
  Report.id (reset_report t r) = Report.id r
  /\ Report.status (reset_report t r) = pending
  /\ Report.error_messages (reset_report t r) = []
  /\ Report.processing_steps (reset_report t r) = [].
Proof. unfold reset_report. autorewrite with saved_fields. by repeat split. Qed.

(** X13. Without faults, and with every row stored under its id,
    [regenerate_failed_reports] resets every failed report (status
    ['pending'], no errors, no steps) and leaves every other report as it
    is; it hands the broker one generation task for each failed report,
    and returns their number. *)
Theorem regenerate_resets_every_failed_report w :
  quiet w ->
  well_keyed w ->
  let out := regenerate_failed_reports w in
  out.1 = Ok (regenerated (length (failed_rows w)))
  /\ queue out.2 = queue w ++ (restart <$> failed_rows w)
  /\ NoDup (Report.id <$> failed_rows w)
  /\ (forall r, r ∈ failed_rows w <->
        Report.status r = failed /\ reports w !! Report.id r = Some r)
  /\ forall k r, reports w !! k = Some r ->
       reports out.2 !! k
       = Some (if status_eqb (Report.status r) failed
               then reset_report (now w) r else r).
Proof.
  intros Hq Hwk out. subst out.
  assert (Hmem : forall r, r ∈ failed_rows w <->
                   Report.status r = failed /\ reports w !! Report.id r = Some r).
  { intros r. unfold failed_rows. rewrite (rows_stored _ w r Hwk).
    split; intros [H1 H2]; (split; [|exact H2]);
      destruct (Report.status r); done. }
  unfold regenerate_failed_reports, try_except.
  erewrite bind_ok; [|by apply select_quiet].
  fold (rows (fun r => status_eqb (Report.status r) failed) (reports w)).
  fold (failed_rows w).
  erewrite bind_ok; [|apply for_each_regenerate_quiet; by apply quiet_drop].
  unfold ret. cbn [fst snd].
  split; [reflexivity|]. split; [by destruct w|].
  split; [by apply rows_ids_NoDup|]. split; [exact Hmem|].
  intros k r Hk.
  pose proof (well_keyed_lookup w k r Hwk Hk) as Hid. subst k.
  replace (reports _) with
    (rewrite_all (reset_report (now w)) (failed_rows w) (reports w)) by (by destruct w).
  destruct (status_eqb (Report.status r) failed) eqn:Hs.
  - apply rewrite_all_lookup_in.
    + apply Hmem. split; [by destruct (Report.status r) | done].
    + intros r' Hr' Heq. apply Hmem in Hr' as [_ Hr']. rewrite Heq in Hr'. congruence.
  - rewrite rewrite_all_lookup_notin; [done|].
    intros r' Hr' Heq. apply Hmem in Hr' as [Hs' Hr']. rewrite Heq in Hr'.
    assert (r' = r) as -> by congruence. rewrite Hs' in Hs. discriminate Hs.
Qed.

Lemma regenerate_resets_every_failed_report_witness :
  let w := demo_world (demo_report failed None (Some 0) [demo_step] ["boom"]) 5000000 [] in
  let out := regenerate_failed_reports w in
  out.1 = Ok (regenerated (length (failed_rows w)))
  /\ queue out.2 = queue w ++ (restart <$> failed_rows w)
  /\ NoDup (Report.id <$> failed_rows w)
  /\ (forall r, r ∈ failed_rows w <->
        Report.status r = failed /\ reports w !! Report.id r = Some r)
  /\ forall k r, reports w !! k = Some r ->
       reports out.2 !! k
       = Some (if status_eqb (Report.status r) failed
               then reset_report (now w) r else r).
Proof.
  intros w. apply regenerate_resets_every_failed_report.
  - apply List.Forall_nil.
  - by apply demo_world_well_keyed.
Defined.

Lemma for_each_regenerate_any m0 q0 t l done rest w :
  l = done ++ rest ->
  NoDup (Report.id <$> l) ->
  (forall r, r ∈ l -> m0 !! Report.id r = Some r) ->
  now w = t ->
  (forall k r, m0 !! k = Some r ->
     reports w !! k = Some r \/ reports w !! k = Some (reset_report t r)) ->
  queue w = q0 ++ (restart <$> done) ->
  (forall r, r ∈ done -> reports w !! Report.id r = Some (reset_report t r)) ->
  wp (for_each regenerate_one rest) (fun _ w' => swept (reset_report t) l m0 q0 t w') w.
Proof.
  revert done w. induction rest as [|r rest IH]; intros done w Hl Hnd Hm0 Hnow Hrows Hq Hdone.
  - simpl. apply wp_ret. rewrite app_nil_r in Hl. subst l.
    split; [done|]. split; [done|]. exists done. split; [done|].
    intros r Hr. split; [done | by apply Hdone].
  - assert (Hstop : forall fs rs,
              (forall k r0, m0 !! k = Some r0 ->
                 rs !! k = Some r0 \/ rs !! k = Some (reset_report t r0)) ->
              (forall r0, r0 ∈ done -> rs !! Report.id r0 = Some (reset_report t r0)) ->
              swept (reset_report t) l m0 q0 t (set_reports rs (set_faults fs w))).
    { intros fs rs Hrs Hd. split; [by destruct w|]. split; [by destruct w|].
      exists done. split; [by destruct w|]. intros r0 Hr0.
      split; [subst l; apply elem_of_app; by left|]. destruct w; simpl. by apply Hd. }
    assert (Hr : m0 !! Report.id r = Some r).
    { apply Hm0. subst l. apply elem_of_app. right. by left. }
    assert (Hfresh : forall r0, r0 ∈ done -> Report.id r0 <> Report.id r).
    { intros r0 Hr0 Heq. subst l. rewrite fmap_app, fmap_cons in Hnd.
      apply NoDup_app in Hnd as (_ & Hnd & _).
      apply (Hnd (Report.id r0)).
      - apply list_elem_of_fmap. by exists r0.
      - rewrite Heq. by left. }
    cbn [for_each]. apply wp_bind. unfold regenerate_one.
    apply wp_bind, wp_with_object, wp_Report_save_used; simpl.
    + intros fs1 Hfs1. fold (reset_report (now w) r). rewrite Hnow.
      assert (Hrows1 : forall k r0, m0 !! k = Some r0 ->
                <[Report.id r := reset_report t r]> (reports w) !! k = Some r0
                \/ <[Report.id r := reset_report t r]> (reports w) !! k
                   = Some (reset_report t r0)).
      { intros k r0 Hk. destruct (decide (Report.id r = k)) as [<-|Hne].
        - rewrite lookup_insert_eq. right. congruence.
        - rewrite lookup_insert_ne by done. by apply Hrows. }
      assert (Hdone1 : forall r0, r0 ∈ done ->
                <[Report.id r := reset_report t r]> (reports w) !! Report.id r0
                = Some (reset_report t r0)).
      { intros r0 Hr0. rewrite lookup_insert_ne by (intros E; by apply (Hfresh r0 Hr0)).
        by apply Hdone. }
      unfold delay. apply wp_bind, wp_infra_used; simpl.
      * intros fs2 Hfs2. apply wp_modify. simpl.
        apply (IH (done ++ [r])).
        -- by rewrite <- app_assoc.
        -- done.
        -- done.
        -- by destruct w.
        -- by destruct w.
        -- destruct w; simpl in *. rewrite Hq, fmap_app, <- app_assoc. reflexivity.
        -- intros r0 Hr0. destruct w; simpl in *.
           apply elem_of_app in Hr0 as [Hr0|Hr0]; [by apply Hdone1|].
           apply list_elem_of_singleton in Hr0 as ->. apply lookup_insert_eq.
      * intros fs2 msg Hfs2.
        pose proof (Hstop fs2 _ Hrows1 Hdone1) as H. by destruct w.
    + intros fs1 msg Hfs1.
      pose proof (Hstop fs1 _ Hrows Hdone) as H. by destruct w.
Qed.

(** X14. Whichever calls fail, a sweep of [regenerate_failed_reports]
    leaves every row as it was or reset, and every task it adds to the
    queue restarts a failed report whose row has been reset before: no
    generation is started on a report that still shows the old failure. *)
Theorem regenerate_enqueues_only_reset_reports w :
  well_keyed w ->
  swept (reset_report (now w)) (failed_rows w) (reports w) (queue w) (now w)
    (regenerate_failed_reports w).2.
Proof.
  intros Hwk.
  assert (H0 : forall fs,
            swept (reset_report (now w)) (failed_rows w) (reports w) (queue w) (now w)
              (set_faults fs w)).
  { intros fs. split; [by destruct w|]. split; [intros k r Hk; left; by destruct w|].
    exists []. split; [destruct w; simpl; by rewrite app_nil_r|].
    intros r Hr. by apply elem_of_nil in Hr. }
  assert (Hwp : wp regenerate_failed_reports
                  (fun _ w' => swept (reset_report (now w)) (failed_rows w) (reports w)
                                 (queue w) (now w) w') w).
  { unfold regenerate_failed_reports.
    apply wp_try, wp_bind. unfold select at 1.
    apply wp_bind, wp_infra_used; [|intros fs msg _; apply wp_ret, H0].
    intros fs Hfs. apply wp_gets. cbv beta iota.
    replace (reports (set_faults fs w)) with (reports w) by (by destruct w).
    fold (rows (fun r => status_eqb (Report.status r) failed) (reports w)).
    fold (failed_rows w).
    apply wp_bind.
    eapply wp_mono;
      [|apply (for_each_regenerate_any (reports w) (queue w) (now w) (failed_rows w) []
                 (failed_rows w))].
    - intros [[]|e] w2 H; cbv beta iota; apply wp_ret; exact H.
    - reflexivity.
    - by apply rows_ids_NoDup.
    - intros r Hr. unfold failed_rows in Hr. by apply rows_stored in Hr as [_ Hr].
    - by destruct w.
    - intros k r Hk. left. by destruct w.
    - destruct w; simpl. by rewrite app_nil_r.
    - intros r Hr. by apply elem_of_nil in Hr. }
  exact Hwp.
Qed.

Lemma regenerate_enqueues_only_reset_reports_witness :
  let w := demo_world (demo_report failed None (Some 0) [demo_step] ["boom"]) 5000000
             [None; None; Some "broker down"] in
  swept (reset_report (now w)) (failed_rows w) (reports w) (queue w) (now w)
    (regenerate_failed_reports w).2.
Proof.
  intros w. apply regenerate_enqueues_only_reset_reports.
  by apply demo_world_well_keyed.
Defined.

(* ===================================================================== *)
(** * Starting a batch *)

(** X15. [batch_process_reports] always returns, with one entry for each
    id it was given, in the order given; the tasks it hands to the broker
    are the generation tasks of the entries it reports as started, in
    that order, and a report whose task was refused is reported as
    failed. *)
Theorem batch_reports_one_entry_per_id report_ids w :
  let out := batch_process_reports report_ids w in
  exists results,
    out.1 = Ok results
    /\ entry_id <$> results = report_ids
    /\ queue out.2 = queue w ++ (generate_marketing_report_task <$> started_ids results).
Proof.
  cbv zeta.
  change (wp (batch_process_reports report_ids)
            (fun res w' =>
               exists results,
                 res = Ok results
                 /\ entry_id <$> results = report_ids
                 /\ queue w' = queue w
                               ++ (generate_marketing_report_task <$> started_ids results))
            w).
  revert w. induction report_ids as [|report_id rest IH]; intros w.
  - apply wp_ret. exists []. by rewrite app_nil_r.
  - cbn [batch_process_reports].
    assert (Hrest : forall entry w1,
              entry_id entry = report_id ->
              queue w1 = queue w ++ (generate_marketing_report_task <$> started_ids [entry]) ->
              wp (results <- batch_process_reports rest ;; ret (entry :: results))
                 (fun res w' =>
                    exists results,
                      res = Ok results
                      /\ entry_id <$> results = report_id :: rest
                      /\ queue w' = queue w
                                    ++ (generate_marketing_report_task <$> started_ids results))
                 w1).
    { intros entry w1 He Hq1. apply wp_bind. eapply wp_mono; [|apply IH].
      intros res w2 (results & -> & E2 & E3). cbv beta iota. apply wp_ret.
      exists (entry :: results). split; [done|].
      split; [by rewrite fmap_cons, He, E2|].
      rewrite E3, Hq1. destruct entry; simpl; by rewrite <- ?app_assoc, ?app_nil_r. }
    apply wp_bind, wp_try, wp_bind. unfold delay. apply wp_bind, wp_infra_used.
    + intros fs Hfs. apply wp_modify. cbv beta iota. apply wp_ret. cbv beta iota.
      apply Hrest; [done|]. by destruct w.
    + intros fs msg Hfs. cbv beta iota. apply wp_ret. cbv beta iota.
      apply Hrest; [done|]. destruct w; simpl. by rewrite app_nil_r.
Qed.

(* ===================================================================== *)
(** * The monitor restarts old pending reports *)

Lemma monitor_quiet_restarts w :
  quiet w ->
  let out := monitor_report_processing w in
  let old_pending :=
    rows (is_old_pending (now w - hours_1))
      (fail_all (now w) (stuck_rows w) (reports w)) in
  out.1 = Ok (monitor_counts (length (stuck_rows w)) (length old_pending) (now w))
  /\ queue out.2 = queue w ++ (restart <$> old_pending)
  /\ reports out.2 = fail_all (now w) (stuck_rows w) (reports w).
Proof.
  intros Hq. unfold monitor_report_processing, try_except.
  erewrite bind_ok; [|reflexivity].
  erewrite bind_ok; [|by apply select_quiet].
  fold (stuck_rows w).
  pose proof (quiet_drop 1 w Hq) as Hq1.
  erewrite bind_ok; [|by apply for_each_fail_stuck_quiet].
  set (w2 := set_reports _ _).
  assert (Hq2 : quiet w2).
  { unfold w2, quiet in *. destruct w; simpl in *. by apply Forall_drop. }
  erewrite bind_ok; [|reflexivity].
  erewrite bind_ok; [|by apply select_quiet].
  pose proof (quiet_drop 1 w2 Hq2) as Hq3.
  erewrite bind_ok; [|by apply for_each_delay_quiet].
  erewrite bind_ok; [|reflexivity].
  unfold ret. cbv zeta. cbn [snd fst].
  unfold w2 in *. destruct w as [rs ws t fs ch pub q inv]; simpl in *.
  by repeat split.
Qed.

(** X16. Without faults, and with every row stored under its id, the
    monitor hands the broker one generation task for each report that has
    been pending for more than an hour, and counts them. It does not
    change the row of such a report: the report is still pending with the
    same creation time, so the next sweep restarts it again. *)
Theorem monitor_restarts_old_pending_reports w :
  quiet w ->
  well_keyed w ->
  let out := monitor_report_processing w in
  exists old_pending,
    out.1 = Ok (monitor_counts (length (stuck_rows w)) (length old_pending) (now w))
    /\ queue out.2 = queue w ++ (restart <$> old_pending)
    /\ NoDup (Report.id <$> old_pending)
    /\ forall r,
         r ∈ old_pending <->
         is_old_pending (now w - hours_1) r = true
         /\ reports w !! Report.id r = Some r
         /\ reports out.2 !! Report.id r = Some r.
Proof.
  intros Hq Hwk out. subst out.
  destruct (monitor_quiet_restarts w Hq) as (Hres & Hqueue & Hrows).
  pose proof (monitor_quiet_well_keyed w Hq Hwk) as Hwk1.
  rewrite <- Hrows in Hres, Hqueue.
  eexists. split; [exact Hres|]. split; [exact Hqueue|].
  split; [by apply rows_ids_NoDup|].
  intros r. rewrite (rows_stored _ _ r Hwk1). split.
  - intros [Hp Hr]. split; [done|]. split; [|done].
    destruct (reports w !! Report.id r) as [r0|] eqn:Hr0.
    + rewrite (monitor_quiet_lookup w _ r0 Hq Hwk Hr0) in Hr.
      destruct (is_stuck (now w - minutes_30) r0) eqn:Hs; [|done].
      injection Hr as <-. unfold is_old_pending in Hp.
      destruct (failed_report_fields timeout_message (now w) r0) as (_ & Hst & _).
      rewrite Hst in Hp. discriminate Hp.
    + rewrite Hrows, fail_all_lookup_notin in Hr; [congruence|].
      intros r' Hr' Heq. apply stuck_rows_stored in Hr' as [_ Hr']; [|done].
      rewrite Heq in Hr'. congruence.
  - intros (Hp & Hr & _). split; [done|].
    rewrite (monitor_quiet_lookup w _ r Hq Hwk Hr).
    unfold is_old_pending in Hp. unfold is_stuck.
    by destruct (Report.status r).
Qed.

Lemma monitor_restarts_old_pending_reports_witness :
  let w := demo_world (demo_report pending None None [] []) 3600000001 [] in
  let out := monitor_report_processing w in
  exists old_pending,
    out.1 = Ok (monitor_counts (length (stuck_rows w)) (length old_pending) (now w))
    /\ queue out.2 = queue w ++ (restart <$> old_pending)
    /\ NoDup (Report.id <$> old_pending)
    /\ forall r,
         r ∈ old_pending <->
         is_old_pending (now w - hours_1) r = true
         /\ reports w !! Report.id r = Some r
         /\ reports out.2 !! Report.id r = Some r.
Proof.
  intros w. apply monitor_restarts_old_pending_reports.
  - apply List.Forall_nil.
  - by apply demo_world_well_keyed.
Defined.

(* ===================================================================== *)
(** * Shared links *)

Lemma wp_on_base {A} (m : M World A) (Q : res A -> Store -> Prop) s :
  wp m (fun r w => Q r (set_base w s)) (base s) -> wp (on_base m) Q s.
Proof. unfold on_base. apply wp_zoom. Qed.

Lemma wp_count_view share (Q : res shared_response -> Store -> Prop) s :
  (forall fs, suffix fs (faults (base s)) ->
     Q (Ok (shared_report (ReportShare.report_id share)))
       (mkStore (set_faults fs (base s))
          (<[ReportShare.share_token share :=
               ReportShare.set_current_views (ReportShare.current_views share + 1) share]>
             (shares s)))) ->
  (forall fs msg, faults (base s) = Some msg :: fs ->
     Q (Raise (Exception msg)) (mkStore (set_faults fs (base s)) (shares s))) ->
  wp (count_view share) Q s.
Proof.
  intros Hok Herr. unfold count_view. destruct s as [w sh].
  apply wp_bind, wp_on_base, wp_infra_used; simpl.
  - intros fs Hfs. apply wp_bind, wp_modify, wp_ret. simpl. by apply Hok.
  - intros fs msg Hfs. by apply Herr.
Qed.

(** What the view does, in all its cases. *)
Lemma SharedReportView_get_spec share_token password email s :
  wp (SharedReportView_get share_token password email)
     (fun res s' =>
        (exists fs, base s' = set_faults fs (base s))
        /\ match res with
           | Ok (shared_report rid) =>
               exists share,
                 shares s !! share_token = Some share
                 /\ rid = ReportShare.report_id share
                 /\ is_accessible (now (base s)) share = true
                 /\ match ReportShare.share_type share with
                    | share_password =>
                        ReportShare.password share <> ""
                        /\ password = Some (ReportShare.password share)
                    | share_email => missing email = false
                    | _ => True
                    end
                 /\ shares s'
                    = <[ReportShare.share_token share :=
                          ReportShare.set_current_views
                            (ReportShare.current_views share + 1) share]> (shares s)
           | _ => shares s' = shares s
           end
        /\ (quiet (base s) ->
            forall share,
              shares s !! share_token = Some share ->
              is_accessible (now (base s)) share = true ->
              ReportShare.share_type share = share_public
              \/ ReportShare.share_type share = share_private ->
              res = Ok (shared_report (ReportShare.report_id share))))
     s.
Proof.
  unfold SharedReportView_get. destruct s as [w sh].
  assert (Hquiet : forall fs msg, faults w = Some msg :: fs -> quiet w -> False).
  { intros fs msg Hfs Hq. unfold quiet in Hq. rewrite Hfs in Hq.
    apply Forall_cons_1 in Hq as [Hq _]. discriminate Hq. }
  assert (Hquiet2 : forall fs1 fs msg,
            suffix fs1 (faults w) -> fs1 = Some msg :: fs -> quiet w -> False).
  { intros fs1 fs msg Hs Hfs Hq. unfold quiet in Hq.
    apply (suffix_quiet _ _ Hs) in Hq. subst fs1.
    apply Forall_cons_1 in Hq as [Hq _]. discriminate Hq. }
  apply wp_bind, wp_on_base, wp_infra_used; simpl.
  2: { intros fs msg Hfs. split; [by exists fs|]. split; [done|].
       intros Hq. by destruct (Hquiet fs msg Hfs Hq). }
  intros fs1 Hfs1. apply wp_bind, wp_gets. simpl.
  destruct (sh !! share_token) as [share|] eqn:Hshare.
  2: { apply wp_ret. split; [by exists fs1|]. split; [done|]. intros _ share [=]. }
  apply wp_bind, wp_on_base. unfold timezone_now. apply wp_gets.
  cbn [set_base base shares]. rewrite <- Hshare.
  replace (now (set_faults fs1 w)) with (now w) by (by destruct w).
  assert (Hrefuse : forall st msg,
            is_accessible (now w) share = false
            \/ (ReportShare.share_type share <> share_public
                /\ ReportShare.share_type share <> share_private) ->
            (exists fs, base (mkStore (set_faults fs1 w) sh) = set_faults fs w)
            /\ shares (mkStore (set_faults fs1 w) sh) = sh
            /\ (quiet w ->
                forall share0, sh !! share_token = Some share0 ->
                  is_accessible (now w) share0 = true ->
                  ReportShare.share_type share0 = share_public
                  \/ ReportShare.share_type share0 = share_private ->
                  Ok (shared_refused st msg)
                  = Ok (shared_report (ReportShare.report_id share0)))).
  { intros st msg Hno. split; [by exists fs1|]. split; [done|].
    intros _ share0 Hs0 Hacc Hty. rewrite Hshare in Hs0. injection Hs0 as <-.
    destruct Hno as [Hno|[H1 H2]]; [congruence|]. by destruct Hty. }
  assert (Hcount : (match ReportShare.share_type share with
                    | share_password =>
                        ReportShare.password share <> ""
                        /\ password = Some (ReportShare.password share)
                    | share_email => missing email = false
                    | _ => True
                    end) ->
                   is_accessible (now w) share = true ->
                   wp (count_view share)
                     (fun res s' =>
                        (exists fs, base s' = set_faults fs w)
                        /\ match res with
                           | Ok (shared_report rid) =>
                               exists share0,
                                 sh !! share_token = Some share0
                                 /\ rid = ReportShare.report_id share0
                                 /\ is_accessible (now w) share0 = true
                                 /\ match ReportShare.share_type share0 with
                                    | share_password =>
                                        ReportShare.password share0 <> ""
                                        /\ password = Some (ReportShare.password share0)
                                    | share_email => missing email = false
                                    | _ => True
                                    end
                                 /\ shares s'
                                    = <[ReportShare.share_token share0 :=
                                          ReportShare.set_current_views
                                            (ReportShare.current_views share0 + 1) share0]> sh
                           | _ => shares s' = sh
                           end
                        /\ (quiet w ->
                            forall share0, sh !! share_token = Some share0 ->
                              is_accessible (now w) share0 = true ->
                              ReportShare.share_type share0 = share_public
                              \/ ReportShare.share_type share0 = share_private ->
                              res = Ok (shared_report (ReportShare.report_id share0))))
                     (mkStore (set_faults fs1 w) sh)).
  { intros Hty Hacc. apply wp_count_view; simpl.
    - intros fs2 Hfs2. split; [exists fs2; by destruct w|].
      split; [by exists share|]. intros _ share0 Hs0 _ _.
      rewrite Hshare in Hs0. by injection Hs0 as <-.
    - intros fs2 msg Hfs2. split; [exists fs2; by destruct w|]. split; [done|].
      intros Hq. exfalso. apply (Hquiet2 fs1 fs2 msg); [done| |done]. by destruct w. }
  destruct (is_accessible (now w) share) eqn:Hacc; simpl.
  2: { destruct (is_expired (now w) share); [apply wp_ret, Hrefuse; by left|].
       destruct (view_limit_reached share); apply wp_ret, Hrefuse; by left. }
  destruct (ReportShare.share_type share) eqn:Hty.
  - by apply Hcount.
  - by apply Hcount.
  - destruct (missing password) eqn:Hm; simpl.
    { apply wp_ret, Hrefuse. right. by split. }
    destruct (String.eqb (default "" password) (ReportShare.password share)) eqn:Hp; simpl.
    2: { apply wp_ret, Hrefuse. right. by split. }
    apply String.eqb_eq in Hp. destruct password as [p|]; [|discriminate Hm].
    simpl in Hp, Hm. subst p. apply Hcount; [|done]. split; [|done].
    intros Hempty. rewrite Hempty in Hm. discriminate Hm.
  - destruct (missing email) eqn:Hm.
    { apply wp_ret, Hrefuse. right. by split. }
    apply wp_bind. unfold str_in.
    destruct (ReportShare.allowed_emails share);
      try (apply wp_raise; split; [by exists fs1|]; split; [done|];
           intros _ share0 Hs0 _ [H|H]; rewrite Hshare in Hs0; injection Hs0 as <-;
           rewrite Hty in H; discriminate H).
    all: apply wp_ret; cbv beta iota.
    all: match goal with
         | |- wp (if ?b then _ else _) _ _ => destruct b
         end.
    all: first [ by apply Hcount | apply wp_ret, Hrefuse; right; by split ].
Qed.

Lemma accessible_within_limit t share :
  is_accessible t share = true ->
  within_limit (ReportShare.set_current_views (ReportShare.current_views share + 1) share).
Proof.
  unfold is_accessible, view_limit_reached, within_limit. simpl.
  destruct (negb (ReportShare.is_active share) || is_expired t share); [done|].
  destruct (ReportShare.max_views share) as [m|]; [|done].
  destruct (m =? 0) eqn:E0; simpl.
  - intros _. left. by apply Z.eqb_eq.
  - destruct (m <=? ReportShare.current_views share) eqn:E; [done|].
    intros _. right. apply Z.leb_gt in E. lia.
Qed.

(** X17. The view never counts a share past its limit: if every stored
    share with a positive [max_views] has at most that many views, so it
    is after a request, whatever the request and whichever calls fail. *)
Theorem shared_view_keeps_view_limit share_token password email s :
  shares_within_limit s ->
  shares_within_limit (SharedReportView_get share_token password email s).2.
Proof.
  intros Hs.
  pose proof (SharedReportView_get_spec share_token password email s) as H.
  unfold wp in H. destruct H as (_ & H & _).
  unfold shares_within_limit.
  destruct (SharedReportView_get share_token password email s).1 as [[rid|st msg]|e];
    try (by rewrite H).
  destruct H as (share & Hshare & _ & Hacc & _ & ->).
  apply map_Forall_insert_2; [|exact Hs]. by eapply accessible_within_limit.
Qed.

Lemma shared_view_keeps_view_limit_witness :
  shares_within_limit (SharedReportView_get "t2" None None demo_store).2.
Proof.
  apply shared_view_keeps_view_limit.
  intros k share Hk. cbn [demo_store shares] in Hk.
  apply lookup_insert_Some in Hk as [[_ <-]|[_ Hk]].
  - right. simpl. lia.
  - apply lookup_singleton_Some in Hk as [_ <-]. by left.
Defined.

(** X18. A view is counted exactly when the report is served. A served
    request found its share stored and accessible, with the password of a
    password share (which is not empty) or with an email for an email
    share, and the share then has one view more; a refusal, and a request
    that ends in an exception, leave every share as it was. The reports
    are never touched. *)
Theorem shared_view_counts_served_requests share_token password email s :
  let out := SharedReportView_get share_token password email s in
  reports (base out.2) = reports (base s)
  /\ match out.1 with
     | Ok (shared_report rid) =>
         exists share,
           shares s !! share_token = Some share
           /\ rid = ReportShare.report_id share
           /\ is_accessible (now (base s)) share = true
           /\ match ReportShare.share_type share with
              | share_password =>
                  ReportShare.password share <> ""
                  /\ password = Some (ReportShare.password share)
              | share_email => missing email = false
              | _ => True
              end
           /\ shares out.2
              = <[ReportShare.share_token share :=
                    ReportShare.set_current_views
                      (ReportShare.current_views share + 1) share]> (shares s)
     | _ => shares out.2 = shares s
     end.
Proof.
  cbv zeta.
  pose proof (SharedReportView_get_spec share_token password email s) as H.
  unfold wp in H. destruct H as ([fs Hfs] & H & _).
  split; [rewrite Hfs; by destruct (base s) | exact H].
Qed.

(** X19. A password share whose password is empty can never be opened:
    the view takes an empty password in the request for a missing one. *)
Theorem empty_password_share_is_never_served share_token password email s share rid :
  shares s !! share_token = Some share ->
  ReportShare.share_type share = share_password ->
  ReportShare.password share = "" ->
  (SharedReportView_get share_token password email s).1 <> Ok (shared_report rid).
Proof.
  intros Hshare Hty Hpw Hres.
  pose proof (SharedReportView_get_spec share_token password email s) as H.
  unfold wp in H. destruct H as (_ & H & _). rewrite Hres in H.
  destruct H as (share0 & Hshare0 & _ & _ & Hcred & _).
  assert (share0 = share) as -> by congruence.
  rewrite Hty in Hcred. by destruct Hcred.
Qed.

Lemma empty_password_share_is_never_served_witness :
  (SharedReportView_get "t1" (Some "") None demo_store).1 <> Ok (shared_report "r1").
Proof.
  apply (empty_password_share_is_never_served "t1" (Some "") None demo_store demo_locked).
  - vm_compute. reflexivity.
  - reflexivity.
  - reflexivity.
Defined.

(** X20. A limit of zero views is no limit: when no call fails, an active
    public or private share that has not expired and has [max_views = 0]
    is served whatever its view count is. A share is still served at the
    instant it expires. *)
Theorem zero_max_views_is_unlimited share_token password email s share :
  quiet (base s) ->
  shares s !! share_token = Some share ->
  ReportShare.is_active share = true ->
  ReportShare.max_views share = Some 0 ->
  (forall expires_at, ReportShare.expires_at share = Some expires_at ->
                      now (base s) <= expires_at) ->
  ReportShare.share_type share = share_public
  \/ ReportShare.share_type share = share_private ->
  (SharedReportView_get share_token password email s).1
  = Ok (shared_report (ReportShare.report_id share)).
Proof.
  intros Hq Hshare Hact Hmax Hexp Hty.
  pose proof (SharedReportView_get_spec share_token password email s) as H.
  unfold wp in H. destruct H as (_ & _ & H).
  apply (H Hq share Hshare); [|exact Hty].
  unfold is_accessible, is_expired, view_limit_reached. rewrite Hact, Hmax. simpl.
  destruct (ReportShare.expires_at share) as [e|]; [|done].
  specialize (Hexp e eq_refl). by apply Z.ltb_ge in Hexp as ->.
Qed.

Lemma zero_max_views_is_unlimited_witness :
  (SharedReportView_get "t2" None None
     (mkStore (demo_world demo_processing 9000000 []) (shares demo_store))).1
  = Ok (shared_report "r1").
Proof.
  apply (zero_max_views_is_unlimited "t2" None None
           (mkStore (demo_world demo_processing 9000000 []) (shares demo_store)) demo_open).
  - apply List.Forall_nil.
  - vm_compute. reflexivity.
  - reflexivity.
  - reflexivity.
  - intros e [= <-]. simpl. lia.
  - by left.
Defined.

(* ===================================================================== *)
(** * Cleaning up *)

Lemma Report_delete_keeps_reports r s :
  shares_have_reports s ->
  wp (Report_delete r) (fun _ s' => shares_have_reports s') s.
Proof.
  intros Hs. unfold Report_delete. destruct s as [[rs ws t fs0 ch pub q inv] sh].
  apply wp_bind, wp_on_base, wp_infra_used; simpl.
  - intros fs Hfs. apply wp_modify. simpl.
    intros tok share Htok. apply map_lookup_filter_Some in Htok as [Htok Hne].
    simpl in *. rewrite lookup_delete_ne by done.
    by apply (Hs tok share).
  - intros fs msg Hfs. intros tok share Htok. simpl in *.
    by apply (Hs tok share).
Qed.

Lemma for_each_delete_keeps_reports l s :
  shares_have_reports s ->
  wp (for_each_in Report_delete l) (fun _ s' => shares_have_reports s') s.
Proof.
  revert s. induction l as [|r l IH]; intros s Hs.
  - by apply wp_ret.
  - cbn [for_each_in]. apply wp_bind.
    eapply wp_mono; [|by apply Report_delete_keeps_reports].
    intros [[]|e] s' Hs'; cbv beta iota; [by apply IH | done].
Qed.

Lemma shares_have_reports_set_faults fs s :
  shares_have_reports s -> shares_have_reports (set_base (set_faults fs (base s)) s).
Proof.
  intros Hs tok share Htok. destruct s as [w sh]; simpl in *.
  replace (reports (set_faults fs w)) with (reports w) by (by destruct w).
  by apply (Hs tok share).
Qed.

(** X21. [cleanup_old_reports] keeps every share attached to a stored
    report: a report is deleted together with its shares, so if every
    share belongs to a stored report before the task, so it does after,
    wherever the task stops. *)
Theorem cleanup_keeps_shares_attached s :
  shares_have_reports s ->
  shares_have_reports (cleanup_old_reports s).2.
Proof.
  intros Hs.
  assert (Hwp : wp cleanup_old_reports (fun _ s' => shares_have_reports s') s).
  { unfold cleanup_old_reports.
    apply wp_try, wp_bind, wp_on_base. unfold timezone_now at 1. apply wp_gets.
    cbv beta iota.
    replace (set_base (base s) s) with s by (by destruct s).
    apply wp_bind, wp_on_base. unfold select.
    apply wp_bind, wp_infra_used.
    2: { intros fs msg _. cbv beta iota. apply wp_ret.
         by apply shares_have_reports_set_faults. }
    intros fs Hfs. apply wp_gets. cbv beta iota.
    apply wp_bind. eapply wp_mono;
      [|apply for_each_delete_keeps_reports; by apply shares_have_reports_set_faults].
    intros [[]|e] s1 Hs1; cbv beta iota; [|by apply wp_ret].
    apply wp_bind, wp_on_base. unfold timezone_now. apply wp_gets. cbv beta iota.
    replace (set_base (base s1) s1) with s1 by (by destruct s1).
    apply wp_bind, wp_on_base, wp_infra_used.
    2: { intros fs2 msg _. cbv beta iota. apply wp_ret.
         by apply shares_have_reports_set_faults. }
    intros fs2 Hfs2. cbv beta iota. apply wp_bind, wp_gets. cbv beta iota.
    pose proof (shares_have_reports_set_faults fs2 s1 Hs1) as Hs2.
    apply wp_bind, wp_on_base, wp_infra_used.
    2: { intros fs3 msg _. cbv beta iota. apply wp_ret.
         by apply (shares_have_reports_set_faults fs3) in Hs2. }
    intros fs3 Hfs3. cbv beta iota. apply wp_bind, wp_modify. cbv beta iota.
    apply wp_ret.
    apply (shares_have_reports_set_faults fs3) in Hs2.
    intros tok share Htok. cbn [shares set_shares] in Htok.
    rewrite lookup_fmap in Htok.
    destruct (shares _ !! tok) as [share0|] eqn:Hshare0; [|discriminate Htok].
    injection Htok as <-. specialize (Hs2 tok share0 Hshare0).
    assert (E : ReportShare.report_id (deactivate (now (base s1)) share0)
                = ReportShare.report_id share0).
    { unfold deactivate. by destruct (expired_active _ _). }
    rewrite E. exact Hs2. }
  exact Hwp.
Qed.

Lemma cleanup_keeps_shares_attached_witness :
  shares_have_reports (cleanup_old_reports demo_aged).2.
Proof.
  apply cleanup_keeps_shares_attached.
  intros tok share Htok. cbn [demo_aged shares] in Htok.
  apply lookup_insert_Some in Htok as [[_ <-]|[_ Htok]]; [by eexists|].
  apply lookup_singleton_Some in Htok as [_ <-]. by eexists.
Defined.

Lemma delete_all_lookup l m k :
  delete_all l m !! k = if decide (k ∈ Report.id <$> l) then None else m !! k.
Proof.
  unfold delete_all. revert m. induction l as [|r l IH]; intros m; [done|].
  cbn [foldl]. rewrite IH, fmap_cons.
  destruct (decide (k ∈ Report.id <$> l)) as [Hin|Hin].
  - rewrite decide_True; [done | by right].
  - destruct (decide (k = Report.id r)) as [->|Hne].
    + rewrite decide_True by (by left). apply lookup_delete_eq.
    + rewrite decide_False.
      * by apply lookup_delete_ne.
      * intros H. apply elem_of_cons in H as [?|?]; done.
Qed.

Lemma detach_all_lookup l sh tok :
  detach_all l sh !! tok
  = match sh !! tok with
    | Some share =>
        if decide (ReportShare.report_id share ∈ Report.id <$> l) then None else Some share
    | None => None
    end.
Proof.
  unfold detach_all. revert sh. induction l as [|r l IH]; intros sh.
  - simpl. by destruct (sh !! tok).
  - cbn [foldl]. rewrite IH, fmap_cons, map_lookup_filter.
    destruct (sh !! tok) as [share|]; [|done]. simpl.
    destruct (decide (ReportShare.report_id share = Report.id r)) as [E|E].
    + rewrite option_guard_False by (simpl; by intros H).
      simpl. rewrite decide_True; [done | rewrite E; by left].
    + rewrite option_guard_True by done. simpl.
      destruct (decide (ReportShare.report_id share ∈ Report.id <$> l)) as [Hin|Hin].
      * rewrite decide_True; [done | by right].
      * rewrite decide_False; [done|].
        intros H. apply elem_of_cons in H as [?|?]; done.
Qed.

Lemma Report_delete_quiet r s :
  quiet (base s) ->
  Report_delete r s
  = (Ok tt,
     mkStore
       (set_reports (delete (Report.id r) (reports (base s)))
          (set_faults (drop 1 (faults (base s))) (base s)))
       (filter (fun kv => ReportShare.report_id kv.2 <> Report.id r) (shares s))).
Proof.
  intros Hq. unfold Report_delete, bind, on_base, zoom, modify.
  rewrite (infra_quiet _ Hq). by destruct s as [[] ?].
Qed.

Lemma for_each_delete_quiet l s :
  quiet (base s) ->
  for_each_in Report_delete l s
  = (Ok tt,
     mkStore
       (set_reports (delete_all l (reports (base s)))
          (set_faults (drop (length l) (faults (base s))) (base s)))
       (detach_all l (shares s))).
Proof.
  revert s. induction l as [|r l IH]; intros s Hq.
  - simpl. unfold ret. by destruct s as [[] ?].
  - cbn [for_each_in]. unfold bind. rewrite (Report_delete_quiet r s Hq).
    rewrite IH.
    + destruct s as [[rs ws t fs ch pub q inv] sh]; simpl. by rewrite drop_drop.
    + destruct s as [[rs ws t fs ch pub q inv] sh]; unfold quiet in *; simpl in *.
      by apply Forall_drop.
Qed.

Lemma old_rows_ids w k :
  well_keyed w ->
  k ∈ Report.id <$> old_rows w <-> old_report (now w) (reports w) k = true.
Proof.
  intros Hwk. unfold old_report. rewrite list_elem_of_fmap. split.
  - intros (r & -> & Hr). apply rows_stored in Hr as [Hp Hr]; [|done]. by rewrite Hr.
  - destruct (reports w !! k) as [r|] eqn:Hr; [|done]. intros Hp.
    pose proof (well_keyed_lookup w k r Hwk Hr) as Hid. subst k.
    exists r. split; [done|]. by apply rows_stored.
Qed.

(** Without faults, the task runs to its end. *)
Lemma cleanup_quiet s :
  quiet (base s) ->
  let out := cleanup_old_reports s in
  let t := now (base s) in
  let l := old_rows (base s) in
  out.1 = Ok (cleanup_done (length l)
                (size (filter (fun kv => expired_active t kv.2 = true)
                         (detach_all l (shares s)))))
  /\ reports (base out.2) = delete_all l (reports (base s))
  /\ shares out.2 = deactivate t <$> detach_all l (shares s).
Proof.
  intros Hq. cbv zeta. unfold cleanup_old_reports, try_except.
  erewrite bind_ok; [|by destruct s].
  assert (Hsel : on_base (select (fun r => Report.created_at r <? now (base s) - days_90)) s
                 = (Ok (old_rows (base s)),
                    set_base (set_faults (drop 1 (faults (base s))) (base s)) s)).
  { unfold on_base, zoom. by rewrite (select_quiet _ _ Hq). }
  erewrite bind_ok; [|exact Hsel].
  erewrite bind_ok;
    [|apply for_each_delete_quiet; destruct s as [w sh]; by apply (quiet_drop 1 w)].
  set (s2 := mkStore _ _).
  assert (Hq2 : quiet (base s2)).
  { unfold s2. destruct s as [[rs ws t fs ch pub q inv] sh]; unfold quiet in *; simpl in *.
    by repeat apply Forall_drop. }
  erewrite bind_ok; [|reflexivity].
  erewrite bind_ok;
    [|unfold on_base, zoom; cbn [base set_base]; rewrite (infra_quiet _ Hq2); reflexivity].
  erewrite bind_ok; [|reflexivity].
  erewrite bind_ok;
    [|unfold on_base, zoom; cbn [base set_base];
      rewrite (infra_quiet _ (quiet_drop 1 _ Hq2)); reflexivity].
  erewrite bind_ok; [|reflexivity].
  unfold ret. cbn [fst snd].
  unfold s2. destruct s as [[rs ws t fs ch pub q inv] sh]. simpl. by repeat split.
Qed.

Lemma detach_old_lookup w sh tok :
  well_keyed w ->
  detach_all (old_rows w) sh !! tok
  = match sh !! tok with
    | Some share =>
        if old_report (now w) (reports w) (ReportShare.report_id share)
        then None else Some share
    | None => None
    end.
Proof.
  intros Hwk. rewrite detach_all_lookup. destruct (sh !! tok) as [share|]; [|done].
  destruct (decide (_ ∈ _)) as [Hin|Hin].
  - apply old_rows_ids in Hin; [|done]. by rewrite Hin.
  - destruct (old_report _ _ _) eqn:Ho; [|done].
    destruct Hin. by apply old_rows_ids.
Qed.

Lemma deactivate_not_expired_active t share :
  is_expired t (deactivate t share) = true ->
  ReportShare.is_active (deactivate t share) = false.
Proof.
  unfold deactivate, is_expired, expired_active.
  destruct (ReportShare.expires_at share) as [e|] eqn:He; simpl.
  - destruct (e <? t) eqn:Hlt; simpl.
    + destruct (ReportShare.is_active share) eqn:Ha; simpl; [done|].
      by rewrite He, Hlt, Ha.
    + by rewrite He, Hlt.
  - by rewrite He.
Qed.

(** X22. Without faults, and with every row stored under its id,
    [cleanup_old_reports] deletes exactly the reports created more than
    ninety days ago, with their shares, and counts them; of the shares
    that stay it deactivates those that have expired and changes nothing
    else, and it counts the shares it deactivated. Afterwards no stored
    share is both expired and active. *)
Theorem cleanup_removes_old_reports_and_expired_links s :
  quiet (base s) ->
  well_keyed (base s) ->
  let out := cleanup_old_reports s in
  let t := now (base s) in
  let m := reports (base s) in
  out.1 = Ok (cleanup_done
                (length (old_rows (base s)))
                (size (filter (fun kv => expired_active t kv.2 = true
                                         /\ old_report t m (ReportShare.report_id kv.2) = false)
                         (shares s))))
  /\ NoDup (Report.id <$> old_rows (base s))
  /\ (forall k, k ∈ Report.id <$> old_rows (base s) <-> old_report t m k = true)
  /\ (forall k, reports (base out.2) !! k = if old_report t m k then None else m !! k)
  /\ (forall tok,
        shares out.2 !! tok
        = match shares s !! tok with
          | Some share =>
              if old_report t m (ReportShare.report_id share) then None
              else Some (deactivate t share)
          | None => None
          end)
  /\ (forall tok share,
        shares out.2 !! tok = Some share ->
        is_expired t share = true -> ReportShare.is_active share = false).
Proof.
  intros Hq Hwk. cbv zeta.
  destruct (cleanup_quiet s Hq) as (Hres & Hrows & Hshares).
  assert (Hlook : forall tok,
            shares (cleanup_old_reports s).2 !! tok
            = match shares s !! tok with
              | Some share =>
                  if old_report (now (base s)) (reports (base s))
                       (ReportShare.report_id share)
                  then None else Some (deactivate (now (base s)) share)
              | None => None
              end).
  { intros tok. rewrite Hshares, lookup_fmap, (detach_old_lookup _ _ _ Hwk).
    destruct (shares s !! tok) as [share|]; [|done]. by destruct (old_report _ _ _). }
  split.
  { rewrite Hres. do 2 f_equal. f_equal. apply map_eq. intros tok.
    rewrite !map_lookup_filter, (detach_old_lookup _ _ _ Hwk).
    destruct (shares s !! tok) as [share|]; [|done]. simpl.
    destruct (old_report _ _ _) eqn:Ho; simpl.
    - rewrite option_guard_False; [done|]. simpl. intros [_ H]. discriminate H.
    - destruct (expired_active (now (base s)) share) eqn:He.
      + by rewrite !option_guard_True.
      + rewrite !option_guard_False; [done| |]; simpl; [by intros [H _] | done]. }
  split; [by apply rows_ids_NoDup|].
  split; [intros k; by apply old_rows_ids|].
  split.
  { intros k. rewrite Hrows, delete_all_lookup.
    destruct (decide (_ ∈ _)) as [Hin|Hin].
    - apply old_rows_ids in Hin; [|done]. by rewrite Hin.
    - destruct (old_report _ _ _) eqn:Ho; [|done].
      destruct Hin. by apply old_rows_ids. }
  split; [exact Hlook|].
  intros tok share Htok. rewrite Hlook in Htok.
  destruct (shares s !! tok) as [share0|]; [|discriminate Htok].
  destruct (old_report _ _ _); [discriminate Htok|]. injection Htok as <-.
  apply deactivate_not_expired_active.
Qed.

Lemma cleanup_removes_old_reports_and_expired_links_witness :
  let s := demo_aged in
  let out := cleanup_old_reports s in
  let t := now (base s) in
  let m := reports (base s) in
  out.1 = Ok (cleanup_done
                (length (old_rows (base s)))
                (size (filter (fun kv => expired_active t kv.2 = true
                                         /\ old_report t m (ReportShare.report_id kv.2) = false)
                         (shares s))))
  /\ NoDup (Report.id <$> old_rows (base s))
  /\ (forall k, k ∈ Report.id <$> old_rows (base s) <-> old_report t m k = true)
  /\ (forall k, reports (base out.2) !! k = if old_report t m k then None else m !! k)
  /\ (forall tok,
        shares out.2 !! tok
        = match shares s !! tok with
          | Some share =>
              if old_report t m (ReportShare.report_id share) then None
              else Some (deactivate t share)
          | None => None
          end)
  /\ (forall tok share,
        shares out.2 !! tok = Some share ->
        is_expired t share = true -> ReportShare.is_active share = false).
Proof.
  intros s. apply cleanup_removes_old_reports_and_expired_links.
  - apply List.Forall_nil.
  - intros k r Hk. unfold s in Hk. cbn [demo_aged base reports] in Hk.
    apply lookup_insert_Some in Hk as [[<- <-]|[_ Hk]]; [reflexivity|].
    apply lookup_singleton_Some in Hk as [<- <-]. reflexivity.
Defined.

(* ===================================================================== *)
(** * Creating a report *)

(** X23. [ReportCreateView.create] makes one call to the broker. When the
    broker takes the generation task, the view answers with the report as
    it is, the task is queued and no row is written. When the broker fails,
    nothing is queued, and the report is set to failed with the refusal as
    its only error message and saved: when the save goes through the view
    answers with that report, stored under its id; when the save fails as
    well, and only then, the view raises, with the error of the database,
    and the rows are as they were. *)
Theorem create_starts_generation_or_marks_failed report w :
  let out := ReportCreateView_create report w in
  match faults w with
  | Some msg :: fs =>
      queue out.2 = queue w
      /\ match fs with
         | Some msg' :: _ =>
             out.1 = Raise (Exception msg') /\ reports out.2 = reports w
         | _ =>
             exists r,
               out.1 = Ok r
               /\ Report.status r = failed
               /\ Report.error_messages r = ["Failed to start processing: " +:+ msg]
               /\ Report.id r = Report.id report
               /\ reports out.2 = <[Report.id report := r]> (reports w)
         end
  | _ =>
      out.1 = Ok report
      /\ queue out.2 = queue w ++ [generate_marketing_report_task (Report.id report)]
      /\ reports out.2 = reports w
  end.
Proof.
  cbv zeta.
  unfold ReportCreateView_create, delay, Report_save, bind, zoom, modify, timezone_now,
    gets, infra.
  assert (Hfailed : forall t msg,
            Report.status (saved t (start_failed (Exception msg) report)) = failed
            /\ Report.error_messages (saved t (start_failed (Exception msg) report))
               = ["Failed to start processing: " +:+ msg]
            /\ Report.id (saved t (start_failed (Exception msg) report))
               = Report.id report).
  { intros t msg. unfold start_failed. autorewrite with saved_fields. simpl.
    by repeat split. }
  destruct w as [rs ws t fs ch pub q inv]. cbn [faults].
  destruct fs as [|[m|] fs]; cbn.
  - by repeat split.
  - destruct (Hfailed t m) as (H1 & H2 & H3).
    destruct fs as [|[m'|] fs]; cbn.
    + split; [done|]. eexists. split; [reflexivity|]. rewrite H3. by repeat split.
    + by repeat split.
    + split; [done|]. eexists. split; [reflexivity|]. rewrite H3. by repeat split.
  - by repeat split.
Qed.

(* ===================================================================== *)
(** * The quality of the collected data *)

Lemma length_filter_split {A} (p : A -> bool) (l : list A) :
  (length (filter (fun x => negb (p x) = true) l)
   + length (filter (fun x => p x = true) l) = length l)%nat.
Proof.
  induction l as [|x l IH]; [done|].
  rewrite !filter_cons.
  repeat case_decide; destruct (p x); simpl in *; try done; lia.
Qed.

(** X24. The quality score and the list of collection errors split the
    sources: the score is computed from the number of sources that are
    not listed in [collection_errors], over the number of all sources. *)
Theorem quality_counts_sources_without_errors env d :
  d <> [] ->
  (length (collection_errors d) <= length d)%nat
  /\ calculate_data_quality_score env d
     = quality_pct env (Z.of_nat (length d - length (collection_errors d)))
         (Z.of_nat (length d)).
Proof.
  intros Hd. unfold calculate_data_quality_score, collection_errors, dict_keys.
  rewrite length_map.
  pose proof (length_filter_split (fun kv : string * json => has_error kv.2) d) as H.
  cbv beta in H. split; [lia|].
  destruct (Nat.eqb (length d) 0) eqn:E.
  - apply Nat.eqb_eq in E. by destruct d.
  - do 2 f_equal. lia.
Qed.

Lemma quality_counts_sources_without_errors_witness :
  let d := [("seo_data", JDict [("error", JStr "timeout")]); ("trust_score", JInt 7)] in
  (length (collection_errors d) <= length d)%nat
  /\ calculate_data_quality_score demo_env d
     = quality_pct demo_env (Z.of_nat (length d - length (collection_errors d)))
         (Z.of_nat (length d)).
Proof.
  intros d. apply quality_counts_sources_without_errors. discriminate.
Defined.

(* ===================================================================== *)
(** * Deleting a report *)

(** X25. [ReportDeleteView.destroy] ends in one of three ways. It answers
    204, and then the row of the report and the shares of the report are
    gone and nothing else has changed; it answers 404, and then no report
    is stored under the id and nothing has changed; or a call fails, and
    then no share has changed and the report is stored as it was or, if
    it was pending or processing, as cancelled. *)
Theorem destroy_deletes_report_with_its_shares id s :
  let out := ReportDeleteView_destroy id s in
  match out.1 with
  | Ok destroyed =>
      exists report,
        reports (base s) !! id = Some report
        /\ reports (base out.2) !! Report.id report = None
        /\ (forall k, k <> Report.id report ->
              reports (base out.2) !! k = reports (base s) !! k)
        /\ shares out.2
           = filter (fun kv => ReportShare.report_id kv.2 <> Report.id report) (shares s)
  | Ok destroy_not_found =>
      reports (base s) !! id = None
      /\ reports (base out.2) = reports (base s)
      /\ shares out.2 = shares s
  | Raise _ =>
      shares out.2 = shares s
      /\ (reports (base out.2) = reports (base s)
          \/ exists report,
               reports (base s) !! id = Some report
               /\ (Report.status report = pending \/ Report.status report = processing)
               /\ reports (base out.2)
                  = <[Report.id report := cancelled_report (now (base s)) report]>
                      (reports (base s)))
  end.
Proof.
  cbv zeta.
  change (wp (ReportDeleteView_destroy id)
            (fun res s' =>
               match res with
               | Ok destroyed =>
                   exists report,
                     reports (base s) !! id = Some report
                     /\ reports (base s') !! Report.id report = None
                     /\ (forall k, k <> Report.id report ->
                           reports (base s') !! k = reports (base s) !! k)
                     /\ shares s'
                        = filter (fun kv => ReportShare.report_id kv.2 <> Report.id report)
                            (shares s)
               | Ok destroy_not_found =>
                   reports (base s) !! id = None
                   /\ reports (base s') = reports (base s)
                   /\ shares s' = shares s
               | Raise _ =>
                   shares s' = shares s
                   /\ (reports (base s') = reports (base s)
                       \/ exists report,
                            reports (base s) !! id = Some report
                            /\ (Report.status report = pending
                                \/ Report.status report = processing)
                            /\ reports (base s')
                               = <[Report.id report :=
                                     cancelled_report (now (base s)) report]>
                                   (reports (base s)))
               end) s).
  unfold ReportDeleteView_destroy.
  destruct s as [[rs ws t fs ch pub q inv] sh].
  apply wp_bind, wp_on_base, wp_infra_used; simpl.
  2: { intros fs1 msg _. split; [done | by left]. }
  intros fs1 _. apply wp_bind, wp_gets. simpl.
  destruct (rs !! id) as [report|] eqn:Hrep; [|by apply wp_ret].
  assert (Hdel : forall rs1 fs2,
            (forall k, k <> Report.id report -> rs1 !! k = rs !! k) ->
            (rs1 = rs
             \/ ((Report.status report = pending \/ Report.status report = processing)
                 /\ rs1 = <[Report.id report := cancelled_report t report]> rs)) ->
            wp (Report_delete report ;; ret destroyed)
              (fun res s' =>
                 match res with
                 | Ok destroyed =>
                     exists report0,
                       Some report = Some report0
                       /\ reports (base s') !! Report.id report0 = None
                       /\ (forall k, k <> Report.id report0 ->
                             reports (base s') !! k = rs !! k)
                       /\ shares s'
                          = filter (fun kv => ReportShare.report_id kv.2 <> Report.id report0)
                              sh
                 | Ok destroy_not_found =>
                     Some report = None /\ reports (base s') = rs /\ shares s' = sh
                 | Raise _ =>
                     shares s' = sh
                     /\ (reports (base s') = rs
                         \/ exists report0,
                              Some report = Some report0
                              /\ (Report.status report0 = pending
                                  \/ Report.status report0 = processing)
                              /\ reports (base s')
                                 = <[Report.id report0 := cancelled_report t report0]> rs)
                 end)
              (mkStore (mkWorld rs1 ws t fs2 ch pub q inv) sh)).
  { intros rs1 fs2 Hother Hrs1. unfold Report_delete.
    apply wp_bind, wp_bind, wp_on_base, wp_infra_used; simpl.
    - intros fs3 _. apply wp_modify, wp_ret. simpl.
      exists report. split; [done|]. split; [apply lookup_delete_eq|].
      split; [|done]. intros k Hk. rewrite lookup_delete_ne by done. by apply Hother.
    - intros fs3 msg _. split; [done|].
      destruct Hrs1 as [->|[Hst ->]]; [by left|]. right. by exists report. }
  apply wp_bind.
  destruct (status_eqb (Report.status report) pending
            || status_eqb (Report.status report) processing) eqn:Hst.
  - assert (Hst' : Report.status report = pending \/ Report.status report = processing).
    { destruct (Report.status report); simpl in Hst; try discriminate; auto. }
    apply wp_on_base, wp_with_object, wp_Report_save_used; simpl.
    + intros fs2 _. apply Hdel.
      * intros k Hk. by rewrite lookup_insert_ne.
      * right. split; [done|]. reflexivity.
    + intros fs2 msg _. split; [done | by left].
  - apply wp_ret. simpl. apply Hdel; [done | by left].
Qed.

(* ===================================================================== *)
(** * Sharing a report *)

(** X26. [ReportShareCreateView.create] creates a share only for a stored
    report that is completed, attaches it to that report, and stores it
    under a token that was free; in every other case (no report, a report
    that is not completed, a failing call, a token that is taken) the
    shares are as they were. The reports are never touched. *)
Theorem share_is_created_for_completed_reports_only report_id data s :
  let out := ReportShareCreateView_create report_id data s in
  reports (base out.2) = reports (base s)
  /\ match out.1 with
     | Ok (share_created share) =>
         exists report,
           reports (base s) !! report_id = Some report
           /\ Report.status report = completed
           /\ ReportShare.report_id share = Report.id report
           /\ shares s !! ReportShare.share_token share = None
           /\ shares out.2 = <[ReportShare.share_token share := share]> (shares s)
     | _ => shares out.2 = shares s
     end.
Proof.
  cbv zeta.
  change (wp (ReportShareCreateView_create report_id data)
            (fun res s' =>
               reports (base s') = reports (base s)
               /\ match res with
                  | Ok (share_created share) =>
                      exists report,
                        reports (base s) !! report_id = Some report
                        /\ Report.status report = completed
                        /\ ReportShare.report_id share = Report.id report
                        /\ shares s !! ReportShare.share_token share = None
                        /\ shares s' = <[ReportShare.share_token share := share]> (shares s)
                  | _ => shares s' = shares s
                  end) s).
  unfold ReportShareCreateView_create.
  destruct s as [[rs ws t fs ch pub q inv] sh].
  apply wp_bind, wp_on_base, wp_infra_used; simpl; [|done].
  intros fs1 _. apply wp_bind, wp_gets. simpl.
  destruct (rs !! report_id) as [report|] eqn:Hrep; [|by apply wp_ret].
  destruct (status_eqb (Report.status report) completed) eqn:Hst; simpl;
    [|by apply wp_ret].
  apply wp_bind, wp_on_base, wp_infra_used; simpl; [|done].
  intros fs2 _. apply wp_bind, wp_gets. simpl.
  destruct (sh !! ReportShare.share_token data) eqn:Htok; [by apply wp_raise|].
  apply wp_bind, wp_modify, wp_ret. simpl. split; [done|].
  exists report. split; [done|]. split; [by destruct (Report.status report)|].
  by repeat split.
Qed.

(* ===================================================================== *)
(** * Creating the report and its website *)

Lemma wp_returning_object {T} (obj : T) (m : M (T * World) unit)
    (Q : res T -> World -> Prop) w :
  wp m (fun r s => Q (match r with Ok _ => Ok s.1 | Raise e => Raise e end) s.2) (obj, w) ->
  wp (returning_object obj m) Q w.
Proof. unfold wp, returning_object. by destruct (m (obj, w)) as [r s]. Qed.

Lemma wp_Website_save_exact env site (Q : res unit -> Website.t * World -> Prop) w :
  let site' :=
    Website.set_updated_at (now w)
      (if String.eqb (Website.domain site) "" && negb (String.eqb (Website.url site) "")
       then Website.set_domain (netloc env (Website.url site)) site
       else site) in
  (forall fs, suffix fs (faults w) ->
     Q (Ok tt) (site', set_websites (<[Website.id site := site']> (websites w))
                         (set_faults fs w))) ->
  (forall fs msg, faults w = Some msg :: fs ->
     Q (Raise (Exception msg)) (site', set_faults fs w)) ->
  wp (Website_save env) Q (site, w).
Proof.
  intros site' Hok Herr. unfold Website_save.
  apply wp_bind, wp_modify. simpl.
  apply wp_bind, wp_zoom, wp_gets. simpl.
  apply wp_bind, wp_modify. simpl.
  apply wp_bind, wp_zoom, wp_infra_used; simpl.
  - intros fs Hfs. apply wp_modify. simpl. subst site'.
    destruct (String.eqb (Website.domain site) "" && negb (String.eqb (Website.url site) ""));
      simpl in *; by apply Hok.
  - intros fs msg Hfs. by apply Herr.
Qed.

(** What [get_or_create] does to the websites. *)
Lemma get_or_create_website_spec env new_id website_url w :
  wp (get_or_create_website env new_id website_url)
     (fun res w' =>
        reports w' = reports w /\ now w' = now w /\ queue w' = queue w
        /\ match res with
           | Ok site =>
               Website.domain site = netloc env website_url
               /\ ((exists k, websites w !! k = Some site /\ websites w' = websites w)
                   \/ (Website.id site = new_id
                       /\ Website.url site = website_url
                       /\ (forall k a, websites w !! k = Some a ->
                             Website.domain a <> netloc env website_url)
                       /\ websites w' = <[new_id := site]> (websites w)))
           | Raise _ => websites w' = websites w
           end)
     w.
Proof.
  unfold get_or_create_website. destruct w as [rs ws t fs ch pub q inv].
  apply wp_bind, wp_infra_used; simpl; [|done].
  intros fs1 _. apply wp_bind, wp_gets. simpl.
  destruct (filter _ (map_to_list ws)) as [|[k site] [|x rest]] eqn:Hf.
  - apply wp_bind. unfold timezone_now. apply wp_gets. simpl.
    apply wp_returning_object, wp_Website_save_exact; simpl; [|done].
    intros fs2 _. do 3 (split; [done|]).
    split; [by destruct (_ && _)|].
    right. split; [by destruct (_ && _)|]. split; [by destruct (_ && _)|].
    split; [|done]. intros k a Hk Hd.
    assert (Hin : (k, a) ∈ filter (fun kv : Z * Website.t =>
                                     Website.domain kv.2 = netloc env website_url)
                             (map_to_list ws)).
    { apply list_elem_of_filter. split; [done|]. by apply elem_of_map_to_list. }
    rewrite Hf in Hin. by apply elem_of_nil in Hin.
  - apply wp_ret. simpl. do 3 (split; [done|]).
    assert (Hin : (k, site) ∈ filter (fun kv : Z * Website.t =>
                                        Website.domain kv.2 = netloc env website_url)
                                (map_to_list ws)) by (rewrite Hf; by left).
    apply list_elem_of_filter in Hin as [Hd Hin]. apply elem_of_map_to_list in Hin.
    split; [done|]. left. by exists k.
  - by apply wp_raise.
Qed.

(** X27. Creating a report never gives two websites the same domain: when
    the key of a new website row is free, the websites have different
    domains after [ReportCreateSerializer.create] if they had before, and
    no stored website is changed: a second report for a domain reuses the
    stored website, with the URL it was first created with. *)
Theorem create_keeps_one_website_per_domain env new_website_id new_report_id
    website_url requester_email w :
  websites w !! new_website_id = None ->
  domains_unique w ->
  let out := ReportCreateSerializer_create env new_website_id new_report_id website_url
               requester_email w in
  domains_unique out.2
  /\ forall k a, websites w !! k = Some a -> websites out.2 !! k = Some a.
Proof.
  intros Hfresh Hu. cbv zeta.
  change (wp (ReportCreateSerializer_create env new_website_id new_report_id website_url
                requester_email)
            (fun _ w' =>
               domains_unique w'
               /\ forall k a, websites w !! k = Some a -> websites w' !! k = Some a) w).
  unfold ReportCreateSerializer_create.
  assert (Hkeep : forall w1 w2 : World,
            websites w2 = websites w1 ->
            (websites w1 = websites w
             \/ exists site, Website.domain site = netloc env website_url
                  /\ (forall k a, websites w !! k = Some a ->
                        Website.domain a <> netloc env website_url)
                  /\ websites w1 = <[new_website_id := site]> (websites w)) ->
            domains_unique w2
            /\ forall k a, websites w !! k = Some a -> websites w2 !! k = Some a).
  { intros w1 w2 E2 H. unfold domains_unique. rewrite E2. clear E2 w2.
    destruct H as [E|(site & Hd & Hno & E)].
    - rewrite E. by split.
    - split.
      + intros i j a b. rewrite E. intros Hi Hj Hab.
        apply lookup_insert_Some in Hi as [[<- <-]|[Hni Hi]];
          apply lookup_insert_Some in Hj as [[<- <-]|[Hnj Hj]].
        * done.
        * destruct (Hno j b Hj). congruence.
        * destruct (Hno i a Hi). congruence.
        * by apply (Hu i j a b).
      + intros k a Hk. rewrite E. rewrite lookup_insert_ne; [done|]. congruence. }
  apply wp_bind. eapply wp_mono; [|apply get_or_create_website_spec].
  intros [site|e] w1 (Hr & Hn & Hq & H); cbv beta iota.
  2: { apply (Hkeep w1); [done | by left]. }
  assert (Hw1 : websites w1 = websites w
                \/ exists site0, Website.domain site0 = netloc env website_url
                     /\ (forall k a, websites w !! k = Some a ->
                           Website.domain a <> netloc env website_url)
                     /\ websites w1 = <[new_website_id := site0]> (websites w)).
  { destruct H as [Hd [(k & _ & E)|(_ & _ & Hno & E)]]; [by left|].
    right. by exists site. }
  apply wp_bind. unfold timezone_now. apply wp_gets. cbv beta iota.
  apply wp_bind, wp_gets. cbv beta iota.
  destruct (reports w1 !! new_report_id).
  - apply wp_bind, wp_infra_used.
    + intros fs _. apply wp_raise.
      exact (Hkeep w1 (set_faults fs w1) ltac:(by destruct w1) Hw1).
    + intros fs msg _.
      exact (Hkeep w1 (set_faults fs w1) ltac:(by destruct w1) Hw1).
  - apply wp_returning_object, wp_Report_save_used.
    + intros fs _.
      exact (Hkeep w1 (set_reports _ (set_faults fs w1)) ltac:(by destruct w1) Hw1).
    + intros fs msg _.
      exact (Hkeep w1 (set_faults fs w1) ltac:(by destruct w1) Hw1).
Qed.

Lemma create_keeps_one_website_per_domain_witness :
  let w := demo_world demo_processing 5000000 [] in
  let out := ReportCreateSerializer_create demo_env 2 "r9" "example.com" "" w in
  domains_unique out.2
  /\ forall k a, websites w !! k = Some a -> websites out.2 !! k = Some a.
Proof.
  intros w. apply create_keeps_one_website_per_domain.
  - vm_compute. reflexivity.
  - intros i j a b Hi Hj _. unfold w in Hi, Hj. cbn [demo_world websites] in Hi, Hj.
    apply lookup_singleton_Some in Hi as [<- _].
    by apply lookup_singleton_Some in Hj as [<- _].
Defined.

(** X28. When [ReportCreateSerializer.create] returns a report, the
    report is new and pending, it is stored under its id, and it belongs
    to a stored website whose domain is the network location of the
    requested URL. Nothing is handed to the broker. *)
Theorem create_stores_pending_report_for_domain env new_website_id new_report_id
    website_url requester_email w report :
  websites_keyed w ->
  let out := ReportCreateSerializer_create env new_website_id new_report_id website_url
               requester_email w in
  out.1 = Ok report ->
  reports w !! new_report_id = None
  /\ reports out.2 !! new_report_id = Some report
  /\ Report.id report = new_report_id
  /\ Report.status report = pending
  /\ Report.requester_email report = requester_email
  /\ Report.error_messages report = []
  /\ (exists site, websites out.2 !! Report.website_id report = Some site
                   /\ Website.domain site = netloc env website_url)
  /\ queue out.2 = queue w.
Proof.
  intros Hkeyed. cbv zeta.
  assert (Hwp : wp (ReportCreateSerializer_create env new_website_id new_report_id
                      website_url requester_email)
                  (fun res w' =>
                     forall report, res = Ok report ->
                       reports w !! new_report_id = None
                       /\ reports w' !! new_report_id = Some report
                       /\ Report.id report = new_report_id
                       /\ Report.status report = pending
                       /\ Report.requester_email report = requester_email
                       /\ Report.error_messages report = []
                       /\ (exists site, websites w' !! Report.website_id report = Some site
                                        /\ Website.domain site = netloc env website_url)
                       /\ queue w' = queue w) w).
  { unfold ReportCreateSerializer_create.
    apply wp_bind. eapply wp_mono; [|apply get_or_create_website_spec].
    intros [site|e] w1 (Hr & Hn & Hq & H); cbv beta iota; [|discriminate].
    destruct H as [Hd Hsite].
    assert (Hstored : websites w1 !! Website.id site = Some site).
    { destruct Hsite as [(k & Hk & ->)|(Hid & _ & _ & ->)].
      - by rewrite (Hkeyed k site Hk).
      - rewrite Hid. apply lookup_insert_eq. }
    apply wp_bind. unfold timezone_now. apply wp_gets. cbv beta iota.
    apply wp_bind, wp_gets. cbv beta iota.
    destruct (reports w1 !! new_report_id) eqn:Htaken.
    - apply wp_bind, wp_infra_used.
      + intros fs _. apply wp_raise. discriminate.
      + intros fs msg _. discriminate.
    - apply wp_returning_object, wp_Report_save_used; simpl; [|discriminate].
      intros fs _ report0 [= <-]. autorewrite with saved_fields. simpl.
      split; [congruence|].
      split; [destruct w1; simpl; apply lookup_insert_eq|].
      do 4 (split; [done|]).
      split; [exists site; split; [by destruct w1 | done]|].
      destruct w1; simpl in *. congruence. }
  intros Hres. exact (Hwp report Hres).
Qed.

Lemma create_stores_pending_report_for_domain_witness :
  let w := demo_world demo_processing 5000000 [] in
  let out := ReportCreateSerializer_create demo_env 2 "r9" "shop.example" "ann@example.com" w in
  exists report,
    out.1 = Ok report
    /\ reports w !! "r9" = None
    /\ reports out.2 !! "r9" = Some report
    /\ Report.id report = "r9"
    /\ Report.status report = pending
    /\ Report.requester_email report = "ann@example.com"
    /\ Report.error_messages report = []
    /\ (exists site, websites out.2 !! Report.website_id report = Some site
                     /\ Website.domain site = netloc demo_env "shop.example")
    /\ queue out.2 = queue w.
Proof.
  intros w out.
  destruct out.1 as [report|e] eqn:Hout; [|vm_compute in Hout; discriminate Hout].
  exists report. split; [reflexivity|].
  apply (create_stores_pending_report_for_domain demo_env 2 "r9" "shop.example"
           "ann@example.com" w report).
  - intros k a Hk. unfold w in Hk. cbn [demo_world websites] in Hk.
    by apply lookup_singleton_Some in Hk as [<- <-].
  - exact Hout.
Defined.
